(** * Adaptive scraping task pipeline: a shallow embedding

    The Python sources are embedded module by module:

    - [Py]               Python values, dicts, exceptions, the result monad
    - [DomainConfigModel] app/models/domain_config.py
    - [SchemaGenerator]  app/services/schema_generator.py
    - [ContentScraper]   app/scrapers/content_scraper.py and
                         [Scraper._extract_media_urls] of app/services/scraper.py
    - [Tasks]            app/models/task_response.py, app/models/task.py
    - [TaskManager]      app/queue/task_manager.py (Celery task)
    - [QueueManager]     app/services/queue.py (asyncio loop)
    - [QueueService]     app/services/queue_service.py
    - [Helpers]          app/utils/helpers.py
    - [Scraper]          app/services/scraper.py (extraction from dict rules)
    - [TaskManagerCleanup], [CeleryQueueManager]
                         the periodic cleanup, and app/queue_manager.py

    The properties follow the embedding, one module of facts per source
    module.

    Python is dynamically typed: a dataclass field holds whatever value the
    constructor was given, so record fields are Python values ([pyval]) and
    the declared types appear as well-typedness predicates. *)

From stdpp Require Import base option list strings gmap.
From Stdlib Require Import ZArith Lia.

Local Open Scope string_scope.

(* ===================================================================== *)
(** ** Python values, exceptions and dicts *)
(* ===================================================================== *)

Module Py.

(** [SelectorType(Enum)] of app/models/domain_config.py.  It is a plain
    [Enum] (no [str] mixin), so a member never compares equal to a string. *)
Inductive SelectorType := XPATH | CSS.

Definition SelectorType_value (t : SelectorType) : string :=
  match t with XPATH => "xpath" | CSS => "css" end.

(** The values that flow through the configuration code: JSON data plus
    enum members. *)
#[warnings="-register-all"]
Inductive pyval :=
| PNone
| PBool (b : bool)
| PInt (n : Z)
| PStr (s : string)
| PList (l : list pyval)
| PDict (d : list (string * pyval))
| PEnum (t : SelectorType).

(** [bool(v)], as used by [if v:]. *)
Definition truthy (v : pyval) : bool :=
  match v with
  | PNone => false
  | PBool b => b
  | PInt n => negb (n =? 0)%Z
  | PStr s => negb (String.eqb s "")
  | PList l => match l with [] => false | _ => true end
  | PDict d => match d with [] => false | _ => true end
  | PEnum _ => true
  end.

Definition type_name (v : pyval) : string :=
  match v with
  | PNone => "NoneType" | PBool _ => "bool" | PInt _ => "int"
  | PStr _ => "str" | PList _ => "list" | PDict _ => "dict"
  | PEnum _ => "SelectorType"
  end.

(** Exception classes.  The first three are app/core/exceptions.py;
    [MissingContentError] and [ExtractionError] are imported by the task
    manager and the queue service; [Builtin] stands for every other class
    (KeyError, TypeError, requests.Timeout, ...). *)
Inductive exn_class :=
| ScrapingException
| ConfigGenerationError
| ContentExtractionError
| MissingContentError
| ExtractionError
| Builtin (name : string).

Record exn := Exn { exn_cls : exn_class; exn_msg : string }.

(** [str(e)] *)
Definition str_exn (e : exn) : string := exn_msg e.

Inductive result (A : Type) :=
| Ok (a : A)
| Raise (e : exn).
Arguments Ok {A} a.
Arguments Raise {A} e.

Definition rbind {A B} (r : result A) (k : A -> result B) : result B :=
  match r with Ok a => k a | Raise e => Raise e end.

Definition KeyError (k : string) : exn := Exn (Builtin "KeyError") k.
Definition TypeError (m : string) : exn := Exn (Builtin "TypeError") m.
Definition ValueError (m : string) : exn := Exn (Builtin "ValueError") m.
Definition AttributeError (m : string) : exn := Exn (Builtin "AttributeError") m.

(** *** Dicts with string keys, in insertion order *)

Section Dict.
Context {V : Type}.

Fixpoint dict_get (k : string) (d : list (string * V)) : option V :=
  match d with
  | [] => None
  | (k', v) :: rest => if String.eqb k k' then Some v else dict_get k rest
  end.

(** [d[k] = v]: overwrite in place, or append a new key. *)
Fixpoint dict_set (k : string) (v : V) (d : list (string * V)) : list (string * V) :=
  match d with
  | [] => [(k, v)]
  | (k', v') :: rest =>
      if String.eqb k k' then (k, v) :: rest else (k', v') :: dict_set k v rest
  end.

(** [{**a, **b}] *)
Definition dict_merge (a b : list (string * V)) : list (string * V) :=
  fold_left (fun acc kv => dict_set kv.1 kv.2 acc) (a ++ b) [].

Definition keys (d : list (string * V)) : list string := map fst d.
End Dict.

(** [d[k]] on a Python value. *)
Definition subscript (v : pyval) (k : string) : result pyval :=
  match v with
  | PDict d => match dict_get k d with
               | Some x => Ok x
               | None => Raise (KeyError k)
               end
  | _ => Raise (TypeError ("'" ++ type_name v ++ "' object is not subscriptable by key"))
  end.

(** [d.get(k, default)] on a dict. *)
Definition get_default (d : list (string * pyval)) (k : string) (default : pyval) : pyval :=
  match dict_get k d with Some x => x | None => default end.

(** [v.items()] *)
Definition items (v : pyval) : result (list (string * pyval)) :=
  match v with
  | PDict d => Ok d
  | _ => Raise (AttributeError ("'" ++ type_name v ++ "' object has no attribute 'items'"))
  end.

(** Run [f] over the items of a dict, stopping at the first exception. *)
Fixpoint map_items {A B} (f : A -> result B) (d : list (string * A)) : result (list (string * B)) :=
  match d with
  | [] => Ok []
  | (k, a) :: rest =>
      rbind (f a) (fun b => rbind (map_items f rest) (fun rest' => Ok ((k, b) :: rest')))
  end.

End Py.

Export Py.

Declare Scope py_scope.
Delimit Scope py_scope with py.
Notation "x <- c1 ;; c2" := (rbind c1 (fun x => c2))
  (at level 100, c1 at next level, right associativity) : py_scope.
Local Open Scope py_scope.

(* ===================================================================== *)
(** ** app/models/domain_config.py *)
(* ===================================================================== *)

Module DomainConfigModel.

(** [@dataclass ExtractionRule]; the annotations are
    [selector: str], [selector_type: SelectorType],
    [attribute: Optional[str] = None], [post_process: Optional[str] = None]. *)
Record ExtractionRule := mkRule {
  selector : pyval;
  selector_type : pyval;
  attribute : pyval;
  post_process : pyval
}.

Record MediaExtraction := mkMedia {
  images : ExtractionRule;
  videos : ExtractionRule;
  embeds : ExtractionRule
}.

Record DomainConfig := mkConfig {
  domain : pyval;
  use_headless : pyval;
  use_proxy : pyval;
  timeout : pyval;
  user_agent : pyval;
  proxy_config : pyval;
  retry_count : pyval;
  extraction_rules : list (string * ExtractionRule);
  media_rules : MediaExtraction
}.

(** [v.value]: defined on enum members only. *)
Definition enum_value (v : pyval) : result pyval :=
  match v with
  | PEnum t => Ok (PStr (SelectorType_value t))
  | _ => Raise (AttributeError ("'" ++ type_name v ++ "' object has no attribute 'value'"))
  end.

(** The dict written for one entry of [extraction_rules] (four keys). *)
Definition rule_to_dict (v : ExtractionRule) : result pyval :=
  st <- enum_value (selector_type v) ;;
  Ok (PDict [("selector", selector v);
             ("selector_type", st);
             ("attribute", attribute v);
             ("post_process", post_process v)]).

(** The dict written for one media rule (three keys: no [post_process]). *)
Definition media_rule_to_dict (v : ExtractionRule) : result pyval :=
  st <- enum_value (selector_type v) ;;
  Ok (PDict [("selector", selector v);
             ("selector_type", st);
             ("attribute", attribute v)]).

(** [DomainConfig.to_dict] *)
Definition to_dict (self : DomainConfig) : result pyval :=
  rules <- map_items rule_to_dict (extraction_rules self) ;;
  im <- media_rule_to_dict (images (media_rules self)) ;;
  vi <- media_rule_to_dict (videos (media_rules self)) ;;
  em <- media_rule_to_dict (embeds (media_rules self)) ;;
  Ok (PDict [("domain", domain self);
             ("use_headless", use_headless self);
             ("use_proxy", use_proxy self);
             ("timeout", timeout self);
             ("user_agent", user_agent self);
             ("proxy_config", proxy_config self);
             ("retry_count", retry_count self);
             ("extraction_rules", PDict rules);
             ("media_rules", PDict [("images", im); ("videos", vi); ("embeds", em)])]).

(** The declared field types, as decidable predicates. *)
Definition is_str (v : pyval) : bool := match v with PStr _ => true | _ => false end.
Definition is_optional_str (v : pyval) : bool :=
  match v with PStr _ | PNone => true | _ => false end.
Definition is_enum (v : pyval) : bool := match v with PEnum _ => true | _ => false end.
Definition is_bool (v : pyval) : bool := match v with PBool _ => true | _ => false end.
Definition is_int (v : pyval) : bool := match v with PInt _ => true | _ => false end.
Definition is_optional_dict (v : pyval) : bool :=
  match v with PDict _ | PNone => true | _ => false end.

Definition well_typed_rule (r : ExtractionRule) : bool :=
  is_str (selector r) && is_enum (selector_type r)
  && is_optional_str (attribute r) && is_optional_str (post_process r).

Definition well_typed (c : DomainConfig) : bool :=
  is_str (domain c) && is_bool (use_headless c) && is_bool (use_proxy c)
  && is_int (timeout c) && is_optional_str (user_agent c)
  && is_optional_dict (proxy_config c) && is_int (retry_count c)
  && forallb (fun kv => well_typed_rule kv.2) (extraction_rules c)
  && well_typed_rule (images (media_rules c))
  && well_typed_rule (videos (media_rules c))
  && well_typed_rule (embeds (media_rules c)).

End DomainConfigModel.

(* ===================================================================== *)
(** ** app/services/schema_generator.py *)
(* ===================================================================== *)

Module SchemaGenerator.
Import DomainConfigModel.

(** What a path of the rules directory holds: a JSON document, or bytes
    that [json.load] rejects (an empty or half-written file). *)
Inductive file :=
| JsonFile (v : pyval)
| InvalidFile.

(** [SelectorType(v)]: member lookup by value. *)
Definition SelectorType_call (v : pyval) : result pyval :=
  match v with
  | PStr s =>
      if String.eqb s "xpath" then Ok (PEnum XPATH)
      else if String.eqb s "css" then Ok (PEnum CSS)
      else Raise (ValueError (s ++ " is not a valid SelectorType"))
  | PEnum t => Ok (PEnum t)
  | _ => Raise (ValueError (type_name v ++ " is not a valid SelectorType"))
  end.

(** [v.get(k, default)] *)
Definition get_method (v : pyval) (k : string) (default : pyval) : result pyval :=
  match v with
  | PDict d => Ok (get_default d k default)
  | _ => Raise (AttributeError ("'" ++ type_name v ++ "' object has no attribute 'get'"))
  end.

(** [ExtractionRule(selector=rule["selector"],
                    selector_type=SelectorType(rule["selector_type"]),
                    attribute=rule.get("attribute"),
                    post_process=rule.get("post_process"))] *)
Definition parse_rule (rule : pyval) : result ExtractionRule :=
  sel <- subscript rule "selector" ;;
  st0 <- subscript rule "selector_type" ;;
  st <- SelectorType_call st0 ;;
  attr <- get_method rule "attribute" PNone ;;
  pp <- get_method rule "post_process" PNone ;;
  Ok (mkRule sel st attr pp).

Definition rule_fields : list string :=
  ["selector"; "selector_type"; "attribute"; "post_process"].

Definition known_field (k : string) : bool :=
  existsb (String.eqb k) rule_fields.

(** [ExtractionRule] called with the dict unpacked as keyword arguments
    (the double-star call): the keyword arguments are stored as they are;
    nothing converts ["selector_type"] to an enum member. *)
Definition ExtractionRule_kwargs (d : pyval) : result ExtractionRule :=
  match d with
  | PDict kw =>
      if forallb known_field (keys kw) then
        match dict_get "selector" kw, dict_get "selector_type" kw with
        | Some sel, Some st =>
            Ok (mkRule sel st (get_default kw "attribute" PNone)
                              (get_default kw "post_process" PNone))
        | _, _ => Raise (TypeError "__init__() missing required positional argument")
        end
      else Raise (TypeError "__init__() got an unexpected keyword argument")
  | _ => Raise (TypeError "argument after ** must be a mapping")
  end.

(** [MediaExtraction(images=..., videos=..., embeds=...)], each rule built
    by the double-star call on the entry of that name. *)
Definition parse_media (m : pyval) : result MediaExtraction :=
  im0 <- subscript m "images" ;;
  im <- ExtractionRule_kwargs im0 ;;
  vi0 <- subscript m "videos" ;;
  vi <- ExtractionRule_kwargs vi0 ;;
  em0 <- subscript m "embeds" ;;
  em <- ExtractionRule_kwargs em0 ;;
  Ok (mkMedia im vi em).

(** [SchemaGenerator._parse_config] *)
Definition _parse_config (data : pyval) : result DomainConfig :=
  er <- subscript data "extraction_rules" ;;
  its <- items er ;;
  rules <- map_items parse_rule its ;;
  mr <- subscript data "media_rules" ;;
  media <- parse_media mr ;;
  dom <- subscript data "domain" ;;
  uh <- get_method data "use_headless" (PBool false) ;;
  up <- get_method data "use_proxy" (PBool false) ;;
  tm <- get_method data "timeout" (PInt 30) ;;
  ua <- get_method data "user_agent" PNone ;;
  pc <- get_method data "proxy_config" PNone ;;
  rc <- get_method data "retry_count" (PInt 3) ;;
  Ok (mkConfig dom uh up tm ua pc rc rules media).

Definition media_names : list string := ["images"; "videos"; "embeds"].

(** [SchemaGenerator._convert_schema_to_config] *)
Definition _convert_schema_to_config (domain : string) (schema : pyval) : result DomainConfig :=
  its <- items schema ;;
  rules <- map_items parse_rule
             (filter (fun kv => negb (existsb (String.eqb kv.1) media_names)) its) ;;
  media <- parse_media schema ;;
  Ok (mkConfig (PStr domain) (PBool false) (PBool false) (PInt 30) PNone PNone (PInt 3)
               rules media).

(** Whether [json.dump] accepts the value. *)
Fixpoint json_serializable (v : pyval) : bool :=
  match v with
  | PEnum _ => false
  | PList l => forallb json_serializable l
  | PDict d => forallb (fun kv => json_serializable (snd kv)) d
  | _ => true
  end.

Section WithEnvironment.
(** [urlparse(url).netloc] *)
Variable netloc : string -> string.
(** [self.config_dir] *)
Variable config_dir : string.

Definition _get_config_path (domain : string) : string :=
  config_dir ++ "/" ++ domain ++ ".json".

(** [SchemaGenerator.load_config]: [None] when the file is missing, is
    not JSON, or does not parse. *)
Definition load_config (files : gmap string file) (url : string) : option DomainConfig :=
  match files !! _get_config_path (netloc url) with
  | Some (JsonFile data) =>
      match _parse_config data with
      | Ok config => Some config
      | Raise _ => None
      end
  | Some InvalidFile => None
  | None => None
  end.

(** [SchemaGenerator.generate_config]; [analysis] is what
    [self.crawler.analyze_page(url, fields=[...])] does.  The file is
    opened for writing (and so truncated) before [config.to_dict()] is
    evaluated. *)
Definition generate_config (files : gmap string file) (url : string)
    (analysis : result pyval) : result DomainConfig * gmap string file :=
  match analysis with
  | Raise e => (Raise e, files)
  | Ok schema =>
      match _convert_schema_to_config (netloc url) schema with
      | Raise e => (Raise e, files)
      | Ok config =>
          let path := _get_config_path (netloc url) in
          match to_dict config with
          | Raise e => (Raise e, <[path := InvalidFile]> files)
          | Ok d =>
              if json_serializable d
              then (Ok config, <[path := JsonFile d]> files)
              else (Raise (TypeError "Object is not JSON serializable"),
                    <[path := InvalidFile]> files)
          end
      end
  end.
End WithEnvironment.

(** What a reload holds for a media rule that was written by [to_dict]:
    the selector type comes back as the string that was written, and
    [post_process], which is not written, is [None]. *)
Definition reloaded_media_rule (r : ExtractionRule) : ExtractionRule :=
  mkRule (selector r)
         (match selector_type r with
          | PEnum t => PStr (SelectorType_value t)
          | v => v
          end)
         (attribute r)
         PNone.

Definition reloaded (c : DomainConfig) : DomainConfig :=
  mkConfig (domain c) (use_headless c) (use_proxy c) (timeout c) (user_agent c)
           (proxy_config c) (retry_count c) (extraction_rules c)
           (mkMedia (reloaded_media_rule (images (media_rules c)))
                    (reloaded_media_rule (videos (media_rules c)))
                    (reloaded_media_rule (embeds (media_rules c)))).

(** A sample recipe. *)
Definition sample_config : DomainConfig :=
  mkConfig (PStr "example.com") (PBool false) (PBool false) (PInt 30) PNone PNone (PInt 3)
    [("title", mkRule (PStr "h1") (PEnum CSS) PNone (PStr "strip"))]
    (mkMedia (mkRule (PStr "img") (PEnum CSS) (PStr "src") PNone)
             (mkRule (PStr "video") (PEnum CSS) (PStr "src") PNone)
             (mkRule (PStr "iframe") (PEnum CSS) (PStr "src") PNone)).

End SchemaGenerator.

(* ===================================================================== *)
(** ** app/scrapers/content_scraper.py, and the media extraction of
       app/services/scraper.py *)
(* ===================================================================== *)

Module ContentScraper.
Import DomainConfigModel.

(** [try: body except Exception as e: handler(e)] *)
Definition try_except {A} (body : result A) (handler : exn -> result A) : result A :=
  match body with
  | Ok a => Ok a
  | Raise e => handler e
  end.

(** A tag of the parsed document: its attributes in source order.  An
    attribute value is a string, or a list of strings for a multi-valued
    attribute such as [class]. *)
Record Tag := mkTag {
  attrs : list (string * pyval);
  tag_name : string
}.

(** [element.get(key)], that is [element.attrs.get(key)]. *)
Definition Tag_get (element : Tag) (key : pyval) : result pyval :=
  match key with
  | PStr k => Ok (get_default (attrs element) k PNone)
  | PList _ | PDict _ => Raise (TypeError ("unhashable type: '" ++ type_name key ++ "'"))
  | _ => Ok PNone
  end.

(** [ScrapedContent] as [ContentScraper.scrape] builds it. *)
Record ScrapedContent := mkScraped {
  title : pyval;
  content : pyval;
  author : pyval;
  publish_date : pyval;
  language : pyval;
  categories : pyval;
  media_files : list (string * list pyval)
}.

Definition is_AttributeError (e : exn) : bool :=
  match exn_cls e with
  | Builtin n => String.eqb n "AttributeError"
  | _ => false
  end.

Section WithSelectorEngine.
(** The parsed document and the selector engines are BeautifulSoup's;
    both engines return the matching tags in document order, or raise
    (for example on a selector they cannot parse). *)
Variable Soup : Type.
(** [soup.select(selector)] *)
Variable select : Soup -> pyval -> result (list Tag).
(** [soup.find_all(xpath=selector)] *)
Variable find_all_xpath : Soup -> pyval -> result (list Tag).
(** [element.get_text(strip=True)] *)
Variable get_text : Tag -> result string.

(** [rule.selector_type == SelectorType.CSS] *)
Definition is_CSS (v : pyval) : bool :=
  match v with PEnum CSS => true | _ => false end.

(** The first statement of both extraction functions. *)
Definition select_elements (soup : Soup) (rule : ExtractionRule) : result (list Tag) :=
  if is_CSS (selector_type rule)
  then select soup (selector rule)
  else find_all_xpath soup (selector rule).

(** [ContentScraper._extract_with_selector].  The engines return tags,
    so the source's [element is None] test is never true. *)
Definition _extract_with_selector (soup : Soup) (rule : ExtractionRule) : result pyval :=
  try_except
    (elements <- select_elements soup rule ;;
     match elements with
     | [] => Ok PNone
     | element :: _ =>
         if truthy (attribute rule)
         then Tag_get element (attribute rule)
         else try_except
                (s <- get_text element ;; Ok (PStr s))
                (fun e => if is_AttributeError e then Ok PNone else Raise e)
     end)
    (fun _ => Ok PNone).

(** The [for element in elements] loop of [_extract_media]. *)
Fixpoint media_loop (rule : ExtractionRule) (elements : list Tag) (urls : list pyval)
    : result (list pyval) :=
  match elements with
  | [] => Ok urls
  | element :: rest =>
      if truthy (attribute rule) then
        url <- Tag_get element (attribute rule) ;;
        media_loop rule rest (if truthy url then urls ++ [url] else urls)
      else media_loop rule rest urls
  end.

(** [ContentScraper._extract_media] *)
Definition _extract_media (soup : Soup) (rule : ExtractionRule) : result (list pyval) :=
  try_except
    (elements <- select_elements soup rule ;;
     media_loop rule elements [])
    (fun _ => Ok []).

(** The [for field, rule in config.extraction_rules.items()] loop of
    [scrape]: [content[field] = self._extract_with_selector(soup, rule)]. *)
Fixpoint extract_loop (soup : Soup) (rules : list (string * ExtractionRule))
    (content : list (string * pyval)) : result (list (string * pyval)) :=
  match rules with
  | [] => Ok content
  | (field, rule) :: rest =>
      v <- _extract_with_selector soup rule ;;
      extract_loop soup rest (dict_set field v content)
  end.

(** [ContentScraper.scrape] from the parsed page on; [page] is the
    outcome of fetching the URL (requests or headless Chrome) and
    parsing it. *)
Definition scrape (page : result Soup) (config : DomainConfig) : result ScrapedContent :=
  soup <- page ;;
  content <- extract_loop soup (extraction_rules config) [] ;;
  im <- _extract_media soup (images (media_rules config)) ;;
  vi <- _extract_media soup (videos (media_rules config)) ;;
  em <- _extract_media soup (embeds (media_rules config)) ;;
  Ok (mkScraped (get_default content "title" PNone)
                (get_default content "content" PNone)
                (get_default content "author" PNone)
                (get_default content "publish_date" PNone)
                (get_default content "language" PNone)
                (get_default content "categories" (PList []))
                [("images", im); ("videos", vi); ("embeds", em)]).

(** *** [Scraper._extract_media_urls] of app/services/scraper.py, where a
    rule is a dict *)

(** [selector_type == 'xpath'] *)
Definition is_xpath_str (v : pyval) : bool :=
  match v with PStr s => String.eqb s "xpath" | _ => false end.

Fixpoint urls_loop (attribute : pyval) (elements : list Tag) (urls : list pyval)
    : result (list pyval) :=
  match elements with
  | [] => Ok urls
  | element :: rest =>
      url <- Tag_get element attribute ;;
      urls_loop attribute rest (if truthy url then urls ++ [url] else urls)
  end.

Definition _extract_media_urls (soup : Soup) (rules : pyval) : result (list pyval) :=
  try_except
    (selector_type <- SchemaGenerator.get_method rules "selector_type" (PStr "css") ;;
     selector <- SchemaGenerator.get_method rules "selector" PNone ;;
     attribute <- SchemaGenerator.get_method rules "attribute" (PStr "src") ;;
     elements <- (if is_xpath_str selector_type
                  then find_all_xpath soup selector
                  else select soup selector) ;;
     urls_loop attribute elements [])
    (fun _ => Ok []).

End WithSelectorEngine.



(** A one-page selector engine for the examples: every selector matches
    all tags of the page. *)
Definition page_select (page : list Tag) (_ : pyval) : result (list Tag) := Ok page.
Definition page_text (_ : Tag) : result string := Ok "".

(** An image tag with the given [src], and two rules for images. *)
Definition img (src : string) : Tag := mkTag [("src", PStr src)] "img".
Definition images_rule : ExtractionRule := mkRule (PStr "img") (PEnum CSS) (PStr "src") PNone.
Definition no_attribute_rule : ExtractionRule := mkRule (PStr "img") (PEnum CSS) PNone PNone.

(** A selector engine that matches the tags with the given name, and a
    rule for a heading. *)
Definition by_tag_name (page : list Tag) (selector : pyval) : result (list Tag) :=
  Ok (List.filter (fun t => match selector with
                            | PStr s => String.eqb (tag_name t) s
                            | _ => false
                            end) page).
Definition heading_rule : ExtractionRule := mkRule (PStr "h1") (PEnum CSS) PNone PNone.

End ContentScraper.

(* ===================================================================== *)
(** ** app/models/task_response.py and app/models/task.py *)
(* ===================================================================== *)

Module Tasks.

Inductive TaskStatus := QUEUED | PROCESSING | COMPLETED | FAILED.

Definition TaskStatus_eqb (a b : TaskStatus) : bool :=
  match a, b with
  | QUEUED, QUEUED | PROCESSING, PROCESSING
  | COMPLETED, COMPLETED | FAILED, FAILED => true
  | _, _ => false
  end.

(** [TaskResponse] (timestamps are seconds on the UTC clock). *)
Record TaskResponse := mkTask {
  task_id : string;
  url : string;
  status : TaskStatus;
  created_at : Z;
  updated_at : Z;
  completed_at : option Z;
  task_result : option pyval;   (* the [result] field *)
  error : option string
}.

(** [TaskInfo] of app/models/task.py. *)
Record TaskInfo := mkInfo {
  info_task_id : string;
  info_url : string;
  info_status : TaskStatus;
  info_created_at : Z;
  info_updated_at : Z;
  info_completed_at : option Z;
  info_headers : option (list (string * string));
  info_options : option (list (string * pyval));
  info_result : option pyval;
  info_error : option string;
  retry_count : nat;
  schema_regenerated : bool
}.

(** The state machine of the specification:
    Queued -> Processing -> Completed | Failed. *)
Definition allowed_transition (a b : TaskStatus) : bool :=
  match a, b with
  | QUEUED, PROCESSING => true
  | PROCESSING, COMPLETED => true
  | PROCESSING, FAILED => true
  | _, _ => false
  end.

Definition terminal (s : TaskStatus) : bool :=
  match s with COMPLETED | FAILED => true | _ => false end.

(** A sequence of values written to [status], starting from [current]:
    every write either leaves the value as it is or follows an edge of
    the state machine. *)
Fixpoint follows_state_machine (current : TaskStatus) (writes : list TaskStatus) : bool :=
  match writes with
  | [] => true
  | s :: rest =>
      (TaskStatus_eqb current s || allowed_transition current s)
      && follows_state_machine s rest
  end.

End Tasks.

Export Tasks.

(* ===================================================================== *)
(** ** app/queue/task_manager.py *)
(* ===================================================================== *)

Module TaskManager.
Import DomainConfigModel.

(** The objects a configuration variable can refer to: a plain Python
    value (the [Dict] that the task manager's signatures declare), a
    [DomainConfig] instance, or a coroutine object (what calling an
    [async def] returns when the call is not awaited). *)
Inductive pyobj :=
| ObjValue (v : pyval)
| ObjConfig (c : DomainConfig)
| ObjCoroutine.

(** [bool(obj)]; a dataclass instance and a coroutine are always true. *)
Definition obj_truthy (o : pyobj) : bool :=
  match o with
  | ObjValue v => truthy v
  | ObjConfig _ => true
  | ObjCoroutine => true
  end.

(** [type(v).__name__] of what a method returned; [None] is Python's. *)
Definition obj_type_name (v : option pyobj) : string :=
  match v with
  | None => "NoneType"
  | Some (ObjValue v) => type_name v
  | Some (ObjConfig _) => "DomainConfig"
  | Some ObjCoroutine => "coroutine"
  end.

(** [await v] for a [v] that is not awaitable. *)
Definition not_awaitable (v : option pyobj) : exn :=
  TypeError ("object " ++ obj_type_name v ++ " can't be used in 'await' expression").

(** [generate_config(url, force_refresh=True)] for a method without that
    parameter. *)
Definition unexpected_force_refresh : exn :=
  TypeError "generate_config() got an unexpected keyword argument 'force_refresh'".

(** [self.schema_generator]: an object with the two methods the managers
    call.  [load_config_m] and [generate_config_m] are the bodies of the
    methods: both work on the rules directory, and [generate_config]
    also takes what the page analysis does for this call.  The flags say
    how the methods are declared: with [async def] or with [def], and
    whether [generate_config] has a parameter [force_refresh]. *)
Record schema_generator := mkGenerator {
  load_config_async : bool;
  load_config_m : gmap string SchemaGenerator.file -> string -> result (option pyobj);
  generate_config_async : bool;
  generate_config_force_refresh : bool;
  generate_config_m : gmap string SchemaGenerator.file -> string -> result pyval ->
                      result pyobj * gmap string SchemaGenerator.file
}.

(** The state the task touches.  [status_writes] and [generate_calls] are
    history variables: every assignment to a task's [status], and every
    call of [generate_config] (with its [force_refresh] flag), in order. *)
Record world := mkWorld {
  tasks : gmap string TaskResponse;
  rules_dir : gmap string SchemaGenerator.file;
  heap : list pyobj;
  clock : Z;
  status_writes : list (string * TaskStatus);
  generate_calls : list (string * bool)
}.

Definition with_tasks (w : world) (t : gmap string TaskResponse) : world :=
  mkWorld t (rules_dir w) (heap w) (clock w) (status_writes w) (generate_calls w).
Definition with_rules_dir (w : world) (f : gmap string SchemaGenerator.file) : world :=
  mkWorld (tasks w) f (heap w) (clock w) (status_writes w) (generate_calls w).
Definition with_heap (w : world) (h : list pyobj) : world :=
  mkWorld (tasks w) (rules_dir w) h (clock w) (status_writes w) (generate_calls w).
Definition with_clock (w : world) (c : Z) : world :=
  mkWorld (tasks w) (rules_dir w) (heap w) c (status_writes w) (generate_calls w).
Definition with_status_write (w : world) (id : string) (s : TaskStatus) : world :=
  mkWorld (tasks w) (rules_dir w) (heap w) (clock w)
          (status_writes w ++ [(id, s)]) (generate_calls w).
Definition with_generate_call (w : world) (u : string) (force : bool) : world :=
  mkWorld (tasks w) (rules_dir w) (heap w) (clock w)
          (status_writes w) (generate_calls w ++ [(u, force)]).

(** Computations that read and write the world and may raise; what was
    written before an exception stays written. *)
Definition M (A : Type) : Type := world -> result A * world.

Definition ret {A} (a : A) : M A := fun w => (Ok a, w).
Definition raise {A} (e : exn) : M A := fun w => (Raise e, w).
Definition bind {A B} (m : M A) (k : A -> M B) : M B :=
  fun w => match m w with
           | (Ok a, w') => k a w'
           | (Raise e, w') => (Raise e, w')
           end.
(** [try: m except <classes> as e: h(e)] *)
Definition try_catch {A} (m : M A) (catches : exn -> bool) (h : exn -> M A) : M A :=
  fun w => match m w with
           | (Ok a, w') => (Ok a, w')
           | (Raise e, w') => if catches e then h e w' else (Raise e, w')
           end.

(** A new object on the heap; its reference is its index. *)
Definition alloc (o : pyobj) : M nat :=
  fun w => (Ok (length (heap w)), with_heap w (heap w ++ [o])).

Declare Scope task_scope.
Delimit Scope task_scope with task.
Notation "x <- c1 ;; c2" := (bind c1 (fun x => c2))
  (at level 100, c1 at next level, right associativity) : task_scope.
Notation "c1 ;;; c2" := (bind c1 (fun _ => c2))
  (at level 100, right associativity) : task_scope.

Section Updates.
Local Open Scope task_scope.

(** [TaskManager._update_task_status]; here and below each
    [datetime.utcnow()] reads [clock], which then moves one tick. *)
Definition _update_task_status (task_id : string) (status : TaskStatus) : M unit :=
  fun w =>
    match tasks w !! task_id with
    | Some task =>
        let now := clock w in
        let task' := mkTask (Tasks.task_id task) (url task) status (created_at task)
                            now (completed_at task) (task_result task) (error task) in
        (Ok tt, with_clock (with_status_write (with_tasks w (<[task_id := task']> (tasks w)))
                                              task_id status)
                           (now + 1))
    | None => (Ok tt, w)
    end.

(** [TaskManager._update_task_success] *)
Definition _update_task_success (task_id : string) (result : pyval) : M unit :=
  fun w =>
    match tasks w !! task_id with
    | Some task =>
        let now := clock w in
        let task' := mkTask (Tasks.task_id task) (url task) COMPLETED (created_at task)
                            (now + 1) (Some now) (Some result) (error task) in
        (Ok tt, with_clock (with_status_write (with_tasks w (<[task_id := task']> (tasks w)))
                                              task_id COMPLETED)
                           (now + 2))
    | None => (Ok tt, w)
    end.

(** [TaskManager._update_task_failure] *)
Definition _update_task_failure (task_id : string) (err : string) : M unit :=
  fun w =>
    match tasks w !! task_id with
    | Some task =>
        let now := clock w in
        let task' := mkTask (Tasks.task_id task) (url task) FAILED (created_at task)
                            (now + 1) (Some now) (task_result task) (Some err) in
        (Ok tt, with_clock (with_status_write (with_tasks w (<[task_id := task']> (tasks w)))
                                              task_id FAILED)
                           (now + 2))
    | None => (Ok tt, w)
    end.

(** [if headers:] *)
Definition headers_given (headers : option (list (string * pyval))) : bool :=
  match headers with
  | Some (_ :: _) => true
  | _ => false
  end.

(** [TaskManager._update_config_settings].  [config] is a reference: the
    dict it refers to is assigned to in place, and the same reference is
    returned.  Anything but a dict raises: [config.get] does not exist
    (with headers) or item assignment is not supported (without). *)
Definition _update_config_settings (config : nat)
    (headers : option (list (string * pyval))) (timeout : Z) : M nat :=
  fun w =>
    match heap w !! config with
    | Some (ObjValue (PDict d)) =>
        let merged :=
          if headers_given headers then
            match get_default d "headers" (PDict []) with
            | PDict current =>
                Ok (dict_set "headers"
                             (PDict (dict_merge current (default [] headers))) d)
            | other =>
                Raise (TypeError ("'" ++ type_name other ++ "' object is not a mapping"))
            end
          else Ok d in
        match merged with
        | Ok d1 =>
            (Ok config,
             with_heap w (<[config := ObjValue (PDict (dict_set "timeout" (PInt timeout) d1))]>
                            (heap w)))
        | Raise e => (Raise e, w)
        end
    | Some _ =>
        if headers_given headers
        then (Raise (AttributeError "object has no attribute 'get'"), w)
        else (Raise (TypeError "object does not support item assignment"), w)
    | None => (Raise (Exn (Builtin "ReferenceError") "no such object"), w)
    end.
End Updates.

(** What the outside world does during one execution of [process_task]:
    the outcome of the page analysis behind each [generate_config] call,
    and of each [await self.content_scraper.scrape(url, config)] given
    the configuration object it is passed (the managers import their
    [ContentScraper] from modules that the repository does not have). *)
Record attempt_env := mkEnv {
  analysis : result pyval;
  first_scrape : pyobj -> result pyval;
  reanalysis : result pyval;
  second_scrape : pyobj -> result pyval
}.

(** How one execution ends for Celery: it returns, or it raises the retry
    signal with a countdown in seconds. *)
Inductive celery_outcome :=
| Finished
| RetryIn (countdown : Z).

Section ProcessTask.
Local Open Scope task_scope.

(** [self.schema_generator] *)
Variable sg : schema_generator.
(** Whether [MissingContentError] and [ExtractionError], which the module
    imports from app/core/exceptions.py but that file does not declare,
    derive from [ScrapingException]. *)
Variable extraction_errors_derive : bool.

(** [isinstance(e, ScrapingException)] *)
Definition is_ScrapingException (e : exn) : bool :=
  match exn_cls e with
  | ScrapingException | ConfigGenerationError | ContentExtractionError => true
  | MissingContentError | ExtractionError => extraction_errors_derive
  | Builtin _ => false
  end.

(** [except (MissingContentError, ExtractionError)] *)
Definition is_extraction_failure (e : exn) : bool :=
  match exn_cls e with
  | MissingContentError | ExtractionError => true
  | _ => false
  end.

(** [await self.schema_generator.generate_config(url)], also with
    [force_refresh=True]: the call is logged.  A method without the
    parameter [force_refresh] rejects the keyword before its body runs.
    Otherwise the body runs and the rules directory takes what it wrote;
    the returned object is new.  For a method declared with [def] the
    call returns that object itself and [await] raises on it. *)
Definition call_generate_config (url : string) (force_refresh : bool)
    (outcome : result pyval) : M nat :=
  fun w =>
    let w1 := with_generate_call w url force_refresh in
    if force_refresh && negb (generate_config_force_refresh sg)
    then (Raise unexpected_force_refresh, w1)
    else
      match generate_config_m sg (rules_dir w1) url outcome with
      | (Ok o, files) =>
          if generate_config_async sg then alloc o (with_rules_dir w1 files)
          else (Raise (not_awaitable (Some o)), with_rules_dir w1 files)
      | (Raise e, files) => (Raise e, with_rules_dir w1 files)
      end.

(** [await self.schema_generator.load_config(url)]: for a method declared
    with [def] the call runs the body, and [await] raises on what it
    returned. *)
Definition await_load_config (url : string) : M (option pyobj) :=
  fun w =>
    match load_config_m sg (rules_dir w) url with
    | Raise e => (Raise e, w)
    | Ok v =>
        if load_config_async sg then (Ok v, w)
        else (Raise (not_awaitable v), w)
    end.

(** "Get or generate config":
    [config = await load_config(url)] then
    [if not config: config = await generate_config(url)]. *)
Definition get_or_generate_config (env : attempt_env) (url : string) : M nat :=
  fun w =>
    match await_load_config url w with
    | (Raise e, w1) => (Raise e, w1)
    | (Ok (Some o), w1) =>
        if obj_truthy o then alloc o w1
        else call_generate_config url false (analysis env) w1
    | (Ok None, w1) => call_generate_config url false (analysis env) w1
    end.

(** [result = scrape(url, config)] then [_update_task_success(task_id, result)]. *)
Definition scrape_and_succeed (scrape : pyobj -> result pyval)
    (task_id : string) (config : nat) : M unit :=
  fun w =>
    match heap w !! config with
    | Some o =>
        match scrape o with
        | Ok r => _update_task_success task_id r w
        | Raise e => (Raise e, w)
        end
    | None => (Raise (Exn (Builtin "ReferenceError") "no such object"), w)
    end.

(** The handler of [except (MissingContentError, ExtractionError)]:
    "regenerate config and retry". *)
Definition regenerate_and_retry (env : attempt_env) (task_id url : string)
    (headers : option (list (string * pyval))) (timeout : Z) : M unit :=
  config <- call_generate_config url true (reanalysis env) ;;
  config <- _update_config_settings config headers timeout ;;
  try_catch (scrape_and_succeed (second_scrape env) task_id config)
    (fun _ => true)
    (fun retry_error =>
       raise (Exn ScrapingException
                  ("Scraping failed after config regeneration: "
                   ++ str_exn retry_error))).

(** The body of the outer [try] of [process_task]. *)
Definition process_task_body (env : attempt_env) (task_id url : string)
    (headers : option (list (string * pyval))) (timeout : Z) : M unit :=
  _update_task_status task_id PROCESSING ;;;
  config <- get_or_generate_config env url ;;
  config <- _update_config_settings config headers timeout ;;
  try_catch (scrape_and_succeed (first_scrape env) task_id config)
    is_extraction_failure
    (fun scrape_error => regenerate_and_retry env task_id url headers timeout).

(** [@celery_app.task(bind=True, max_retries=3)] *)
Definition max_retries : nat := 3.

(** The two [except] clauses of the outer [try] of [process_task],
    applied to what the code inside the [try] did; [retries] is
    [self.process_task.request.retries]. *)
Definition except_clauses (retries : nat) (task_id : string)
    (tried : result unit * world) : celery_outcome * world :=
  match tried with
  | (Ok _, w1) => (Finished, w1)
  | (Raise e, w1) =>
      if is_ScrapingException e then
        let w2 := (_update_task_failure task_id (str_exn e) w1).2 in
        if (retries <? max_retries)%nat
        then (RetryIn (60 * 2 ^ Z.of_nat retries), w2)
        else (Finished, w2)
      else
        ((Finished, (_update_task_failure task_id ("Internal error: " ++ str_exn e) w1).2))
  end.

(** [TaskManager.process_task], one execution. *)
Definition process_task (env : attempt_env) (retries : nat) (task_id url : string)
    (headers : option (list (string * pyval))) (timeout : Z)
    (w : world) : celery_outcome * world :=
  except_clauses retries task_id (process_task_body env task_id url headers timeout w).

(** Celery runs the task and, on each retry signal, runs it again with
    [retries] one higher.  [envs] gives the outside world for each
    execution in turn; the countdowns of the retries are collected. *)
Fixpoint run_task (envs : list attempt_env) (retries : nat) (task_id url : string)
    (headers : option (list (string * pyval))) (timeout : Z)
    (w : world) : list Z * world :=
  match envs with
  | [] => ([], w)
  | env :: rest =>
      match process_task env retries task_id url headers timeout w with
      | (Finished, w1) => ([], w1)
      | (RetryIn countdown, w1) =>
          let '(cs, w2) := run_task rest (S retries) task_id url headers timeout w1 in
          (countdown :: cs, w2)
      end
  end.
End ProcessTask.

(** *** The schema generator of the task manager *)

Section Generators.
Variable netloc : string -> string.
Variable config_dir : string.

(** [SchemaGenerator(Config.RULES_DIR, self.crawler)] of
    app/services/schema_generator.py, the class that
    app/queue/task_manager.py imports: [load_config] is declared with
    [def], [generate_config] with [async def] and with the one parameter
    [url]; configurations are [DomainConfig] instances. *)
Definition services_schema_generator : schema_generator :=
  mkGenerator
    false
    (fun files url =>
       Ok (ObjConfig <$> SchemaGenerator.load_config netloc config_dir files url))
    true
    false
    (fun files url outcome =>
       let '(r, files') := SchemaGenerator.generate_config netloc config_dir files url outcome in
       (rbind r (fun c => Ok (ObjConfig c)), files')).
End Generators.

(** The values written to the status of one task, in order. *)
Definition status_history (task_id : string) (w : world) : list TaskStatus :=
  map snd (filter (fun p => String.eqb p.1 task_id = true) (status_writes w)).

(** A world with one queued task and an empty rules directory. *)
Definition queued_task (task_id url : string) : TaskResponse :=
  mkTask task_id url QUEUED 0 0 None None None.

Definition initial_world (task_id url : string) : world :=
  mkWorld {[ task_id := queued_task task_id url ]} ∅ [] 1 [] [].

(** *** Example worlds and attempts *)

Definition example_url : string := "https://example.com/article".
Definition example_netloc (_ : string) : string := "example.com".

(** A stored dict configuration for example.com and one queued task. *)
Definition stored_dict : pyval := PDict [("timeout", PInt 30)].

Definition example_world : world :=
  with_rules_dir (initial_world "t1" example_url)
    {[ SchemaGenerator._get_config_path "rules" "example.com"
       := SchemaGenerator.JsonFile stored_dict ]}.

(** The generator that [TaskManager.__init__] builds. *)
Definition example_generator : schema_generator :=
  services_schema_generator example_netloc "rules".

Definition no_analysis : result pyval :=
  Raise (Exn (Builtin "AnalysisError") "page analysis failed").

(** The scrape returns a page. *)
Definition succeeding_attempt : attempt_env :=
  mkEnv no_analysis (fun _ => Ok (PDict [("title", PStr "An article")]))
        no_analysis (fun _ => Ok PNone).

(** The page fetch of the scrape times out ([requests] raises its own
    [Timeout], which [ContentScraper.scrape] re-raises). *)
Definition timeout_attempt : attempt_env :=
  mkEnv no_analysis (fun _ => Raise (Exn (Builtin "Timeout") "timed out"))
        no_analysis (fun _ => Ok PNone).


(** A rules directory with a recipe written by [to_dict]. *)
Definition recipe_world : world :=
  with_rules_dir (initial_world "t1" example_url)
    {[ SchemaGenerator._get_config_path "rules" "example.com"
       := SchemaGenerator.JsonFile
            (match DomainConfigModel.to_dict SchemaGenerator.sample_config with
             | Ok d => d
             | Raise _ => PNone
             end) ]}.

End TaskManager.

(* ===================================================================== *)
(** ** app/services/queue.py *)
(* ===================================================================== *)

Module QueueManager.

(** [self.storage] holds the task records (its [get_task] and [save_task]
    are taken not to raise); [sleeps] is the history of
    [asyncio.sleep] durations, [status_writes] that of the values saved
    to a task's [status]. *)
Record world := mkWorld {
  storage : gmap string TaskResponse;
  clock : Z;
  sleeps : list Z;
  status_writes : list (string * TaskStatus)
}.

Definition save_task (w : world) (task_id : string) (task : TaskResponse) (ticks : Z) : world :=
  mkWorld (<[task_id := task]> (storage w)) (clock w + ticks) (sleeps w)
          (status_writes w ++ [(task_id, status task)]).

(** [QueueManager._update_status] *)
Definition _update_status (task_id : string) (status : TaskStatus) (w : world) : world :=
  match storage w !! task_id with
  | Some task =>
      save_task w task_id
        (mkTask (Tasks.task_id task) (url task) status (created_at task)
                (clock w) (completed_at task) (task_result task) (error task)) 1
  | None => w
  end.

(** [QueueManager._update_success] *)
Definition _update_success (task_id : string) (result : pyval) (w : world) : world :=
  match storage w !! task_id with
  | Some task =>
      save_task w task_id
        (mkTask (Tasks.task_id task) (url task) COMPLETED (created_at task)
                (clock w + 1) (Some (clock w)) (Some result) (error task)) 2
  | None => w
  end.

(** [QueueManager._update_failure] *)
Definition _update_failure (task_id : string) (err : string) (w : world) : world :=
  match storage w !! task_id with
  | Some task =>
      save_task w task_id
        (mkTask (Tasks.task_id task) (url task) FAILED (created_at task)
                (clock w + 1) (Some (clock w)) (task_result task) (Some err)) 2
  | None => w
  end.

(** [await asyncio.sleep(seconds)] *)
Definition sleep (seconds : Z) (w : world) : world :=
  mkWorld (storage w) (clock w + seconds) (sleeps w ++ [seconds]) (status_writes w).

Definition max_attempts : nat := 3.

(** The [while attempt < max_attempts] loop of [_process_task].
    [scrape n] is the outcome of the call of [self.crawler.scrape] made
    when [attempt] is [n].  The result is the final value of [attempt]
    and the world; [None] only if [fuel] iterations were not enough. *)
Fixpoint attempt_loop (fuel : nat) (scrape : nat -> result pyval) (task_id : string)
    (attempt : nat) (w : world) : option (nat * world) :=
  match fuel with
  | O => None
  | S fuel' =>
      if (attempt <? max_attempts)%nat then
        let w1 := _update_status task_id PROCESSING w in
        match scrape attempt with
        | Ok result => Some (attempt, _update_success task_id result w1)
        | Raise e =>
            let attempt' := S attempt in
            if (max_attempts <=? attempt')%nat
            then Some (attempt', _update_failure task_id (str_exn e) w1)
            else attempt_loop fuel' scrape task_id attempt'
                              (sleep (60 * 2 ^ Z.of_nat attempt') w1)
        end
      else Some (attempt, w)
  end.

(** [QueueManager._process_task] *)
Definition _process_task (scrape : nat -> result pyval) (task_id : string) (w : world)
    : option (nat * world) :=
  attempt_loop (S max_attempts) scrape task_id 0 w.

Definition status_history (task_id : string) (w : world) : list TaskStatus :=
  map snd (filter (fun p => String.eqb p.1 task_id = true) (status_writes w)).

(** [create_task] stores the record as [QUEUED] before the loop starts. *)
Definition initial_world (task_id url : string) : world :=
  mkWorld {[ task_id := mkTask task_id url QUEUED 0 0 None None None ]} 1 [] [].

Definition Timeout : exn := Exn (Builtin "Timeout") "timed out".

(** A scraper that times out on every call. *)
Definition always_timeout (_ : nat) : result pyval := Raise Timeout.

(** The delay the loop sleeps after the failure that brings [attempt]
    to [k]. *)
Definition backoff (k : nat) : Z := (60 * 2 ^ Z.of_nat k)%Z.

End QueueManager.

(* ===================================================================== *)
(** ** app/services/queue_service.py *)
(* ===================================================================== *)

Module QueueService.

(** [task_info] is the object the handler was passed (it is assigned to
    in place); [stored_tasks] is [self.storage], [configs] the store
    behind [config_service.save_config]; [generate_calls] is the history
    of [self.scraper._generate_config] calls. *)
Record world := mkWorld {
  task_info : TaskInfo;
  stored_tasks : gmap string TaskInfo;
  configs : gmap string pyval;
  generate_calls : list string
}.

(** What the collaborators do during one call of the handler. *)
Record failure_env := mkEnv {
  generated : result pyval;              (* [_generate_config(url)] *)
  save_config_error : option exn;        (* [save_config] raising *)
  save_task_error : option exn;          (* the first [save_task] raising *)
  save_task_error_again : option exn     (* the [save_task] of the handler raising *)
}.

Definition set_regenerated (t : TaskInfo) : TaskInfo :=
  mkInfo (info_task_id t) (info_url t) (info_status t) (info_created_at t)
         (info_updated_at t) (info_completed_at t) (info_headers t) (info_options t)
         (info_result t) (info_error t) (retry_count t) true.

Definition set_error (t : TaskInfo) (e : string) : TaskInfo :=
  mkInfo (info_task_id t) (info_url t) (info_status t) (info_created_at t)
         (info_updated_at t) (info_completed_at t) (info_headers t) (info_options t)
         (info_result t) (Some e) (retry_count t) (schema_regenerated t).

Definition is_MissingContentError (e : exn) : bool :=
  match exn_cls e with MissingContentError => true | _ => false end.
Definition is_ExtractionError (e : exn) : bool :=
  match exn_cls e with ExtractionError => true | _ => false end.

(** The inner [except Exception as schema_error] block. *)
Definition on_schema_error (env : failure_env) (schema_error : exn) (w : world)
    : bool * world :=
  let t := set_error (task_info w)
                     ("Schema regeneration failed: " ++ str_exn schema_error) in
  match save_task_error_again env with
  | Some _ => (false, mkWorld t (stored_tasks w) (configs w) (generate_calls w))
  | None =>
      (false, mkWorld t (<[info_task_id t := t]> (stored_tasks w)) (configs w)
                      (generate_calls w))
  end.

(** [_handle_scraping_failure]: the returned [bool] is "retry should be
    attempted". *)
Definition _handle_scraping_failure (env : failure_env) (error : exn) (w : world)
    : bool * world :=
  let should_regenerate :=
    is_MissingContentError error
    || (is_ExtractionError error && negb (schema_regenerated (task_info w))) in
  if negb should_regenerate then (false, w)
  else
    let u := info_url (task_info w) in
    let w1 := mkWorld (task_info w) (stored_tasks w) (configs w) (generate_calls w ++ [u]) in
    match generated env with
    | Raise e => on_schema_error env e w1
    | Ok config =>
        match save_config_error env with
        | Some e => on_schema_error env e w1
        | None =>
            let t := set_regenerated (task_info w1) in
            let w2 := mkWorld t (stored_tasks w1) (<[u := config]> (configs w1))
                              (generate_calls w1) in
            match save_task_error env with
            | Some e => on_schema_error env e w2
            | None =>
                (true, mkWorld t (<[info_task_id t := t]> (stored_tasks w2)) (configs w2)
                               (generate_calls w2))
            end
        end
    end.

(** The failures of one task over its lifetime, handled one after the
    other on the same [task_info]; the result lists the world after each. *)
Fixpoint handle_failures (events : list (failure_env * exn)) (w : world) : list world :=
  match events with
  | [] => []
  | (env, error) :: rest =>
      let w' := (_handle_scraping_failure env error w).2 in
      w' :: handle_failures rest w'
  end.

(** How often a sequence of flag values goes from [false] to [true]. *)
Fixpoint rises (current : bool) (later : list bool) : nat :=
  match later with
  | [] => 0
  | b :: rest => (if negb current && b then 1 else 0) + rises b rest
  end.

Definition sample_task (regenerated : bool) : TaskInfo :=
  mkInfo "t1" "https://example.com/a" PROCESSING 0 0 None None None None None 0 regenerated.

Definition sample_world (regenerated : bool) : world :=
  mkWorld (sample_task regenerated) ∅ ∅ [].

Definition working_generator : failure_env :=
  mkEnv (Ok (PDict [])) None None None.

(** The flag of the task the handler works on. *)
Definition flag (w : world) : bool := schema_regenerated (task_info w).

End QueueService.

(* ===================================================================== *)
(** ** app/utils/helpers.py *)
(* ===================================================================== *)

Module Helpers.

Definition default_user_agent : string := "Mozilla/5.0 (compatible; ScraperBot/1.0;)".

(** [d.update(other)] *)
Definition dict_update {V} (d other : list (string * V)) : list (string * V) :=
  fold_left (fun acc kv => dict_set kv.1 kv.2 acc) other d.

(** [if d:] for an optional dict *)
Definition given {V} (d : option (list (string * V))) : bool :=
  match d with
  | Some (_ :: _) => true
  | _ => false
  end.

(** [merge_headers] *)
Definition merge_headers (default_headers custom_headers : option (list (string * pyval)))
    : list (string * pyval) :=
  let headers := [("User-Agent", PStr default_user_agent)] in
  let headers :=
    if given default_headers then dict_update headers (default [] default_headers)
    else headers in
  if given custom_headers then dict_update headers (default [] custom_headers)
  else headers.

End Helpers.

(* ===================================================================== *)
(** ** app/services/scraper.py: extraction from dict rules *)
(* ===================================================================== *)

Module Scraper.
Import ContentScraper.

Section WithSelectorEngine.
(** The selector engines and the text of a tag, as in [ContentScraper]. *)
Variable Soup : Type.
Variable select : Soup -> pyval -> result (list Tag).
Variable find_all_xpath : Soup -> pyval -> result (list Tag).
Variable get_text : Tag -> result string.
(** [str.strip], [str.lower], [str.upper] *)
Variables str_strip str_lower str_upper : string -> string.

(** [process_type == 'name'] *)
Definition is_str_eq (v : pyval) (name : string) : bool :=
  match v with PStr s => String.eqb s name | _ => false end.

(** [content.strip()] and the like: a method of [str] only. *)
Definition str_method (f : string -> string) (name : string) (content : pyval) : result pyval :=
  match content with
  | PStr s => Ok (PStr (f s))
  | _ => Raise (AttributeError ("'" ++ type_name content ++ "' object has no attribute '"
                                ++ name ++ "'"))
  end.

(** [Scraper._apply_post_process] *)
Definition _apply_post_process (content process_type : pyval) : result pyval :=
  if is_str_eq process_type "strip" then str_method str_strip "strip" content
  else if is_str_eq process_type "lowercase" then str_method str_lower "lower" content
  else if is_str_eq process_type "uppercase" then str_method str_upper "upper" content
  else Ok content.

(** [Scraper._extract_with_rules] *)
Definition _extract_with_rules (soup : Soup) (rules : pyval) : result pyval :=
  try_except
    (selector_type <- SchemaGenerator.get_method rules "selector_type" (PStr "css") ;;
     selector <- SchemaGenerator.get_method rules "selector" PNone ;;
     attribute <- SchemaGenerator.get_method rules "attribute" PNone ;;
     post_process <- SchemaGenerator.get_method rules "post_process" PNone ;;
     elements <- (if is_xpath_str selector_type
                  then find_all_xpath soup selector
                  else select soup selector) ;;
     match elements with
     | [] => Ok PNone
     | element :: _ =>
         content <- (if truthy attribute then Tag_get element attribute
                     else (s <- get_text element ;; Ok (PStr s))) ;;
         if truthy post_process && truthy content
         then _apply_post_process content post_process
         else Ok content
     end)
    (fun _ => Ok PNone).

(** The loop of [_extract_content]: rules that are not dicts are skipped
    with a warning. *)
Fixpoint content_loop (soup : Soup) (its : list (string * pyval))
    (content : list (string * pyval)) : result (list (string * pyval)) :=
  match its with
  | [] => Ok content
  | (field, rules) :: rest =>
      match rules with
      | PDict _ =>
          v <- _extract_with_rules soup rules ;;
          content_loop soup rest (dict_set field v content)
      | _ => content_loop soup rest content
      end
  end.

(** [Scraper._extract_content] *)
Definition _extract_content (soup : Soup) (schema : pyval) : result (list (string * pyval)) :=
  er <- subscript schema "extraction_rules" ;;
  its <- items er ;;
  content_loop soup its [].

(** The loop of [_extract_media_files]: for a media type that is a key of
    [media_files], the URLs are appended to its list
    ([media_files[media_type].extend(urls)]); an exception is logged and
    the loop goes on. *)
Fixpoint media_files_loop (soup : Soup) (its : list (string * pyval))
    (media_files : list (string * list pyval)) : list (string * list pyval) :=
  match its with
  | [] => media_files
  | (media_type, rules) :: rest =>
      media_files_loop soup rest
        (match dict_get media_type media_files with
         | Some urls0 =>
             match _extract_media_urls Soup select find_all_xpath soup rules with
             | Ok urls => dict_set media_type (urls0 ++ urls)%list media_files
             | Raise _ => media_files
             end
         | None => media_files
         end)
  end.

(** [Scraper._extract_media_files] *)
Definition _extract_media_files (soup : Soup) (schema : pyval)
    : result (list (string * list pyval)) :=
  mr <- SchemaGenerator.get_method schema "media_rules" (PDict []) ;;
  its <- items mr ;;
  Ok (media_files_loop soup its [("images", []); ("videos", []); ("embeds", [])]).

End WithSelectorEngine.

End Scraper.

(* ===================================================================== *)
(** ** app/queue/task_manager.py: the periodic cleanup *)
(* ===================================================================== *)

Module TaskManagerCleanup.
Import TaskManager.

(** Attribute access on a [datetime.timedelta] (here a whole number of
    seconds): it has [days], [seconds] and [microseconds], normalised so
    that [0 <= seconds < 86400], and no other numeric attribute. *)
Definition timedelta_attr (seconds : Z) (name : string) : result Z :=
  if String.eqb name "days" then Ok (seconds / 86400)%Z
  else if String.eqb name "seconds" then Ok (seconds mod 86400)%Z
  else if String.eqb name "microseconds" then Ok 0%Z
  else Raise (AttributeError ("'datetime.timedelta' object has no attribute '"
                              ++ name ++ "'")).

(** The first loop of [cleanup_old_tasks]: collect the ids to remove. *)
Fixpoint scan (current_time : Z) (its : list (string * TaskResponse))
    (to_remove : list string) : result (list string) :=
  match its with
  | [] => Ok to_remove
  | (task_id, task) :: rest =>
      if terminal (status task) then
        match completed_at task with
        | Some completed =>
            hours <- timedelta_attr (current_time - completed) "hours" ;;
            scan current_time rest
                 (if (24 <=? hours)%Z then to_remove ++ [task_id] else to_remove)
        | None => scan current_time rest to_remove
        end
      else
        hours <- timedelta_attr (current_time - created_at task) "hours" ;;
        scan current_time rest
             (if (6 <=? hours)%Z then to_remove ++ [task_id] else to_remove)
  end.

(** [cleanup_old_tasks] of [TaskManager._setup_task_cleanup]; the second
    loop pops the collected ids.  The dict is scanned in the order of
    [map_to_list]. *)
Definition cleanup_old_tasks (w : world) : result unit * world :=
  match scan (clock w) (map_to_list (tasks w)) [] with
  | Ok to_remove =>
      (Ok tt, with_clock (with_tasks w (foldr delete (tasks w) to_remove)) (clock w + 1))
  | Raise e => (Raise e, with_clock w (clock w + 1))
  end.

End TaskManagerCleanup.

(* ===================================================================== *)
(** ** app/queue_manager.py *)
(* ===================================================================== *)

Module CeleryQueueManager.
Import TaskManager.

(** [Config.RETRY_DELAY] and [Config.MAX_RETRIES] (config.py) *)
Definition RETRY_DELAY : Z := 60.
Definition MAX_RETRIES : nat := 3.

(** [QueueManager.create_task] up to the [delay] call that queues the
    Celery task; [task_id] is the fresh [uuid4]. *)
Definition create_task (task_id url : string) (w : world) : string * world :=
  (task_id,
   with_clock
     (with_tasks w (<[task_id := mkTask task_id url QUEUED (clock w) (clock w + 1)
                                        None None None]> (tasks w)))
     (clock w + 2)).

(** [QueueManager.get_task_status] *)
Definition get_task_status (task_id : string) (w : world) : option TaskResponse :=
  tasks w !! task_id.

Section Pipeline.
Local Open Scope task_scope.

Variable sg : schema_generator.
Variable extraction_errors_derive : bool.

(** The [try] of [QueueManager._get_or_generate_config]:
    [config = self.schema_generator.load_config(url)], without [await],
    then [if not config: config = await generate_config(url)].  For a
    [load_config] declared with [async def] the call returns a coroutine
    object, which is true and never run. *)
Definition load_or_generate (env : attempt_env) (url : string) : M nat :=
  fun w =>
    if load_config_async sg then alloc ObjCoroutine w
    else
      match load_config_m sg (rules_dir w) url with
      | Raise e => (Raise e, w)
      | Ok (Some o) =>
          if obj_truthy o then alloc o w
          else call_generate_config sg url false (analysis env) w
      | Ok None => call_generate_config sg url false (analysis env) w
      end.

(** [QueueManager._get_or_generate_config]: every failure becomes a
    [ConfigGenerationError]. *)
Definition _get_or_generate_config (env : attempt_env) (url : string) : M nat :=
  try_catch (load_or_generate env url)
    (fun _ => true)
    (fun e => raise (Exn ConfigGenerationError
                         ("Failed to get/generate config: " ++ str_exn e))).

(** [except ContentExtractionError] *)
Definition is_ContentExtractionError (e : exn) : bool :=
  match exn_cls e with ContentExtractionError => true | _ => false end.

(** The body of the outer [try] of [QueueManager.process_task]; the
    [_update_task_*] methods have the bodies of the task manager's. *)
Definition process_task_body (env : attempt_env) (task_id url : string)
    (headers : option (list (string * pyval))) (timeout : Z) : M unit :=
  _update_task_status task_id PROCESSING ;;;
  config <- _get_or_generate_config env url ;;
  config <- _update_config_settings config headers timeout ;;
  try_catch (scrape_and_succeed (first_scrape env) task_id config)
    is_ContentExtractionError
    (fun scrape_error =>
       config <- call_generate_config sg url true (reanalysis env) ;;
       config <- _update_config_settings config headers timeout ;;
       try_catch (scrape_and_succeed (second_scrape env) task_id config)
         (fun _ => true)
         (fun retry_error =>
            raise (Exn ScrapingException
                       ("Scraping failed after config regeneration: "
                        ++ str_exn retry_error)))).

(** [QueueManager._handle_task_error] *)
Definition _handle_task_error (task_id error : string) (retries : nat) (w : world)
    : celery_outcome * world :=
  let w1 := (_update_task_failure task_id error w).2 in
  if (retries <? MAX_RETRIES)%nat
  then (RetryIn (RETRY_DELAY * 2 ^ Z.of_nat retries), w1)
  else (Finished, w1).

(** [QueueManager.process_task], one execution. *)
Definition process_task (env : attempt_env) (retries : nat) (task_id url : string)
    (headers : option (list (string * pyval))) (timeout : Z)
    (w : world) : celery_outcome * world :=
  match process_task_body env task_id url headers timeout w with
  | (Ok _, w1) => (Finished, w1)
  | (Raise e, w1) =>
      if is_ScrapingException extraction_errors_derive e
      then _handle_task_error task_id (str_exn e) retries w1
      else (Finished, (_update_task_failure task_id ("Internal error: " ++ str_exn e) w1).2)
  end.
End Pipeline.

(** Whether [cleanup_old_tasks] removes the task: finished more than 24
    hours ago, or unfinished and created more than 6 hours ago. *)
Definition expired (current_time : Z) (task : TaskResponse) : bool :=
  if terminal (status task)
  then match completed_at task with
       | Some completed => (24 * 3600 <? current_time - completed)%Z
       | None => false
       end
  else (6 * 3600 <? current_time - created_at task)%Z.

(** The first loop of [cleanup_old_tasks]; [current_time - None] raises. *)
Fixpoint scan (current_time : Z) (its : list (string * TaskResponse))
    (to_remove : list string) : result (list string) :=
  match its with
  | [] => Ok to_remove
  | (task_id, task) :: rest =>
      if terminal (status task) then
        match completed_at task with
        | Some completed =>
            scan current_time rest
                 (if (24 * 3600 <? current_time - completed)%Z
                  then to_remove ++ [task_id] else to_remove)
        | None =>
            Raise (TypeError
                     "unsupported operand type(s) for -: 'datetime.datetime' and 'NoneType'")
        end
      else
        scan current_time rest
             (if (6 * 3600 <? current_time - created_at task)%Z
              then to_remove ++ [task_id] else to_remove)
  end.

(** [cleanup_old_tasks] of [QueueManager._setup_task_cleanup]; the second
    loop is [del self.tasks[task_id]] for the collected ids. *)
Definition cleanup_old_tasks (w : world) : result unit * world :=
  match scan (clock w) (map_to_list (tasks w)) [] with
  | Ok to_remove =>
      (Ok tt, with_clock (with_tasks w (foldr delete (tasks w) to_remove)) (clock w + 1))
  | Raise e => (Raise e, with_clock w (clock w + 1))
  end.

End CeleryQueueManager.

(* ===================================================================== *)
(** ** Example data *)
(* ===================================================================== *)

Module Examples.
Import DomainConfigModel.

Definition article_url : string := "https://example.com/a".
Definition example_netloc (_ : string) : string := "example.com".

(** A schema whose media rules hold enum members. *)
Definition enum_schema : pyval :=
  PDict [("title", PDict [("selector", PStr "h1"); ("selector_type", PStr "css")]);
         ("images", PDict [("selector", PStr "img"); ("selector_type", PEnum CSS)]);
         ("videos", PDict [("selector", PStr "video"); ("selector_type", PEnum CSS)]);
         ("embeds", PDict [("selector", PStr "iframe"); ("selector_type", PEnum CSS)])].

(** The same schema as JSON data. *)
Definition json_schema : pyval :=
  PDict [("title", PDict [("selector", PStr "h1"); ("selector_type", PStr "css")]);
         ("images", PDict [("selector", PStr "img"); ("selector_type", PStr "css")]);
         ("videos", PDict [("selector", PStr "video"); ("selector_type", PStr "css")]);
         ("embeds", PDict [("selector", PStr "iframe"); ("selector_type", PStr "css")])].

(** The recipe both schemas describe. *)
Definition schema_config : DomainConfig :=
  mkConfig (PStr "example.com") (PBool false) (PBool false) (PInt 30) PNone PNone (PInt 3)
    [("title", mkRule (PStr "h1") (PEnum CSS) PNone PNone)]
    (mkMedia (mkRule (PStr "img") (PEnum CSS) PNone PNone)
             (mkRule (PStr "video") (PEnum CSS) PNone PNone)
             (mkRule (PStr "iframe") (PEnum CSS) PNone PNone)).

(** A persisted layout with the media rules of a recipe. *)
Definition media_layout : pyval :=
  PDict [("images", PDict [("selector", PStr "img"); ("selector_type", PStr "css");
                           ("attribute", PStr "src")]);
         ("videos", PDict [("selector", PStr "video"); ("selector_type", PStr "css");
                           ("attribute", PStr "src")]);
         ("embeds", PDict [("selector", PStr "iframe"); ("selector_type", PStr "css");
                           ("attribute", PStr "src")])].

Definition good_layout : pyval :=
  PDict [("domain", PStr "example.com");
         ("extraction_rules",
          PDict [("title", PDict [("selector", PStr "h1"); ("selector_type", PStr "css")])]);
         ("media_rules", media_layout)].

(** The same layout with a rule of an unknown selector type. *)
Definition bad_layout : pyval :=
  PDict [("domain", PStr "example.com");
         ("extraction_rules",
          PDict [("title", PDict [("selector", PStr "h1"); ("selector_type", PStr "css")]);
                 ("author", PDict [("selector", PStr ".by"); ("selector_type", PStr "regex")])]);
         ("media_rules", media_layout)].

Definition rules_path : string := SchemaGenerator._get_config_path "rules" "example.com".

(** Three tasks at time 100000 (in seconds): one completed long ago, one
    that failed recently and one that has been processing for more than
    six hours. *)
Definition cleanup_world : TaskManager.world :=
  TaskManager.mkWorld
    (<["old" := mkTask "old" article_url COMPLETED 0 10 (Some 10%Z) (Some PNone) None]>
       (<["new" := mkTask "new" article_url FAILED 90000 90010 (Some 90010%Z) None
                          (Some "boom")]>
          {["stuck" := mkTask "stuck" article_url PROCESSING 1000 1001 None None None]}))
    ∅ [] 100000 [] [].

(** The same tasks with a failed task that has no completion time. *)
Definition unfinished_world : TaskManager.world :=
  TaskManager.with_tasks cleanup_world
    (<["odd" := mkTask "odd" article_url FAILED 0 10 None None (Some "boom")]>
       (TaskManager.tasks cleanup_world)).

End Examples.

(* ===================================================================== *)
(** * Properties *)
(* ===================================================================== *)

(** ** Dicts *)

Section DictFacts.
Context {V : Type}.
Implicit Types (d : list (string * V)) (k : string) (v : V).

Lemma dict_get_set_eq d k v : dict_get k (dict_set k v d) = Some v.
Proof.
  induction d as [|[k' v'] d IH]; simpl.
  - by rewrite String.eqb_refl.
  - destruct (String.eqb k k') eqn:E; simpl.
    + by rewrite String.eqb_refl.
    + by rewrite E.
Qed.

Lemma dict_get_set_ne d k k' v : k' <> k -> dict_get k' (dict_set k v d) = dict_get k' d.
Proof.
  intros Hne. induction d as [|[k0 v0] d IH]; simpl.
  - destruct (String.eqb k' k) eqn:E; [|done].
    apply String.eqb_eq in E. contradiction.
  - destruct (String.eqb k k0) eqn:E; simpl.
    + apply String.eqb_eq in E. subst k0.
      destruct (String.eqb k' k) eqn:E'; [|done].
      apply String.eqb_eq in E'. contradiction.
    + by rewrite IH.
Qed.

Lemma dict_get_None d k : dict_get k d = None <-> k ∉ keys d.
Proof.
  induction d as [|[k' v'] d IH]; simpl.
  - split; [intros _; apply not_elem_of_nil|done].
  - destruct (String.eqb k k') eqn:E.
    + apply String.eqb_eq in E as ->. split; [done|]. intros H. exfalso. apply H. left.
    + rewrite IH. apply String.eqb_neq in E. rewrite not_elem_of_cons. tauto.
Qed.

Lemma dict_get_elem_of d k v : NoDup (keys d) -> (k, v) ∈ d -> dict_get k d = Some v.
Proof.
  induction d as [|[k' v'] d IH]; simpl; intros Hnd Hin.
  - by apply elem_of_nil in Hin.
  - apply NoDup_cons in Hnd as [Hnot Hnd]. apply elem_of_cons in Hin as [[= -> ->]|Hin].
    + by rewrite String.eqb_refl.
    + destruct (String.eqb k k') eqn:E; [|by apply IH].
      apply String.eqb_eq in E as ->. exfalso. apply Hnot.
      apply list_elem_of_fmap. by exists (k', v).
Qed.
End DictFacts.

(** ** Serialization of a recipe and reloading it *)

Module RoundTrip.
Import DomainConfigModel SchemaGenerator.

Lemma SelectorType_call_value t :
  SelectorType_call (PStr (SelectorType_value t)) = Ok (PEnum t).
Proof. by destruct t. Qed.

(** An entry of [extraction_rules] comes back as it was. *)
Lemma parse_rule_rule_to_dict r d : rule_to_dict r = Ok d -> parse_rule d = Ok r.
Proof.
  destruct r as [sel st attr pp]. unfold rule_to_dict. simpl.
  destruct st; simpl; try discriminate.
  intros [= <-]. unfold parse_rule. cbn [subscript dict_get rbind String.eqb Ascii.eqb Bool.eqb].
  rewrite SelectorType_call_value. reflexivity.
Qed.

Lemma parse_rules_rules_to_dict rules ds :
  map_items rule_to_dict rules = Ok ds -> map_items parse_rule ds = Ok rules.
Proof.
  revert ds. induction rules as [|[k r] rules IH]; intros ds; simpl.
  - by intros [= <-].
  - destruct (rule_to_dict r) as [d|] eqn:Hr; simpl; [|discriminate].
    destruct (map_items rule_to_dict rules) as [ds'|] eqn:Hrs; simpl; [|discriminate].
    intros [= <-]. simpl.
    by rewrite (parse_rule_rule_to_dict _ _ Hr), (IH _ eq_refl).
Qed.

(** A media rule comes back with the written string as its selector type
    and without its [post_process]. *)
Lemma kwargs_media_rule_to_dict r d :
  media_rule_to_dict r = Ok d -> ExtractionRule_kwargs d = Ok (reloaded_media_rule r).
Proof.
  destruct r as [sel st attr pp]. unfold media_rule_to_dict. simpl.
  destruct st; simpl; try discriminate.
  by intros [= <-].
Qed.

(** What [_parse_config] rebuilds from the output of [to_dict]. *)
Lemma parse_config_to_dict c d : to_dict c = Ok d -> _parse_config d = Ok (reloaded c).
Proof.
  destruct c as [dom uh up tm ua pc rc rules [im vi em]]. unfold to_dict. simpl.
  destruct (map_items rule_to_dict rules) as [ds|] eqn:Hrules; simpl; [|discriminate].
  destruct (media_rule_to_dict im) as [dim|] eqn:Him; simpl; [|discriminate].
  destruct (media_rule_to_dict vi) as [dvi|] eqn:Hvi; simpl; [|discriminate].
  destruct (media_rule_to_dict em) as [dem|] eqn:Hem; simpl; [|discriminate].
  intros [= <-]. unfold _parse_config, parse_media. simpl.
  rewrite (parse_rules_rules_to_dict _ _ Hrules). simpl.
  rewrite (kwargs_media_rule_to_dict _ _ Him). simpl.
  rewrite (kwargs_media_rule_to_dict _ _ Hvi). simpl.
  by rewrite (kwargs_media_rule_to_dict _ _ Hem).
Qed.

(** No recipe that [to_dict] accepts is equal to its reload: its media
    rules hold enum members, the reloaded ones hold strings. *)
Lemma reloaded_differs c d : to_dict c = Ok d -> reloaded c <> c.
Proof.
  destruct c as [dom uh up tm ua pc rc rules [im vi em]]. unfold to_dict. simpl.
  destruct (map_items rule_to_dict rules) as [ds|]; simpl; [|discriminate].
  destruct im as [sel st attr pp]. unfold media_rule_to_dict at 1. simpl.
  destruct st; simpl; try (intros H; discriminate H).
  intros _. unfold reloaded. simpl. intros H. injection H as H1. discriminate H1.
Qed.

(** Every declared-type recipe is accepted by [to_dict]. *)
Lemma to_dict_well_typed c : well_typed c = true -> exists d, to_dict c = Ok d.
Proof.
  destruct c as [dom uh up tm ua pc rc rules [im vi em]].
  unfold well_typed. simpl. rewrite !andb_true_iff.
  intros [[[[_ Hrules] Him] Hvi] Hem].
  assert (Hm : forall r, well_typed_rule r = true -> exists t, selector_type r = PEnum t).
  { intros [sel st attr pp]. unfold well_typed_rule. simpl. rewrite !andb_true_iff.
    intros [[[_ Hst] _] _]. destruct st; try discriminate. eauto. }
  assert (Hrs : exists ds, map_items rule_to_dict rules = Ok ds).
  { induction rules as [|[k r] rules IH]; simpl; [eauto|].
    simpl in Hrules. apply andb_true_iff in Hrules as [Hr Hrules].
    destruct (Hm _ Hr) as [t Ht]. destruct (IH Hrules) as [ds Hds].
    rewrite Hds. destruct r as [sel st attr pp]. simpl in Ht. subst st. simpl. eauto. }
  destruct Hrs as [ds Hds].
  destruct (Hm _ Him) as [t1 H1], (Hm _ Hvi) as [t2 H2], (Hm _ Hem) as [t3 H3].
  unfold to_dict, media_rule_to_dict. simpl. rewrite Hds, H1, H2, H3. simpl. eauto.
Qed.

(** C4. Serializing the sample recipe with [to_dict] and parsing the
    result with [_parse_config] succeeds, but the recipe that comes back is
    not equal to the original: the [images] rule has the string ["css"]
    where the original has the member [SelectorType.CSS], while the
    [title] rule of [extraction_rules], converted by [SelectorType(...)],
    is equal to the original one. *)
Theorem round_trip_changes_media_rules :
  exists d c',
    to_dict sample_config = Ok d /\
    _parse_config d = Ok c' /\
    c' <> sample_config /\
    selector_type (images (media_rules c')) = PStr "css" /\
    selector_type (images (media_rules sample_config)) = PEnum CSS /\
    extraction_rules c' = extraction_rules sample_config.
Proof.
  destruct (to_dict sample_config) as [d|] eqn:Hd; [|discriminate Hd].
  exists d, (reloaded sample_config).
  split; [done|]. split; [by apply parse_config_to_dict|].
  split; [by eapply reloaded_differs|]. done.
Qed.

End RoundTrip.

(** ** Field and media extraction *)

Module Extraction.
Import DomainConfigModel ContentScraper.

Section Facts.
Variable Soup : Type.
Variables select find_all_xpath : Soup -> pyval -> result (list Tag).
Variable get_text : Tag -> result string.

Local Abbreviation select_elements := (select_elements Soup select find_all_xpath).
Local Abbreviation _extract_with_selector :=
  (_extract_with_selector Soup select find_all_xpath get_text).
Local Abbreviation _extract_media := (_extract_media Soup select find_all_xpath).
Local Abbreviation extract_loop := (extract_loop Soup select find_all_xpath get_text).
Local Abbreviation _extract_media_urls := (_extract_media_urls Soup select find_all_xpath).

(** [_extract_with_selector] returns on every input. *)
Lemma extract_with_selector_returns soup rule :
  exists v, _extract_with_selector soup rule = Ok v.
Proof.
  unfold ContentScraper._extract_with_selector, try_except.
  destruct (rbind _ _) as [v|e]; eauto.
Qed.

(** The field loop returns on every input. *)
Lemma extract_loop_returns soup rules content :
  exists out, extract_loop soup rules content = Ok out.
Proof.
  revert content. induction rules as [|[field rule] rules IH]; intros content; simpl.
  - eauto.
  - destruct (extract_with_selector_returns soup rule) as [v ->]. simpl. apply IH.
Qed.

(** The field loop handles a list of rules part by part. *)
Lemma extract_loop_app soup before after content :
  extract_loop soup (before ++ after) content =
  rbind (extract_loop soup before content) (extract_loop soup after).
Proof.
  revert content. induction before as [|[field rule] before IH]; intros content; simpl.
  - done.
  - destruct (_extract_with_selector soup rule) as [v|e]; simpl; [apply IH|done].
Qed.

(** What the field loop leaves under a field name. *)
Lemma extract_loop_lookup soup rules content out name :
  NoDup (keys rules) ->
  extract_loop soup rules content = Ok out ->
  match dict_get name rules with
  | Some rule => exists v, _extract_with_selector soup rule = Ok v /\ dict_get name out = Some v
  | None => dict_get name out = dict_get name content
  end.
Proof.
  revert content. induction rules as [|[field rule] rules IH]; intros content Hnd; simpl.
  - by intros [= <-].
  - simpl in Hnd. apply NoDup_cons in Hnd as [Hnot Hnd].
    destruct (extract_with_selector_returns soup rule) as [v Hv].
    rewrite Hv. simpl. intros Hout. specialize (IH _ Hnd Hout).
    destruct (String.eqb name field) eqn:E.
    + apply String.eqb_eq in E as ->. apply dict_get_None in Hnot. rewrite Hnot in IH.
      exists v. split; [done|]. by rewrite IH, dict_get_set_eq.
    + apply String.eqb_neq in E. destruct (dict_get name rules); [done|].
      by rewrite IH, dict_get_set_ne.
Qed.

(** C5. When the selector of a field rule matches no node,
    [_extract_with_selector] returns [None] for it; the function returns
    (never raises) for every rule; and the loop over the rules of a
    recipe returns a content dict that holds [None] under that field and,
    under the name of every other rule, before or after it, what
    [_extract_with_selector] returns for that rule; the names without a
    rule are left as they were. *)
Theorem no_match_yields_absent_field soup rule :
  select_elements soup rule = Ok [] ->
  _extract_with_selector soup rule = Ok PNone
  /\ (forall other, exists v, _extract_with_selector soup other = Ok v)
  /\ (forall before field after content,
        NoDup (keys (before ++ (field, rule) :: after)) ->
        exists out,
          extract_loop soup (before ++ (field, rule) :: after) content = Ok out
          /\ dict_get field out = Some PNone
          /\ (forall name other,
                (name, other) ∈ (before ++ after)%list ->
                exists v, _extract_with_selector soup other = Ok v
                          /\ dict_get name out = Some v)
          /\ (forall name,
                name ∉ keys (before ++ (field, rule) :: after) ->
                dict_get name out = dict_get name content)).
Proof.
  intros Hnone.
  assert (Hrule : _extract_with_selector soup rule = Ok PNone).
  { unfold ContentScraper._extract_with_selector. by rewrite Hnone. }
  split; [done|]. split; [intros other; apply extract_with_selector_returns|].
  intros before field after content Hnd.
  destruct (extract_loop_returns soup (before ++ (field, rule) :: after) content)
    as [out Hout].
  exists out. split; [done|].
  assert (Hat : forall name other, (name, other) ∈ (before ++ (field, rule) :: after)%list ->
            exists v, _extract_with_selector soup other = Ok v
                      /\ dict_get name out = Some v).
  { intros name other Hin.
    pose proof (extract_loop_lookup soup _ content out name Hnd Hout) as Hl.
    by rewrite (dict_get_elem_of _ _ _ Hnd Hin) in Hl. }
  split; [|split].
  - destruct (Hat field rule) as (v & Hv & Hget).
    { apply elem_of_app. right. apply elem_of_cons. by left. }
    rewrite Hrule in Hv. by injection Hv as <-.
  - intros name other Hin. apply Hat.
    apply elem_of_app in Hin as [Hin|Hin]; apply elem_of_app; [by left|].
    right. apply elem_of_cons. by right.
  - intros name Hname.
    pose proof (extract_loop_lookup soup _ content out name Hnd Hout) as Hl.
    apply dict_get_None in Hname. by rewrite Hname in Hl.
Qed.



(** Without a truthy attribute the media loop appends nothing. *)
Lemma media_loop_no_attribute rule elements urls :
  truthy (attribute rule) = false -> media_loop rule elements urls = Ok urls.
Proof.
  intros Hf. revert urls. induction elements as [|e elements IH]; intros urls; simpl.
  - done.
  - rewrite Hf. apply IH.
Qed.


(** C10. For a media rule whose attribute is unset ([None]),
    [_extract_media] returns the empty list, whatever the selector
    matches. *)
Theorem no_attribute_no_media soup rule :
  attribute rule = PNone -> _extract_media soup rule = Ok [].
Proof.
  intros Ha. unfold ContentScraper._extract_media.
  destruct (select_elements soup rule) as [elements|e]; simpl; [|done].
  rewrite media_loop_no_attribute; [done|]. by rewrite Ha.
Qed.
End Facts.

Lemma no_match_yields_absent_field_witness :
  exists out,
    extract_loop (list Tag) by_tag_name by_tag_name page_text [img "a.png"]
      [("title", heading_rule); ("image", images_rule)] []
    = Ok out
    /\ dict_get "title" out = Some PNone
    /\ dict_get "image" out = Some (PStr "a.png").
Proof.
  destruct (no_match_yields_absent_field (list Tag) by_tag_name by_tag_name page_text
              [img "a.png"] heading_rule eq_refl) as (_ & _ & Hloop).
  destruct (Hloop [] "title" [("image", images_rule)] []) as (out & Hrun & Htitle & Hrest & _).
  { simpl. apply NoDup_cons. split; [|apply NoDup_singleton].
    intros H. apply list_elem_of_singleton in H. discriminate H. }
  exists out. split; [exact Hrun|]. split; [exact Htitle|].
  destruct (Hrest "image" images_rule) as (v & Hv & Hget).
  { apply list_elem_of_singleton. reflexivity. }
  vm_compute in Hv. injection Hv as <-. exact Hget.
Defined.


Lemma no_attribute_no_media_witness :
  _extract_media (list Tag) page_select page_select [img "a.png"; img "b.png"]
                 no_attribute_rule
  = Ok [].
Proof.
  apply (no_attribute_no_media (list Tag) page_select page_select
           [img "a.png"; img "b.png"] no_attribute_rule).
  reflexivity.
Defined.


End Extraction.

(** ** The Celery task of the task manager *)

Module TaskManagerFacts.
Import TaskManager.

(** *** [_update_config_settings] *)

(** C8 as stated fails: the override step assigns to the loaded
    configuration object itself, so the object is not what it was. *)
Lemma override_changes_loaded_config :
  ~ (forall (config : nat) (headers : option (list (string * pyval))) (timeout : Z)
            (w w' : world) (r : nat),
        _update_config_settings config headers timeout w = (Ok r, w') ->
        heap w' !! config = heap w !! config).
Proof.
  intros H.
  specialize (H 0%nat None 10%Z (with_heap example_world [ObjValue stored_dict])
                (with_heap example_world [ObjValue (PDict [("timeout", PInt 10)])])
                0%nat eq_refl).
  discriminate H.
Qed.

(** C8, amended. [_update_config_settings] makes no copy: it returns
    the reference it was given and assigns to the dict behind it in
    place ([timeout] overwritten, [headers] merged with the request's
    headers, every other key as before).  Nothing else changes: the rules
    directory with the persisted per-domain recipes, the task records and
    every other object are as before. *)
Theorem override_updates_config_in_place
    (config : nat) (headers : option (list (string * pyval))) (timeout : Z)
    (w w' : world) (r : result nat) :
  _update_config_settings config headers timeout w = (r, w') ->
  rules_dir w' = rules_dir w
  /\ tasks w' = tasks w
  /\ (forall l, l <> config -> heap w' !! l = heap w !! l)
  /\ (forall c, r = Ok c ->
        c = config
        /\ exists d d',
             heap w !! config = Some (ObjValue (PDict d))
             /\ heap w' !! config = Some (ObjValue (PDict d'))
             /\ dict_get "timeout" d' = Some (PInt timeout)
             /\ (forall k, k <> "timeout" -> k <> "headers" -> dict_get k d' = dict_get k d)
             /\ (headers_given headers = false -> dict_get "headers" d' = dict_get "headers" d)
             /\ (headers_given headers = true ->
                 exists current,
                   get_default d "headers" (PDict []) = PDict current
                   /\ dict_get "headers" d'
                      = Some (PDict (dict_merge current (default [] headers))))).
Proof.
  unfold _update_config_settings. intros Hrun.
  destruct (heap w !! config) as [o|] eqn:Hlook.
  2:{ injection Hrun as <- <-. repeat split; try done. }
  assert (Hlt : (config < length (heap w))%nat) by (by eapply lookup_lt_Some).
  destruct o as [v|c0|].
  2,3: destruct (headers_given headers); injection Hrun as <- <-; repeat split; done.
  destruct v as [| | | | |d|];
    try (destruct (headers_given headers); injection Hrun as <- <-; repeat split; done).
  destruct (headers_given headers) eqn:Hh.
  - destruct (get_default d "headers" (PDict [])) as [| | | | |current|] eqn:Hcur;
      try (injection Hrun as <- <-; repeat split; done).
    injection Hrun as <- <-. simpl.
    split; [done|]. split; [done|].
    split; [intros l Hl; by rewrite list_lookup_insert_ne|].
    intros c [= <-]. split; [done|].
    eexists d, _. split; [done|].
    split; [by rewrite list_lookup_insert_eq|].
    split; [by rewrite dict_get_set_eq|].
    split; [intros k Hk1 Hk2; by rewrite !dict_get_set_ne|].
    split; [done|].
    intros _. exists current. split; [done|].
    rewrite dict_get_set_ne by done. by rewrite dict_get_set_eq.
  - injection Hrun as <- <-. simpl.
    split; [done|]. split; [done|].
    split; [intros l Hl; by rewrite list_lookup_insert_ne|].
    intros c [= <-]. split; [done|].
    eexists d, _. split; [done|].
    split; [by rewrite list_lookup_insert_eq|].
    split; [by rewrite dict_get_set_eq|].
    split; [intros k Hk1 Hk2; by rewrite dict_get_set_ne|].
    split; [intros _; by rewrite dict_get_set_ne|].
    done.
Qed.

Lemma override_updates_config_in_place_witness :
  rules_dir (_update_config_settings 0 None 10
               (with_heap example_world [ObjValue stored_dict])).2
  = rules_dir example_world.
Proof.
  apply (override_updates_config_in_place 0 None 10
           (with_heap example_world [ObjValue stored_dict])
           (with_heap example_world [ObjValue (PDict [("timeout", PInt 10)])])
           (Ok 0%nat)).
  reflexivity.
Defined.

(** *** Resolving the configuration *)

Section Resolve.
Variable netloc : string -> string.
Variable config_dir : string.

Local Abbreviation sg := (services_schema_generator netloc config_dir).

(** A call of [generate_config] always leaves a trace in the history. *)
Lemma call_generate_config_logged (g : schema_generator) url force outcome w :
  generate_calls (call_generate_config g url force outcome w).2
  = (generate_calls w ++ [(url, force)])%list.
Proof.
  unfold call_generate_config.
  destruct (_ && _); [reflexivity|].
  destruct (generate_config_m g _ url outcome) as [[o|e] files]; [|reflexivity].
  destruct (generate_config_async g); reflexivity.
Qed.

(** With the generator the task manager builds, the resolve step of
    [process_task] never gets past [await]: [load_config] returns the
    recipe or [None], neither of which can be awaited. *)
Lemma resolve_step_raises env url w :
  get_or_generate_config sg env url w
  = (Raise (not_awaitable
              (ObjConfig <$> SchemaGenerator.load_config netloc config_dir (rules_dir w) url)),
     w).
Proof. reflexivity. Qed.

(** C9. In app/queue/task_manager.py the persisted recipe is read
    but never used.  When the rules directory holds a file for the domain
    of the URL that is JSON and that [_parse_config] accepts,
    [load_config] returns the recipe, and the [await] applied to it
    raises [TypeError]: "get or generate config" fails, here and for
    every other state of the rules directory, and never calls the
    generator.  The same two lines without that [await], as
    [QueueManager._get_or_generate_config] of app/queue_manager.py has
    them, return the loaded object and call the generator only when
    [load_config] returned [None] or another false value. *)
Theorem persisted_recipe_is_loaded_but_not_used env url w data cfg :
  rules_dir w !! SchemaGenerator._get_config_path config_dir (netloc url)
    = Some (SchemaGenerator.JsonFile data) ->
  SchemaGenerator._parse_config data = Ok cfg ->
  SchemaGenerator.load_config netloc config_dir (rules_dir w) url = Some cfg
  /\ get_or_generate_config sg env url w
     = (Raise (not_awaitable (Some (ObjConfig cfg))), w)
  /\ (forall env0 w0,
        exists e, get_or_generate_config sg env0 url w0 = (Raise e, w0)
                  /\ exn_cls e = Builtin "TypeError")
  /\ (forall (g : schema_generator) env0 w0 o,
        load_config_async g = false ->
        load_config_m g (rules_dir w0) url = Ok (Some o) ->
        obj_truthy o = true ->
        CeleryQueueManager.load_or_generate g env0 url w0
        = (Ok (length (heap w0)), with_heap w0 (heap w0 ++ [o])))
  /\ (forall (g : schema_generator) env0 w0,
        load_config_async g = false ->
        generate_calls (CeleryQueueManager.load_or_generate g env0 url w0).2
        <> generate_calls w0 ->
        exists v, load_config_m g (rules_dir w0) url = Ok v
                  /\ match v with Some o => obj_truthy o = false | None => True end).
Proof.
  intros Hfile Hparse.
  assert (Hload : SchemaGenerator.load_config netloc config_dir (rules_dir w) url = Some cfg).
  { unfold SchemaGenerator.load_config. by rewrite Hfile, Hparse. }
  split; [done|]. split; [by rewrite resolve_step_raises, Hload|].
  split; [intros env0 w0; rewrite resolve_step_raises; by eexists|].
  split.
  - intros g env0 w0 o Hdef Hl Ho. unfold CeleryQueueManager.load_or_generate.
    by rewrite Hdef, Hl, Ho.
  - intros g env0 w0 Hdef. unfold CeleryQueueManager.load_or_generate. rewrite Hdef.
    destruct (load_config_m g (rules_dir w0) url) as [[o|]|e0]; simpl.
    + destruct (obj_truthy o) eqn:Ho; [done|]. intros _. by exists (Some o).
    + intros _. by exists None.
    + done.
Qed.
End Resolve.

Lemma persisted_recipe_is_loaded_but_not_used_witness :
  get_or_generate_config example_generator succeeding_attempt example_url recipe_world
  = (Raise (not_awaitable
              (Some (ObjConfig (SchemaGenerator.reloaded SchemaGenerator.sample_config)))),
     recipe_world).
Proof.
  refine (proj1 (proj2
    (persisted_recipe_is_loaded_but_not_used example_netloc "rules"
       succeeding_attempt example_url recipe_world
       (match DomainConfigModel.to_dict SchemaGenerator.sample_config with
        | Ok d => d
        | Raise _ => PNone
        end)
       (SchemaGenerator.reloaded SchemaGenerator.sample_config) _ _))).
  - vm_compute. reflexivity.
  - vm_compute. reflexivity.
Defined.

(** *** Failure handling and retries *)

Section Retry.
Variable g : schema_generator.
Variable derive : bool.

(** Every update function writes the status it is named after. *)
Lemma update_task_status_sets task_id s w t :
  tasks w !! task_id = Some t ->
  status <$> tasks (_update_task_status task_id s w).2 !! task_id = Some s.
Proof.
  intros Ht. unfold _update_task_status. rewrite Ht. simpl.
  by rewrite lookup_insert_eq.
Qed.

Lemma update_task_failure_sets task_id err w t :
  tasks w !! task_id = Some t ->
  status <$> tasks (_update_task_failure task_id err w).2 !! task_id = Some FAILED.
Proof.
  intros Ht. unfold _update_task_failure. rewrite Ht. simpl.
  by rewrite lookup_insert_eq.
Qed.

(** The updates keep every stored task stored. *)
Lemma update_task_status_keeps task_id s w id :
  is_Some (tasks w !! id) -> is_Some (tasks (_update_task_status task_id s w).2 !! id).
Proof.
  intros Hid. unfold _update_task_status.
  destruct (tasks w !! task_id) eqn:Ht; [|done]. simpl.
  destruct (decide (task_id = id)) as [->|Hne].
  - rewrite lookup_insert_eq. eauto.
  - by rewrite lookup_insert_ne.
Qed.

Lemma update_task_success_keeps task_id r w id :
  is_Some (tasks w !! id) -> is_Some (tasks (_update_task_success task_id r w).2 !! id).
Proof.
  intros Hid. unfold _update_task_success.
  destruct (tasks w !! task_id) eqn:Ht; [|done]. simpl.
  destruct (decide (task_id = id)) as [->|Hne].
  - rewrite lookup_insert_eq. eauto.
  - by rewrite lookup_insert_ne.
Qed.

Lemma call_generate_config_tasks url force outcome w :
  tasks (call_generate_config g url force outcome w).2 = tasks w.
Proof.
  unfold call_generate_config.
  destruct (_ && _); [reflexivity|].
  destruct (generate_config_m g _ url outcome) as [[o|e] files]; [|reflexivity].
  destruct (generate_config_async g); reflexivity.
Qed.

Lemma get_or_generate_config_tasks env url w :
  tasks (get_or_generate_config g env url w).2 = tasks w.
Proof.
  unfold get_or_generate_config, await_load_config.
  destruct (load_config_m g (rules_dir w) url) as [v|e]; [|done].
  destruct (load_config_async g); [|done].
  destruct v as [o|]; [|apply call_generate_config_tasks].
  destruct (obj_truthy o); [done|apply call_generate_config_tasks].
Qed.

Lemma update_config_settings_tasks config headers timeout w :
  tasks (_update_config_settings config headers timeout w).2 = tasks w.
Proof.
  unfold _update_config_settings.
  destruct (heap w !! config) as [[[| | | | |d|]|c0|]|];
    try (destruct (headers_given headers); reflexivity); try reflexivity.
  destruct (headers_given headers); [|reflexivity].
  destruct (get_default d "headers" (PDict [])); reflexivity.
Qed.

Lemma scrape_and_succeed_keeps scrape task_id config w id :
  is_Some (tasks w !! id) ->
  is_Some (tasks (scrape_and_succeed scrape task_id config w).2 !! id).
Proof.
  intros Hid. unfold scrape_and_succeed.
  destruct (heap w !! config) as [o|]; [|done].
  destruct (scrape o); [|done]. by apply update_task_success_keeps.
Qed.

(** The body of [process_task] keeps every stored task stored. *)
Lemma process_task_body_keeps env task_id url headers timeout w id :
  is_Some (tasks w !! id) ->
  is_Some (tasks (process_task_body g env task_id url headers timeout w).2 !! id).
Proof.
  intros Hid. unfold process_task_body, regenerate_and_retry, bind, try_catch, raise.
  pose proof (update_task_status_keeps task_id PROCESSING w id Hid) as H1.
  destruct (_update_task_status task_id PROCESSING w) as [[[]|e1] w1]; simpl in *; [|done].
  pose proof (get_or_generate_config_tasks env url w1) as H2.
  destruct (get_or_generate_config g env url w1) as [[c2|e2] w2]; simpl in *;
    [|by rewrite H2].
  pose proof (update_config_settings_tasks c2 headers timeout w2) as H3.
  destruct (_update_config_settings c2 headers timeout w2) as [[c3|e3] w3]; simpl in *;
    [|by rewrite H3, H2].
  assert (Hid3 : is_Some (tasks w3 !! id)) by (by rewrite H3, H2).
  pose proof (scrape_and_succeed_keeps (first_scrape env) task_id c3 w3 id Hid3) as H4.
  destruct (scrape_and_succeed (first_scrape env) task_id c3 w3) as [[[]|e4] w4];
    simpl in *; [done|].
  destruct (is_extraction_failure e4); [|done].
  pose proof (call_generate_config_tasks url true (reanalysis env) w4) as H5.
  destruct (call_generate_config g url true (reanalysis env) w4) as [[c5|e5] w5];
    simpl in *; [|by rewrite H5].
  pose proof (update_config_settings_tasks c5 headers timeout w5) as H6.
  destruct (_update_config_settings c5 headers timeout w5) as [[c6|e6] w6]; simpl in *;
    [|by rewrite H6, H5].
  assert (Hid6 : is_Some (tasks w6 !! id)) by (by rewrite H6, H5).
  pose proof (scrape_and_succeed_keeps (second_scrape env) task_id c6 w6 id Hid6) as H7.
  by destruct (scrape_and_succeed (second_scrape env) task_id c6 w6) as [[[]|e7] w7].
Qed.

(** Whenever [process_task] asks Celery for a retry, the countdown is
    [60 * 2 ^ retries] with [retries < 3], and it has just marked the task
    [FAILED]. *)
Lemma retry_after_marking_failed env retries task_id url headers timeout w c w' :
  process_task g derive env retries task_id url headers timeout w = (RetryIn c, w') ->
  c = (60 * 2 ^ Z.of_nat retries)%Z
  /\ (retries < 3)%nat
  /\ (is_Some (tasks w !! task_id) -> status <$> tasks w' !! task_id = Some FAILED).
Proof.
  unfold process_task, except_clauses.
  pose proof (process_task_body_keeps env task_id url headers timeout w task_id) as Hk.
  destruct (process_task_body g env task_id url headers timeout w) as [[[]|e] w1];
    simpl in *; [done|].
  destruct (is_ScrapingException derive e); [|done].
  destruct (retries <? max_retries)%nat eqn:Hr; [|done].
  intros [= <- <-]. split; [done|].
  split; [by apply Nat.ltb_lt in Hr|].
  intros Hid. destruct (Hk Hid) as [t Ht]. by eapply update_task_failure_sets.
Qed.

(** Whatever exception leaves the body, [process_task] marks the task
    [FAILED]; unless it is a [ScrapingException], no retry is requested. *)
Lemma process_task_failure_marks_failed env retries task_id url headers timeout w e :
  is_Some (tasks w !! task_id) ->
  (process_task_body g env task_id url headers timeout w).1 = Raise e ->
  status <$> tasks (process_task g derive env retries task_id url headers timeout w).2
             !! task_id = Some FAILED
  /\ (is_ScrapingException derive e = false ->
      (process_task g derive env retries task_id url headers timeout w).1 = Finished).
Proof.
  intros Hid Hraise. unfold process_task, except_clauses.
  pose proof (process_task_body_keeps env task_id url headers timeout w task_id Hid) as Hk.
  destruct (process_task_body g env task_id url headers timeout w) as [[[]|e'] w1];
    simpl in *; [done|].
  injection Hraise as ->. destruct Hk as [t Ht].
  destruct (is_ScrapingException derive e).
  - split; [|done]. destruct (retries <? max_retries)%nat; simpl;
      by eapply update_task_failure_sets.
  - split; [|done]. simpl. by eapply update_task_failure_sets.
Qed.

(** A failure of the regeneration leaves the handler of the extraction
    failure as it is: nothing in the handler catches it. *)
Lemma failed_regeneration_escapes_handler
    env task_id url headers timeout w w1 c w2 c' w3 e1 w4 e w5 :
  _update_task_status task_id PROCESSING w = (Ok tt, w1) ->
  get_or_generate_config g env url w1 = (Ok c, w2) ->
  _update_config_settings c headers timeout w2 = (Ok c', w3) ->
  scrape_and_succeed (first_scrape env) task_id c' w3 = (Raise e1, w4) ->
  is_extraction_failure e1 = true ->
  call_generate_config g url true (reanalysis env) w4 = (Raise e, w5) ->
  process_task_body g env task_id url headers timeout w = (Raise e, w5).
Proof.
  intros H1 H2 H3 H4 H5 H6. unfold process_task_body, regenerate_and_retry, bind, try_catch.
  by rewrite H1, H2, H3, H4, H5, H6.
Qed.

(** The execution that Celery starts for the retry begins by writing
    [PROCESSING]; [_update_task_status] has no guard for a task that is
    already in a terminal state. *)
Lemma retried_task_leaves_failed task_id w t :
  tasks w !! task_id = Some t -> terminal (status t) = true ->
  status <$> tasks (_update_task_status task_id PROCESSING w).2 !! task_id
  = Some PROCESSING.
Proof. intros Ht _. by eapply update_task_status_sets. Qed.
End Retry.



(** *** The task manager with the generator it builds *)

Section BuiltGenerator.
Variable netloc : string -> string.
Variable config_dir : string.
Variable derive : bool.

Local Abbreviation sg := (services_schema_generator netloc config_dir).



End BuiltGenerator.





End TaskManagerFacts.

(** ** The retry loop of the queue manager *)

Module QueueManagerFacts.
Import QueueManager.

Lemma sleeps_update_status task_id s w : sleeps (_update_status task_id s w) = sleeps w.
Proof. unfold _update_status. by destruct (storage w !! task_id). Qed.

Lemma sleeps_update_success task_id r w : sleeps (_update_success task_id r w) = sleeps w.
Proof. unfold _update_success. by destruct (storage w !! task_id). Qed.

Lemma sleeps_update_failure task_id e w : sleeps (_update_failure task_id e w) = sleeps w.
Proof. unfold _update_failure. by destruct (storage w !! task_id). Qed.

Lemma stored_update_status task_id s w :
  is_Some (storage w !! task_id) -> is_Some (storage (_update_status task_id s w) !! task_id).
Proof.
  intros [t Ht]. unfold _update_status. rewrite Ht. simpl.
  rewrite lookup_insert_eq. eauto.
Qed.

Lemma stored_sleep task_id n w :
  is_Some (storage w !! task_id) -> is_Some (storage (sleep n w) !! task_id).
Proof. done. Qed.

Lemma failed_update_failure task_id e w :
  is_Some (storage w !! task_id) ->
  status <$> storage (_update_failure task_id e w) !! task_id = Some FAILED.
Proof.
  intros [t Ht]. unfold _update_failure. rewrite Ht. simpl.
  by rewrite lookup_insert_eq.
Qed.

Create Rewrite HintDb sleeps.
#[local] Hint Rewrite sleeps_update_status sleeps_update_success sleeps_update_failure : sleeps.

(** [_process_task] returns for every behaviour of the scraper: it makes
    at most three attempts, and it has slept [backoff 1], ..., [backoff k]
    where [k] is the number of failures that were followed by another
    attempt. *)
Lemma process_task_schedule scrape task_id w :
  exists attempt w',
    _process_task scrape task_id w = Some (attempt, w')
    /\ (attempt <= 3)%nat
    /\ sleeps w' = (sleeps w ++ map backoff (seq 1 (Nat.min attempt 2)))%list.
Proof.
  unfold _process_task. simpl.
  destruct (scrape 0%nat) as [r0|e0].
  { eexists _, _. split; [reflexivity|]. split; [lia|].
    autorewrite with sleeps. simpl. by rewrite app_nil_r. }
  simpl. destruct (scrape 1%nat) as [r1|e1].
  { eexists _, _. split; [reflexivity|]. split; [lia|].
    autorewrite with sleeps. simpl. by autorewrite with sleeps. }
  destruct (scrape 2%nat) as [r2|e2].
  { eexists _, _. split; [reflexivity|]. split; [lia|].
    autorewrite with sleeps. simpl. autorewrite with sleeps. simpl.
    autorewrite with sleeps. by rewrite <- app_assoc. }
  eexists _, _. split; [reflexivity|]. split; [lia|].
  autorewrite with sleeps. simpl. autorewrite with sleeps. simpl.
  autorewrite with sleeps. by rewrite <- app_assoc.
Qed.

(** C3, amended. In [QueueManager._process_task] (base delay 60 s,
    [max_attempts = 3]) the attempt counter is incremented after each
    failed attempt; while it is below 3 the loop sleeps
    [60 * 2 ^ attempt] seconds and tries again.  Three consecutive
    failures end the task [FAILED] with [attempt = 3], after exactly the
    two delays [60 * 2] and [60 * 4] between the three attempts.  In
    [TaskManager.process_task] a retry is requested only while
    [retries < 3], with the countdown [60 * 2 ^ retries], [retries]
    counted from 0. *)
Theorem backoff_schedule scrape task_id w :
  (forall n, (n < 3)%nat -> exists e, scrape n = Raise e) ->
  (exists w',
     _process_task scrape task_id w = Some (3%nat, w')
     /\ sleeps w' = (sleeps w ++ [60 * 2; 60 * 4])%list%Z
     /\ (is_Some (storage w !! task_id) ->
         status <$> storage w' !! task_id = Some FAILED))
  /\ (forall scrape0 w0,
        exists attempt w',
          _process_task scrape0 task_id w0 = Some (attempt, w')
          /\ (attempt <= 3)%nat
          /\ sleeps w' = (sleeps w0 ++ map backoff (seq 1 (Nat.min attempt 2)))%list)
  /\ (forall g derive env retries url headers timeout tw c tw',
        TaskManager.process_task g derive env retries task_id url headers timeout tw
        = (TaskManager.RetryIn c, tw') ->
        c = (60 * 2 ^ Z.of_nat retries)%Z /\ (retries < 3)%nat).
Proof.
  intros Hfail. split; [|split].
  - destruct (Hfail 0%nat ltac:(lia)) as [e0 H0].
    destruct (Hfail 1%nat ltac:(lia)) as [e1 H1].
    destruct (Hfail 2%nat ltac:(lia)) as [e2 H2].
    unfold _process_task. simpl. rewrite H0. simpl. rewrite H1, H2.
    eexists. split; [reflexivity|]. split.
    + autorewrite with sleeps. simpl. autorewrite with sleeps. simpl.
      autorewrite with sleeps. by rewrite <- app_assoc.
    + intros Hs. apply failed_update_failure.
      by repeat (apply stored_update_status || apply stored_sleep).
  - intros scrape0 w0. apply process_task_schedule.
  - intros g derive env retries url headers timeout tw c tw' Hrun.
    destruct (TaskManagerFacts.retry_after_marking_failed _ _ _ _ _ _ _ _ _ _ _ Hrun)
      as (Hc & Hr & _).
    done.
Qed.

Lemma backoff_schedule_witness :
  exists w',
    _process_task always_timeout "t1" (initial_world "t1" "https://example.com/article")
    = Some (3%nat, w')
    /\ sleeps w' = [120; 240]%Z
    /\ (is_Some (storage (initial_world "t1" "https://example.com/article") !! "t1") ->
        status <$> storage w' !! "t1" = Some FAILED).
Proof.
  refine (proj1 (backoff_schedule always_timeout "t1"
                   (initial_world "t1" "https://example.com/article") _)).
  intros n _. exists Timeout. reflexivity.
Defined.

(** C3 as stated fails: after three consecutive timeouts the loop has
    slept twice, not three times; there is no delay of [60 * 8]. *)
Lemma three_timeouts_two_delays :
  ~ (forall scrape : nat -> result pyval,
        (forall n, (n < 3)%nat -> scrape n = Raise Timeout) ->
        exists w',
          _process_task scrape "t1" (initial_world "t1" "https://example.com/article")
          = Some (3%nat, w')
          /\ sleeps w' = [60 * 2; 60 * 4; 60 * 8]%Z).
Proof.
  intros H. destruct (H always_timeout) as (w' & Hrun & Hsleeps); [done|].
  vm_compute in Hrun. injection Hrun as <-. vm_compute in Hsleeps. discriminate Hsleeps.
Qed.

(** The loop of the queue manager stays on the state machine for every
    behaviour of the scraper: it writes [FAILED] only when it gives up. *)
Lemma queue_manager_follows_state_machine (scrape : nat -> result pyval) :
  exists attempt w',
    _process_task scrape "t1" (initial_world "t1" "https://example.com/article")
    = Some (attempt, w')
    /\ follows_state_machine QUEUED (status_history "t1" w') = true.
Proof.
  unfold _process_task. simpl.
  destruct (scrape 0%nat) as [r0|e0]; [eexists _, _; split; [reflexivity|by vm_compute]|].
  simpl.
  destruct (scrape 1%nat) as [r1|e1]; [eexists _, _; split; [reflexivity|by vm_compute]|].
  destruct (scrape 2%nat) as [r2|e2]; eexists _, _; (split; [reflexivity|by vm_compute]).
Qed.

End QueueManagerFacts.

(** ** The failure handler of the queue service *)

Module QueueServiceFacts.
Import QueueService.

(** The handler never clears the flag. *)
Lemma handler_keeps_flag env error w :
  flag w = true -> flag (_handle_scraping_failure env error w).2 = true.
Proof.
  unfold flag, _handle_scraping_failure, on_schema_error. intros Hf.
  destruct (negb _); [done|].
  destruct (generated env) as [config|e]; simpl.
  - destruct (save_config_error env); simpl.
    + by destruct (save_task_error_again env).
    + destruct (save_task_error env); simpl; [|done].
      by destruct (save_task_error_again env).
  - by destruct (save_task_error_again env).
Qed.

(** The handler never writes the status of the task. *)
Lemma handler_keeps_status env error w :
  info_status (task_info (_handle_scraping_failure env error w).2)
  = info_status (task_info w).
Proof.
  unfold _handle_scraping_failure, on_schema_error.
  destruct (negb _); [done|].
  destruct (generated env) as [config|e]; simpl.
  - destruct (save_config_error env); simpl.
    + by destruct (save_task_error_again env).
    + destruct (save_task_error env); simpl; [|done].
      by destruct (save_task_error_again env).
  - by destruct (save_task_error_again env).
Qed.

Lemma no_rise_once_set events w :
  flag w = true -> rises true (map flag (handle_failures events w)) = 0%nat.
Proof.
  revert w. induction events as [|[env error] events IH]; intros w Hf; simpl; [done|].
  pose proof (handler_keeps_flag env error w Hf) as Hf'.
  rewrite Hf'. simpl. by apply IH.
Qed.

Lemma flag_rises_at_most_once events w :
  (rises (flag w) (map flag (handle_failures events w)) <= 1)%nat.
Proof.
  revert w. induction events as [|[env error] events IH]; intros w; simpl; [lia|].
  destruct (flag w) eqn:Hw.
  - pose proof (handler_keeps_flag env error w Hw) as Hf'. rewrite Hf'. simpl.
    rewrite no_rise_once_set by done. lia.
  - destruct (flag (_handle_scraping_failure env error w).2) eqn:Hf'; simpl.
    + rewrite no_rise_once_set by done. lia.
    + specialize (IH (_handle_scraping_failure env error w).2). rewrite Hf' in IH. lia.
Qed.

(** C2, amended. Once [schema_regenerated] is true, a failure that
    is not a [MissingContentError] triggers no regeneration: the handler
    returns [False] and changes nothing.  Over any sequence of failures of
    a task the flag goes from false to true at most once (it is never
    reset).  A [MissingContentError] calls the generator on every failure,
    whatever the flag. *)
Theorem regeneration_flag_rises_once env error w :
  flag w = true -> is_MissingContentError error = false ->
  _handle_scraping_failure env error w = (false, w)
  /\ (forall events w0, (rises (flag w0) (map flag (handle_failures events w0)) <= 1)%nat)
  /\ (forall env0 error0 w0,
        is_MissingContentError error0 = true ->
        generate_calls (_handle_scraping_failure env0 error0 w0).2
        = (generate_calls w0 ++ [info_url (task_info w0)])%list).
Proof.
  intros Hf Hm. split; [|split].
  - unfold _handle_scraping_failure. unfold flag in Hf. rewrite Hf, Hm.
    by rewrite andb_false_r.
  - intros events w0. apply flag_rises_at_most_once.
  - intros env0 error0 w0 Hm0. unfold _handle_scraping_failure, on_schema_error.
    rewrite Hm0. simpl.
    destruct (generated env0) as [config|e]; simpl.
    + destruct (save_config_error env0); simpl.
      * by destruct (save_task_error_again env0).
      * destruct (save_task_error env0); simpl; [|done].
        by destruct (save_task_error_again env0).
    + by destruct (save_task_error_again env0).
Qed.

Lemma regeneration_flag_rises_once_witness :
  _handle_scraping_failure working_generator (Exn ExtractionError "no content extracted")
                           (sample_world true)
  = (false, sample_world true).
Proof.
  refine (proj1 (regeneration_flag_rises_once working_generator
                   (Exn ExtractionError "no content extracted") (sample_world true) _ _));
    reflexivity.
Defined.

(** C2 as stated fails: with the flag already true, a
    [MissingContentError] makes the handler call the generator again. *)
Lemma missing_content_regenerates_again :
  ~ (forall env error w,
        flag w = true ->
        generate_calls (_handle_scraping_failure env error w).2 = generate_calls w).
Proof.
  intros H.
  specialize (H working_generator (Exn MissingContentError "content missing")
                (sample_world true) eq_refl).
  vm_compute in H. discriminate H.
Qed.

End QueueServiceFacts.

(* ===================================================================== *)
(** * Further properties of the code *)
(* ===================================================================== *)

Local Open Scope list_scope.

(** ** Dicts: keys, updates and merges *)

Section DictUpdates.
Context {V : Type}.
Implicit Types (d a b : list (string * V)) (k : string) (v : V).

Lemma dict_set_same d k v : dict_get k d = Some v -> dict_set k v d = d.
Proof.
  induction d as [|[k' v'] d IH]; simpl; [done|].
  destruct (String.eqb k k') eqn:E.
  - apply String.eqb_eq in E as ->. by intros [= ->].
  - intros H. by rewrite IH.
Qed.

Lemma dict_set_fresh d k v : k ∉ keys d -> dict_set k v d = d ++ [(k, v)].
Proof.
  induction d as [|[k' v'] d IH]; simpl; [done|].
  rewrite not_elem_of_cons. intros [Hne Hnot].
  destruct (String.eqb k k') eqn:E.
  - apply String.eqb_eq in E. contradiction.
  - by rewrite IH.
Qed.

Lemma keys_dict_set_present d k v : k ∈ keys d -> keys (dict_set k v d) = keys d.
Proof.
  induction d as [|[k' v'] d IH]; simpl.
  - intros H. by apply elem_of_nil in H.
  - destruct (String.eqb k k') eqn:E.
    + apply String.eqb_eq in E as ->. done.
    + apply String.eqb_neq in E. rewrite elem_of_cons. intros [?|Hin]; [done|].
      simpl. by rewrite IH.
Qed.

Lemma NoDup_keys_dict_set d k v : NoDup (keys d) -> NoDup (keys (dict_set k v d)).
Proof.
  intros Hd. destruct (decide (k ∈ keys d)) as [Hin|Hnot].
  - by rewrite keys_dict_set_present.
  - rewrite dict_set_fresh by done. unfold keys. rewrite map_app. simpl.
    apply NoDup_app. split; [done|]. split.
    + intros x Hx Hx'. apply list_elem_of_singleton in Hx'. by subst.
    + apply NoDup_singleton.
Qed.

Lemma NoDup_keys_dict_update d other :
  NoDup (keys d) -> NoDup (keys (Helpers.dict_update d other)).
Proof.
  revert d. induction other as [|[k v] other IH]; intros d Hd; simpl; [done|].
  apply IH. by apply NoDup_keys_dict_set.
Qed.

(** After [d.update(other)] a key has the value of [other] if [other]
    has it, and its old value otherwise. *)
Lemma dict_get_update d other k :
  NoDup (keys other) ->
  dict_get k (Helpers.dict_update d other)
  = match dict_get k other with Some v => Some v | None => dict_get k d end.
Proof.
  revert d. induction other as [|[k0 v0] other IH]; intros d Hnd; simpl; [done|].
  simpl in Hnd. apply NoDup_cons in Hnd as [Hnot Hnd].
  rewrite (IH _ Hnd). destruct (String.eqb k k0) eqn:E.
  - apply String.eqb_eq in E as ->.
    apply dict_get_None in Hnot. rewrite Hnot. apply dict_get_set_eq.
  - apply String.eqb_neq in E. by rewrite dict_get_set_ne.
Qed.

(** Building a dict from the items of a dict gives that dict. *)
Lemma dict_update_fresh p a :
  NoDup (keys (p ++ a)) -> Helpers.dict_update p a = p ++ a.
Proof.
  revert p. induction a as [|[k v] a IH]; intros p Hnd; simpl.
  - by rewrite app_nil_r.
  - assert (Hk : k ∉ keys p).
    { unfold keys in Hnd. rewrite map_app in Hnd. simpl in Hnd.
      apply NoDup_app in Hnd as (_ & Hdis & _). intros Hin. apply (Hdis k Hin). left. }
    rewrite dict_set_fresh by done. rewrite IH; rewrite <- app_assoc; done.
Qed.

Lemma dict_merge_update a b :
  dict_merge a b = Helpers.dict_update (Helpers.dict_update [] a) b.
Proof. unfold dict_merge, Helpers.dict_update. by rewrite fold_left_app. Qed.

Lemma NoDup_keys_dict_merge a b : NoDup (keys (dict_merge a b)).
Proof.
  rewrite dict_merge_update. do 2 apply NoDup_keys_dict_update. apply NoDup_nil_2.
Qed.

(** [{**a, **b}]: the value of [b] wins, keys of [a] alone are kept. *)
Lemma dict_get_merge a b k :
  NoDup (keys a) -> NoDup (keys b) ->
  dict_get k (dict_merge a b)
  = match dict_get k b with Some v => Some v | None => dict_get k a end.
Proof.
  intros Ha Hb. rewrite dict_merge_update, dict_get_update by done.
  destruct (dict_get k b); [done|].
  by rewrite (dict_update_fresh [] a).
Qed.

(** Updating with items the dict already holds changes nothing. *)
Lemma dict_update_same d other :
  (forall k v, (k, v) ∈ other -> dict_get k d = Some v) ->
  Helpers.dict_update d other = d.
Proof.
  induction other as [|[k v] other IH]; intros H; simpl; [done|].
  rewrite dict_set_same by (apply H; left). apply IH.
  intros k' v' Hin. apply H. by right.
Qed.

(** Merging the same dict in a second time changes nothing. *)
Lemma dict_merge_again a b :
  NoDup (keys b) -> dict_merge (dict_merge a b) b = dict_merge a b.
Proof.
  intros Hb. rewrite (dict_merge_update (dict_merge a b) b).
  rewrite (dict_update_fresh [] (dict_merge a b)) by apply NoDup_keys_dict_merge.
  simpl. apply dict_update_same. intros k v Hin.
  rewrite dict_merge_update, dict_get_update by done.
  by rewrite (dict_get_elem_of b k v).
Qed.
End DictUpdates.

(** ** Request headers *)

Module HeaderFacts.
Import Helpers TaskManager.

Lemma given_false_default {V} (d : option (list (string * V))) :
  given d = false -> default [] d = [].
Proof. by destruct d as [[|]|]. Qed.

(** X1. In the result of [merge_headers] a key has the value of the
    custom headers if they have it, else that of the default headers,
    else the built-in user agent for ["User-Agent"], and is absent
    otherwise. *)
Theorem merge_headers_precedence (default_headers custom_headers : option (list (string * pyval)))
    (k : string) :
  NoDup (keys (default [] default_headers)) ->
  NoDup (keys (default [] custom_headers)) ->
  dict_get k (merge_headers default_headers custom_headers)
  = match dict_get k (default [] custom_headers) with
    | Some v => Some v
    | None =>
        match dict_get k (default [] default_headers) with
        | Some v => Some v
        | None => if String.eqb k "User-Agent" then Some (PStr default_user_agent) else None
        end
    end.
Proof.
  intros Hd Hc. unfold merge_headers.
  destruct (given custom_headers) eqn:Gc.
  - rewrite dict_get_update by done.
    destruct (dict_get k (default [] custom_headers)); [done|].
    destruct (given default_headers) eqn:Gd.
    + by rewrite dict_get_update.
    + by rewrite (given_false_default _ Gd).
  - rewrite (given_false_default _ Gc). simpl.
    destruct (given default_headers) eqn:Gd.
    + by rewrite dict_get_update.
    + by rewrite (given_false_default _ Gd).
Qed.

Lemma merge_headers_precedence_witness :
  dict_get "Accept"
    (merge_headers (Some [("Accept", PStr "text/html"); ("User-Agent", PStr "bot")])
                   (Some [("Accept", PStr "*/*")]))
  = Some (PStr "*/*").
Proof.
  rewrite (merge_headers_precedence
             (Some [("Accept", PStr "text/html"); ("User-Agent", PStr "bot")])
             (Some [("Accept", PStr "*/*")]) "Accept").
  - reflexivity.
  - simpl. apply NoDup_cons. split; [|apply NoDup_singleton].
    intros H. apply list_elem_of_singleton in H. discriminate H.
  - simpl. apply NoDup_singleton.
Defined.

(** X2. When [_update_config_settings] is given headers for a dict
    configuration whose ["headers"] entry is a dict (or missing), the
    configuration's headers afterwards hold, for every name, the request's
    value if the request has that name and the configuration's previous
    value otherwise. *)
Theorem override_headers_precedence config d current h timeout w :
  heap w !! config = Some (ObjValue (PDict d)) ->
  get_default d "headers" (PDict []) = PDict current ->
  h <> [] -> NoDup (keys current) -> NoDup (keys h) ->
  exists d' merged,
    heap (_update_config_settings config (Some h) timeout w).2 !! config
    = Some (ObjValue (PDict d'))
    /\ dict_get "headers" d' = Some (PDict merged)
    /\ forall k, dict_get k merged
                 = match dict_get k h with Some v => Some v | None => dict_get k current end.
Proof.
  intros Hlook Hcur Hne Hc Hh. unfold _update_config_settings. rewrite Hlook.
  assert (Hg : headers_given (Some h) = true) by (by destruct h).
  rewrite Hg, Hcur. simpl.
  eexists _, _. split.
  { apply list_lookup_insert_eq. by eapply lookup_lt_Some. }
  split.
  { rewrite dict_get_set_ne by done. apply dict_get_set_eq. }
  intros k. by apply dict_get_merge.
Qed.

Lemma override_headers_precedence_witness :
  exists d' merged,
    heap (_update_config_settings 0 (Some [("Accept", PStr "*/*")]) 10
            (with_heap example_world
               [ObjValue (PDict [("headers", PDict [("Accept", PStr "text/html");
                                                    ("Cookie", PStr "a=1")])])])).2 !! 0%nat
    = Some (ObjValue (PDict d'))
    /\ dict_get "headers" d' = Some (PDict merged)
    /\ forall k, dict_get k merged
                 = match dict_get k [("Accept", PStr "*/*")] with
                   | Some v => Some v
                   | None => dict_get k [("Accept", PStr "text/html"); ("Cookie", PStr "a=1")]
                   end.
Proof.
  apply (override_headers_precedence 0
           [("headers", PDict [("Accept", PStr "text/html"); ("Cookie", PStr "a=1")])]
           [("Accept", PStr "text/html"); ("Cookie", PStr "a=1")]
           [("Accept", PStr "*/*")] 10).
  - reflexivity.
  - reflexivity.
  - discriminate.
  - simpl. apply NoDup_cons. split; [|apply NoDup_singleton].
    intros H. apply list_elem_of_singleton in H. discriminate H.
  - simpl. apply NoDup_singleton.
Defined.

(** A call that raises has changed nothing. *)
Lemma override_raise_unchanged config headers timeout w e w' :
  _update_config_settings config headers timeout w = (Raise e, w') -> w' = w.
Proof.
  unfold _update_config_settings.
  destruct (heap w !! config) as [[[| | | | |d|]|c|]|];
    try (destruct (headers_given headers); by intros [= _ <-]); try (by intros [= _ <-]).
  destruct (headers_given headers); simpl; [|discriminate].
  destruct (get_default d "headers" (PDict [])); simpl; try discriminate;
    by intros [= _ <-].
Qed.

(** X3. Applying the same overrides a second time changes nothing:
    the second call returns what the first returned and leaves the world
    as the first left it. *)
Theorem override_twice_is_override_once config headers timeout w :
  NoDup (keys (default [] headers)) ->
  _update_config_settings config headers timeout
    (_update_config_settings config headers timeout w).2
  = _update_config_settings config headers timeout w.
Proof.
  intros Hh.
  destruct (_update_config_settings config headers timeout w) as [[r|e] w1] eqn:Hrun.
  2:{ pose proof (override_raise_unchanged _ _ _ _ _ _ Hrun) as ->. exact Hrun. }
  simpl. revert Hrun. unfold _update_config_settings.
  destruct (heap w !! config) as [[[| | | | |d|]|c|]|] eqn:Hlook;
    try (destruct (headers_given headers); discriminate); try discriminate.
  assert (Hlt : (config < length (heap w))%nat) by (by eapply lookup_lt_Some).
  destruct (headers_given headers) eqn:Hg.
  - destruct (get_default d "headers" (PDict [])) as [| | | | |current|] eqn:Hcur;
      simpl; try discriminate.
    intros [= <- <-]. simpl.
    rewrite list_lookup_insert_eq by done.
    unfold get_default at 1. rewrite dict_get_set_ne by done. rewrite dict_get_set_eq.
    rewrite dict_merge_again by done.
    set (merged := PDict (dict_merge current (default [] headers))).
    set (d2 := dict_set "timeout" (PInt timeout) (dict_set "headers" merged d)).
    assert (H1 : dict_set "headers" merged d2 = d2).
    { apply dict_set_same. unfold d2. rewrite dict_get_set_ne by done.
      apply dict_get_set_eq. }
    assert (H2 : dict_set "timeout" (PInt timeout) d2 = d2).
    { apply dict_set_same. apply dict_get_set_eq. }
    rewrite H1, H2. by rewrite list_insert_insert_eq.
  - simpl. intros [= <- <-]. simpl.
    rewrite list_lookup_insert_eq by done. simpl.
    set (d2 := dict_set "timeout" (PInt timeout) d).
    assert (H2 : dict_set "timeout" (PInt timeout) d2 = d2).
    { apply dict_set_same. apply dict_get_set_eq. }
    rewrite H2. by rewrite list_insert_insert_eq.
Qed.

Lemma override_twice_is_override_once_witness :
  _update_config_settings 0 (Some [("Accept", PStr "*/*")]) 10
    (_update_config_settings 0 (Some [("Accept", PStr "*/*")]) 10
       (with_heap example_world [ObjValue stored_dict])).2
  = _update_config_settings 0 (Some [("Accept", PStr "*/*")]) 10
      (with_heap example_world [ObjValue stored_dict]).
Proof.
  apply (override_twice_is_override_once 0 (Some [("Accept", PStr "*/*")]) 10).
  simpl. apply NoDup_singleton.
Defined.

End HeaderFacts.

(** ** Generating, saving and loading recipes *)

Module SchemaGeneratorFacts.
Import DomainConfigModel SchemaGenerator.

Lemma json_serializable_get d k v :
  json_serializable (PDict d) = true -> dict_get k d = Some v ->
  json_serializable v = true.
Proof.
  simpl. induction d as [|[k' v'] d IH]; simpl; [done|].
  rewrite andb_true_iff. intros [Hv Hd].
  destruct (String.eqb k k'); [by intros [= <-]|by apply IH].
Qed.

Lemma json_serializable_subscript m k v :
  json_serializable m = true -> subscript m k = Ok v -> json_serializable v = true.
Proof.
  destruct m as [| | | | |d|]; simpl; try discriminate.
  intros Hm. destruct (dict_get k d) as [x|] eqn:Hx; [|discriminate].
  intros [= <-]. by eapply json_serializable_get.
Qed.

(** [.value] on JSON data raises [AttributeError]. *)
Lemma enum_value_of_json v :
  json_serializable v = true ->
  exists e, enum_value v = Raise e /\ exn_cls e = Builtin "AttributeError".
Proof. destruct v; simpl; try discriminate; eauto. Qed.

Lemma map_items_keys {A B} (f : A -> result B) d d' :
  map_items f d = Ok d' -> keys d' = keys d.
Proof.
  revert d'. induction d as [|[k a] d IH]; intros d'; simpl.
  - by intros [= <-].
  - destruct (f a); simpl; [|discriminate].
    destruct (map_items f d) as [r|]; simpl; [|discriminate].
    intros [= <-]. simpl. by rewrite (IH r).
Qed.

(** One item that raises makes the whole comprehension raise. *)
Lemma map_items_raises {A B} (f : A -> result B) d k a e :
  (k, a) ∈ d -> f a = Raise e -> exists e', map_items f d = Raise e'.
Proof.
  intros Hin Hf. induction d as [|[k' a'] d IH]; [by apply elem_of_nil in Hin|].
  simpl. apply elem_of_cons in Hin as [[= <- <-]|Hin].
  - rewrite Hf. simpl. eauto.
  - destruct (f a'); simpl; [|eauto].
    destruct (IH Hin) as [e' ->]. simpl. eauto.
Qed.

(** A rule built by [parse_rule] holds an enum member, so [to_dict]
    accepts it. *)
Lemma parsed_rule_to_dict rule r :
  parse_rule rule = Ok r -> exists d, rule_to_dict r = Ok d.
Proof.
  unfold parse_rule.
  destruct (subscript rule "selector") as [sel|]; simpl; [|discriminate].
  destruct (subscript rule "selector_type") as [st0|]; simpl; [|discriminate].
  destruct (SelectorType_call st0) as [st|] eqn:Hst; simpl; [|discriminate].
  destruct (get_method rule "attribute" PNone); simpl; [|discriminate].
  destruct (get_method rule "post_process" PNone); simpl; [|discriminate].
  intros [= <-]. unfold rule_to_dict. simpl.
  assert (Henum : exists t, st = PEnum t).
  { destruct st0 as [| | |s| | |t]; simpl in Hst; try discriminate.
    - destruct (String.eqb s "xpath"); [injection Hst as <-; eauto|].
      destruct (String.eqb s "css"); [injection Hst as <-; eauto|discriminate].
    - injection Hst as <-. eauto. }
  destruct Henum as [t ->]. simpl. eauto.
Qed.

Lemma parsed_rules_to_dict its rules :
  map_items parse_rule its = Ok rules -> exists ds, map_items rule_to_dict rules = Ok ds.
Proof.
  revert rules. induction its as [|[k rule] its IH]; intros rules; simpl.
  - intros [= <-]. simpl. eauto.
  - destruct (parse_rule rule) as [r|] eqn:Hr; simpl; [|discriminate].
    destruct (map_items parse_rule its) as [rs|]; simpl; [|discriminate].
    intros [= <-]. simpl.
    destruct (parsed_rule_to_dict _ _ Hr) as [d ->]. simpl.
    destruct (IH rs eq_refl) as [ds ->]. simpl. eauto.
Qed.

(** The keyword call keeps the selector type it was given. *)
Lemma kwargs_of_json d r :
  json_serializable d = true -> ExtractionRule_kwargs d = Ok r ->
  json_serializable (selector_type r) = true.
Proof.
  destruct d as [| | | | |kw|]; simpl; try discriminate. intros Hd.
  destruct (forallb known_field (keys kw)); [|discriminate].
  destruct (dict_get "selector" kw); [|discriminate].
  destruct (dict_get "selector_type" kw) as [st|] eqn:Hst; [|discriminate].
  intros [= <-]. simpl. by eapply (json_serializable_get kw "selector_type").
Qed.

(** Media rules built from JSON data make [to_dict] raise. *)
Lemma media_of_json_to_dict m media :
  json_serializable m = true -> parse_media m = Ok media ->
  exists e, media_rule_to_dict (images media) = Raise e
            /\ exn_cls e = Builtin "AttributeError".
Proof.
  intros Hm. unfold parse_media.
  destruct (subscript m "images") as [im0|] eqn:Him0; simpl; [|discriminate].
  destruct (ExtractionRule_kwargs im0) as [im|] eqn:Him; simpl; [|discriminate].
  destruct (subscript m "videos") as [vi0|]; simpl; [|discriminate].
  destruct (ExtractionRule_kwargs vi0) as [vi|]; simpl; [|discriminate].
  destruct (subscript m "embeds") as [em0|]; simpl; [|discriminate].
  destruct (ExtractionRule_kwargs em0) as [em|]; simpl; [|discriminate].
  intros [= <-]. simpl.
  pose proof (json_serializable_subscript _ _ _ Hm Him0) as Him0s.
  pose proof (kwargs_of_json _ _ Him0s Him) as Hst.
  destruct (enum_value_of_json _ Hst) as (e & He & Hcls).
  exists e. unfold media_rule_to_dict. by rewrite He.
Qed.

Lemma to_dict_raises c e :
  (exists ds, map_items rule_to_dict (extraction_rules c) = Ok ds) ->
  media_rule_to_dict (images (media_rules c)) = Raise e ->
  to_dict c = Raise e.
Proof. intros [ds Hds] Him. unfold to_dict. by rewrite Hds, Him. Qed.

Section WithEnvironment.
Variable netloc : string -> string.
Variable config_dir : string.

Local Abbreviation path_of url := (_get_config_path config_dir (netloc url)).

(** X4. When the page analysis returns JSON data that
    [_convert_schema_to_config] accepts, [generate_config] still raises
    [AttributeError]: the media rules keep the selector type strings of
    the schema, on which [to_dict] calls [.value].  The file of the
    domain, opened for writing before, is left invalid, so that
    [load_config] returns [None] for the domain afterwards. *)
Theorem generate_config_fails_on_json_schema files url schema config :
  json_serializable schema = true ->
  _convert_schema_to_config (netloc url) schema = Ok config ->
  exists e,
    generate_config netloc config_dir files url (Ok schema)
    = (Raise e, <[path_of url := InvalidFile]> files)
    /\ exn_cls e = Builtin "AttributeError"
    /\ load_config netloc config_dir
         (generate_config netloc config_dir files url (Ok schema)).2 url = None.
Proof.
  intros Hjson Hconv.
  assert (Hto : exists e, to_dict config = Raise e /\ exn_cls e = Builtin "AttributeError").
  { revert Hconv. unfold _convert_schema_to_config.
    destruct (items schema) as [its|]; simpl; [|discriminate].
    destruct (map_items parse_rule _) as [rules|] eqn:Hrules; simpl; [|discriminate].
    destruct (parse_media schema) as [media|] eqn:Hmedia; simpl; [|discriminate].
    intros [= <-].
    destruct (media_of_json_to_dict _ _ Hjson Hmedia) as (e & He & Hcls).
    exists e. split; [|done]. apply to_dict_raises; [|done].
    simpl. by eapply parsed_rules_to_dict. }
  destruct Hto as (e & Hto & Hcls). exists e.
  assert (Hrun : generate_config netloc config_dir files url (Ok schema)
                 = (Raise e, <[path_of url := InvalidFile]> files)).
  { unfold generate_config. by rewrite Hconv, Hto. }
  split; [done|]. split; [done|]. rewrite Hrun. simpl.
  unfold load_config. by rewrite lookup_insert_eq.
Qed.

(** X5. A recipe that [load_config] read from a JSON file cannot be
    written again: [to_dict] raises [AttributeError] on it, because its
    media rules hold the selector type strings of the file. *)
Theorem loaded_recipe_cannot_be_serialized files url data config :
  files !! path_of url = Some (JsonFile data) ->
  json_serializable data = true ->
  load_config netloc config_dir files url = Some config ->
  exists e, to_dict config = Raise e /\ exn_cls e = Builtin "AttributeError".
Proof.
  intros Hfile Hjson. unfold load_config. rewrite Hfile.
  destruct (_parse_config data) as [c|] eqn:Hparse; [|discriminate].
  intros [= <-]. revert Hparse. unfold _parse_config.
  destruct (subscript data "extraction_rules") as [er|]; simpl; [|discriminate].
  destruct (items er) as [its|]; simpl; [|discriminate].
  destruct (map_items parse_rule its) as [rules|] eqn:Hrules; simpl; [|discriminate].
  destruct (subscript data "media_rules") as [mr|] eqn:Hmr; simpl; [|discriminate].
  destruct (parse_media mr) as [media|] eqn:Hmedia; simpl; [|discriminate].
  destruct (subscript data "domain"); simpl; [|discriminate].
  destruct (get_method data "use_headless" _); simpl; [|discriminate].
  destruct (get_method data "use_proxy" _); simpl; [|discriminate].
  destruct (get_method data "timeout" _); simpl; [|discriminate].
  destruct (get_method data "user_agent" _); simpl; [|discriminate].
  destruct (get_method data "proxy_config" _); simpl; [|discriminate].
  destruct (get_method data "retry_count" _); simpl; [|discriminate].
  intros [= <-].
  pose proof (json_serializable_subscript _ _ _ Hjson Hmr) as Hmrs.
  destruct (media_of_json_to_dict _ _ Hmrs Hmedia) as (e & He & Hcls).
  exists e. split; [|done]. apply to_dict_raises; [|done].
  simpl. by eapply parsed_rules_to_dict.
Qed.

(** X6. When [generate_config] returns a recipe, the file of the
    domain holds its serialization, [load_config] gives back the recipe
    as [_parse_config] rebuilds it, and no other file has changed. *)
Theorem generated_recipe_is_loaded_back files url analysis config files' :
  generate_config netloc config_dir files url analysis = (Ok config, files') ->
  (exists d, to_dict config = Ok d /\ files' !! path_of url = Some (JsonFile d))
  /\ load_config netloc config_dir files' url = Some (reloaded config)
  /\ (forall p, p <> path_of url -> files' !! p = files !! p).
Proof.
  unfold generate_config. destruct analysis as [schema|]; [|discriminate].
  destruct (_convert_schema_to_config (netloc url) schema) as [c|]; [|discriminate].
  destruct (to_dict c) as [d|] eqn:Hd; [|discriminate].
  destruct (json_serializable d); [|discriminate].
  intros [= <- <-]. split; [|split].
  - exists d. split; [done|]. apply lookup_insert_eq.
  - unfold load_config. rewrite lookup_insert_eq.
    by rewrite (RoundTrip.parse_config_to_dict _ _ Hd).
  - intros p Hp. by rewrite lookup_insert_ne.
Qed.

(** X7. [generate_config] writes to the file of the URL's domain
    only, whatever happens; when the page analysis or the conversion
    fails, it writes nothing and raises that same exception. *)
Theorem generate_config_writes_one_file files url analysis p :
  p <> path_of url ->
  (generate_config netloc config_dir files url analysis).2 !! p = files !! p
  /\ (forall e, analysis = Raise e ->
        generate_config netloc config_dir files url analysis = (Raise e, files))
  /\ (forall schema e, analysis = Ok schema ->
        _convert_schema_to_config (netloc url) schema = Raise e ->
        generate_config netloc config_dir files url analysis = (Raise e, files)).
Proof.
  intros Hp. split; [|split].
  - unfold generate_config. destruct analysis as [schema|]; [|done].
    destruct (_convert_schema_to_config (netloc url) schema) as [c|]; [|done].
    destruct (to_dict c) as [d|]; simpl.
    + destruct (json_serializable d); simpl; by rewrite lookup_insert_ne.
    + by rewrite lookup_insert_ne.
  - by intros e ->.
  - intros schema e -> Hconv. unfold generate_config. by rewrite Hconv.
Qed.

(** X8. One entry of ["extraction_rules"] that [parse_rule] rejects
    (an unknown selector type, a missing selector) makes [load_config]
    return [None]: the whole recipe is lost, not only the field. *)
Theorem one_bad_rule_hides_the_recipe files url data its field rule e :
  files !! path_of url = Some (JsonFile data) ->
  subscript data "extraction_rules" = Ok (PDict its) ->
  (field, rule) ∈ its ->
  parse_rule rule = Raise e ->
  load_config netloc config_dir files url = None.
Proof.
  intros Hfile Her Hin Hrule. unfold load_config. rewrite Hfile.
  unfold _parse_config. rewrite Her. simpl.
  destruct (map_items_raises parse_rule its field rule e Hin Hrule) as [e' ->].
  done.
Qed.
End WithEnvironment.

Lemma is_media_name k : existsb (String.eqb k) media_names = true <-> k ∈ media_names.
Proof.
  rewrite existsb_exists. split.
  - intros (x & Hx & Heq). apply String.eqb_eq in Heq as ->. by apply list_elem_of_In.
  - intros Hk. exists k. split; [by apply list_elem_of_In|apply String.eqb_refl].
Qed.

(** X9. The recipe that [_convert_schema_to_config] builds has an
    extraction rule for every field of the schema except ["images"],
    ["videos"] and ["embeds"], and for no other field; it has the domain
    it was given and the default settings. *)
Theorem convert_schema_fields domain its config :
  _convert_schema_to_config domain (PDict its) = Ok config ->
  (forall k, k ∈ media_names -> dict_get k (extraction_rules config) = None)
  /\ (forall k, k ∉ media_names ->
        (dict_get k (extraction_rules config) = None <-> dict_get k its = None))
  /\ DomainConfigModel.domain config = PStr domain
  /\ use_headless config = PBool false
  /\ use_proxy config = PBool false
  /\ timeout config = PInt 30
  /\ DomainConfigModel.retry_count config = PInt 3.
Proof.
  unfold _convert_schema_to_config, items. cbn [rbind].
  destruct (map_items parse_rule _) as [rules|] eqn:Hrules; cbn [rbind]; [|discriminate].
  destruct (parse_media (PDict its)) as [media|]; cbn [rbind]; [|discriminate].
  intros [= <-]. cbn [extraction_rules DomainConfigModel.domain use_headless use_proxy
                      timeout DomainConfigModel.retry_count].
  pose proof (map_items_keys _ _ _ Hrules) as Hkeys.
  assert (Hin : forall k, k ∈ keys rules
                          <-> k ∈ keys its /\ k ∉ media_names).
  { intros k. rewrite Hkeys. unfold keys. rewrite !list_elem_of_fmap. split.
    - intros ([k' v] & -> & Hf). apply list_elem_of_filter in Hf as [Hp Hf].
      cbn [fst] in *. split; [by exists (k', v)|].
      intros Hm. apply negb_True in Hp. apply Hp. apply Is_true_true.
      apply is_media_name. done.
    - intros [([k' v] & -> & Hf) Hm]. exists (k', v). split; [done|].
      apply list_elem_of_filter. split; [|done]. cbn [fst] in *.
      apply negb_True. intros Hp. apply Is_true_true in Hp.
      apply is_media_name in Hp. contradiction. }
  split; [|split; [|done]].
  - intros k Hk. apply dict_get_None. rewrite Hin. tauto.
  - intros k Hk. rewrite !dict_get_None, Hin. tauto.
Qed.

Lemma generate_config_fails_on_json_schema_witness :
  exists e,
    generate_config Examples.example_netloc "rules" ∅ Examples.article_url
                    (Ok Examples.json_schema)
    = (Raise e, <[Examples.rules_path := InvalidFile]> ∅)
    /\ exn_cls e = Builtin "AttributeError"
    /\ load_config Examples.example_netloc "rules"
         (generate_config Examples.example_netloc "rules" ∅ Examples.article_url
                          (Ok Examples.json_schema)).2 Examples.article_url = None.
Proof.
  apply (generate_config_fails_on_json_schema Examples.example_netloc "rules" ∅
           Examples.article_url Examples.json_schema (reloaded Examples.schema_config)).
  - reflexivity.
  - reflexivity.
Defined.

Lemma loaded_recipe_cannot_be_serialized_witness :
  exists e,
    to_dict (reloaded SchemaGenerator.sample_config) = Raise e
    /\ exn_cls e = Builtin "AttributeError".
Proof.
  apply (loaded_recipe_cannot_be_serialized Examples.example_netloc "rules"
           (TaskManager.rules_dir TaskManager.recipe_world) Examples.article_url
           (match to_dict SchemaGenerator.sample_config with Ok d => d | Raise _ => PNone end)
           (reloaded SchemaGenerator.sample_config)).
  - vm_compute. reflexivity.
  - vm_compute. reflexivity.
  - vm_compute. reflexivity.
Defined.

Lemma generated_recipe_is_loaded_back_witness :
  load_config Examples.example_netloc "rules"
    (generate_config Examples.example_netloc "rules" ∅ Examples.article_url
                     (Ok Examples.enum_schema)).2
    Examples.article_url
  = Some (reloaded Examples.schema_config).
Proof.
  refine (proj1 (proj2 (generated_recipe_is_loaded_back Examples.example_netloc "rules" ∅
                          Examples.article_url (Ok Examples.enum_schema)
                          Examples.schema_config
                          (generate_config Examples.example_netloc "rules" ∅
                             Examples.article_url (Ok Examples.enum_schema)).2 _))).
  vm_compute. reflexivity.
Defined.

Lemma generate_config_writes_one_file_witness :
  (generate_config Examples.example_netloc "rules" ∅ Examples.article_url
                   (Ok Examples.json_schema)).2 !! "rules/other.org.json"
  = (∅ : gmap string file) !! "rules/other.org.json".
Proof.
  refine (proj1 (generate_config_writes_one_file Examples.example_netloc "rules" ∅
                   Examples.article_url (Ok Examples.json_schema)
                   "rules/other.org.json" _)).
  vm_compute. discriminate.
Defined.

Lemma one_bad_rule_hides_the_recipe_witness :
  load_config Examples.example_netloc "rules"
              {[ Examples.rules_path := JsonFile Examples.bad_layout ]} Examples.article_url
  = None.
Proof.
  apply (one_bad_rule_hides_the_recipe Examples.example_netloc "rules"
           {[ Examples.rules_path := JsonFile Examples.bad_layout ]} Examples.article_url
           Examples.bad_layout
           [("title", PDict [("selector", PStr "h1"); ("selector_type", PStr "css")]);
            ("author", PDict [("selector", PStr ".by"); ("selector_type", PStr "regex")])]
           "author"
           (PDict [("selector", PStr ".by"); ("selector_type", PStr "regex")])
           (ValueError "regex is not a valid SelectorType")).
  - vm_compute. reflexivity.
  - reflexivity.
  - right. left.
  - reflexivity.
Defined.

Lemma convert_schema_fields_witness :
  dict_get "images" (extraction_rules Examples.schema_config) = None.
Proof.
  refine (proj1 (convert_schema_fields "example.com"
                   (match Examples.enum_schema with PDict its => its | _ => [] end)
                   Examples.schema_config _) "images" _).
  - reflexivity.
  - left.
Defined.

End SchemaGeneratorFacts.

(** ** Scraping a fetched page *)

Module ScrapeFacts.
Import DomainConfigModel ContentScraper.

Lemma dict_get_Some_keys {V} (d : list (string * V)) k v :
  dict_get k d = Some v -> k ∈ keys d.
Proof.
  intros H. destruct (decide (k ∈ keys d)) as [|Hn]; [done|].
  apply dict_get_None in Hn. congruence.
Qed.

Section Facts.
Variable Soup : Type.
Variables select find_all_xpath : Soup -> pyval -> result (list Tag).
Variable get_text : Tag -> result string.

Local Abbreviation _extract_with_selector :=
  (_extract_with_selector Soup select find_all_xpath get_text).
Local Abbreviation _extract_media := (_extract_media Soup select find_all_xpath).
Local Abbreviation extract_loop := (extract_loop Soup select find_all_xpath get_text).
Local Abbreviation scrape := (scrape Soup select find_all_xpath get_text).

Lemma extract_media_returns soup rule : exists urls, _extract_media soup rule = Ok urls.
Proof.
  unfold ContentScraper._extract_media, try_except.
  destruct (rbind _ _) as [urls|e]; eauto.
Qed.

(** X10. Each field of the scraped content is what
    [_extract_with_selector] returns for the rule of that name.  Without
    such a rule the field is [None], except [categories], which is then
    the empty list; with a [categories] rule that matches nothing it is
    [None], not a list. *)
Theorem scraped_fields_follow_the_rules soup config r :
  NoDup (keys (extraction_rules config)) ->
  scrape (Ok soup) config = Ok r ->
  let field name value absent :=
    match dict_get name (extraction_rules config) with
    | Some rule => _extract_with_selector soup rule = Ok value
    | None => value = absent
    end in
  field "title" (title r) PNone
  /\ field "content" (content r) PNone
  /\ field "author" (author r) PNone
  /\ field "publish_date" (publish_date r) PNone
  /\ field "language" (language r) PNone
  /\ field "categories" (categories r) (PList [])
  /\ (forall rule, dict_get "categories" (extraction_rules config) = Some rule ->
        select_elements Soup select find_all_xpath soup rule = Ok [] ->
        categories r = PNone).
Proof.
  intros Hnd. unfold ContentScraper.scrape. simpl.
  destruct (extract_loop soup (extraction_rules config) []) as [out|] eqn:Hout;
    simpl; [|discriminate].
  destruct (extract_media_returns soup (images (media_rules config))) as [im ->].
  destruct (extract_media_returns soup (videos (media_rules config))) as [vi ->].
  destruct (extract_media_returns soup (embeds (media_rules config))) as [em ->].
  simpl. intros [= <-]. simpl.
  assert (H : forall name absent,
             match dict_get name (extraction_rules config) with
             | Some rule => _extract_with_selector soup rule = Ok (get_default out name absent)
             | None => get_default out name absent = absent
             end).
  { intros name absent.
    pose proof (Extraction.extract_loop_lookup Soup select find_all_xpath get_text
                  soup _ [] out name Hnd Hout) as Hl.
    unfold get_default. destruct (dict_get name (extraction_rules config)).
    - destruct Hl as (v & Hv & ->). done.
    - by rewrite Hl. }
  repeat (split; [apply H|]).
  intros rule Hrule Hnone.
  specialize (H "categories" (PList [])). rewrite Hrule in H.
  assert (Habsent : _extract_with_selector soup rule = Ok PNone).
  { unfold ContentScraper._extract_with_selector. by rewrite Hnone. }
  congruence.
Qed.
End Facts.

Lemma scraped_fields_follow_the_rules_witness :
  categories
    (mkScraped PNone PNone PNone PNone PNone (PList [])
               [("images", []); ("videos", []); ("embeds", [])])
  = PList [].
Proof.
  refine (proj1 (proj2 (proj2 (proj2 (proj2 (proj2
    (scraped_fields_follow_the_rules (list Tag) page_select page_select page_text []
       SchemaGenerator.sample_config
       (mkScraped PNone PNone PNone PNone PNone (PList [])
                  [("images", []); ("videos", []); ("embeds", [])]) _ _))))))).
  - simpl. apply NoDup_singleton.
  - reflexivity.
Defined.

(** *** Media rules of a recipe read from a file *)

Lemma media_of_json m media :
  SchemaGenerator.json_serializable m = true ->
  SchemaGenerator.parse_media m = Ok media ->
  SchemaGenerator.json_serializable (selector_type (images media)) = true
  /\ SchemaGenerator.json_serializable (selector_type (videos media)) = true
  /\ SchemaGenerator.json_serializable (selector_type (embeds media)) = true.
Proof.
  intros Hm. unfold SchemaGenerator.parse_media.
  destruct (subscript m "images") as [im0|] eqn:Him0; simpl; [|discriminate].
  destruct (SchemaGenerator.ExtractionRule_kwargs im0) as [im|] eqn:Him; simpl;
    [|discriminate].
  destruct (subscript m "videos") as [vi0|] eqn:Hvi0; simpl; [|discriminate].
  destruct (SchemaGenerator.ExtractionRule_kwargs vi0) as [vi|] eqn:Hvi; simpl;
    [|discriminate].
  destruct (subscript m "embeds") as [em0|] eqn:Hem0; simpl; [|discriminate].
  destruct (SchemaGenerator.ExtractionRule_kwargs em0) as [em|] eqn:Hem; simpl;
    [|discriminate].
  intros [= <-]. simpl.
  pose proof (SchemaGeneratorFacts.json_serializable_subscript _ _ _ Hm Him0) as H1.
  pose proof (SchemaGeneratorFacts.json_serializable_subscript _ _ _ Hm Hvi0) as H2.
  pose proof (SchemaGeneratorFacts.json_serializable_subscript _ _ _ Hm Hem0) as H3.
  split; [exact (SchemaGeneratorFacts.kwargs_of_json _ _ H1 Him)|].
  split; [exact (SchemaGeneratorFacts.kwargs_of_json _ _ H2 Hvi)|].
  exact (SchemaGeneratorFacts.kwargs_of_json _ _ H3 Hem).
Qed.

Lemma json_is_not_CSS v : SchemaGenerator.json_serializable v = true -> is_CSS v = false.
Proof. by destruct v as [| | | | | |[]]. Qed.

(** X11. For a recipe parsed from JSON data, media extraction never
    asks the CSS engine, whatever selector type the file names: the
    reloaded selector type is a string, which is not equal to
    [SelectorType.CSS], so every media rule goes to
    [soup.find_all(xpath=...)]. *)
Theorem loaded_media_rules_never_use_css (Soup : Type)
    (select other_select find_all_xpath : Soup -> pyval -> result (list Tag))
    (soup : Soup) (data : pyval) (config : DomainConfig) :
  SchemaGenerator.json_serializable data = true ->
  SchemaGenerator._parse_config data = Ok config ->
  let same rule :=
    select_elements Soup select find_all_xpath soup rule
    = find_all_xpath soup (selector rule)
    /\ _extract_media Soup select find_all_xpath soup rule
       = _extract_media Soup other_select find_all_xpath soup rule in
  same (images (media_rules config))
  /\ same (videos (media_rules config))
  /\ same (embeds (media_rules config)).
Proof.
  intros Hjson. unfold SchemaGenerator._parse_config.
  destruct (subscript data "extraction_rules") as [er|]; simpl; [|discriminate].
  destruct (items er) as [its|]; simpl; [|discriminate].
  destruct (map_items SchemaGenerator.parse_rule its) as [rules|]; simpl; [|discriminate].
  destruct (subscript data "media_rules") as [mr|] eqn:Hmr; simpl; [|discriminate].
  destruct (SchemaGenerator.parse_media mr) as [media|] eqn:Hmedia; simpl; [|discriminate].
  destruct (subscript data "domain"); simpl; [|discriminate].
  destruct (SchemaGenerator.get_method data "use_headless" _); simpl; [|discriminate].
  destruct (SchemaGenerator.get_method data "use_proxy" _); simpl; [|discriminate].
  destruct (SchemaGenerator.get_method data "timeout" _); simpl; [|discriminate].
  destruct (SchemaGenerator.get_method data "user_agent" _); simpl; [|discriminate].
  destruct (SchemaGenerator.get_method data "proxy_config" _); simpl; [|discriminate].
  destruct (SchemaGenerator.get_method data "retry_count" _); simpl; [|discriminate].
  intros [= <-]. simpl.
  pose proof (SchemaGeneratorFacts.json_serializable_subscript _ _ _ Hjson Hmr) as Hmrs.
  destruct (media_of_json _ _ Hmrs Hmedia) as (H1 & H2 & H3).
  apply json_is_not_CSS in H1, H2, H3.
  unfold ContentScraper._extract_media, select_elements.
  by rewrite H1, H2, H3.
Qed.

Lemma loaded_media_rules_never_use_css_witness :
  select_elements (list Tag) page_select (fun _ _ => Ok []) [img "a.png"]
    (SchemaGenerator.reloaded_media_rule images_rule)
  = Ok [].
Proof.
  refine (proj1 (proj1
    (loaded_media_rules_never_use_css (list Tag) page_select page_select (fun _ _ => Ok [])
       [img "a.png"]
       (match to_dict SchemaGenerator.sample_config with Ok d => d | Raise _ => PNone end)
       (SchemaGenerator.reloaded SchemaGenerator.sample_config) _ _))).
  - vm_compute. reflexivity.
  - vm_compute. reflexivity.
Defined.

End ScrapeFacts.

(** ** Extraction from dict rules (app/services/scraper.py) *)

Module ScraperFacts.
Import ContentScraper Scraper.

Section Facts.
Variable Soup : Type.
Variables select find_all_xpath : Soup -> pyval -> result (list Tag).
Variable get_text : Tag -> result string.
Variables str_strip str_lower str_upper : string -> string.

Local Abbreviation _extract_media_urls := (_extract_media_urls Soup select find_all_xpath).
Local Abbreviation _extract_with_rules :=
  (_extract_with_rules Soup select find_all_xpath get_text str_strip str_lower str_upper).
Local Abbreviation content_loop :=
  (content_loop Soup select find_all_xpath get_text str_strip str_lower str_upper).
Local Abbreviation _extract_content :=
  (_extract_content Soup select find_all_xpath get_text str_strip str_lower str_upper).
Local Abbreviation media_files_loop := (media_files_loop Soup select find_all_xpath).
Local Abbreviation _extract_media_files := (_extract_media_files Soup select find_all_xpath).

Lemma extract_media_urls_returns soup rules :
  exists urls, _extract_media_urls soup rules = Ok urls.
Proof.
  unfold ContentScraper._extract_media_urls, try_except.
  destruct (rbind _ _) as [urls|e]; eauto.
Qed.

Lemma extract_with_rules_returns soup rules :
  exists v, _extract_with_rules soup rules = Ok v.
Proof.
  unfold Scraper._extract_with_rules, try_except.
  destruct (rbind _ _) as [v|e]; eauto.
Qed.

(** The media loop never adds or drops a key. *)
Lemma media_files_loop_keys soup its media_files :
  keys (media_files_loop soup its media_files) = keys media_files.
Proof.
  revert media_files. induction its as [|[media_type rules] its IH]; intros mf; simpl;
    [done|].
  rewrite IH. destruct (dict_get media_type mf) as [urls0|] eqn:Hg; [|done].
  destruct (_extract_media_urls soup rules); [|done].
  apply keys_dict_set_present. by eapply ScrapeFacts.dict_get_Some_keys.
Qed.

(** What the media loop leaves under a name. *)
Lemma media_files_loop_lookup soup its media_files name :
  NoDup (keys its) ->
  dict_get name (media_files_loop soup its media_files)
  = match dict_get name media_files, dict_get name its with
    | Some urls0, Some rules =>
        match _extract_media_urls soup rules with
        | Ok urls => Some (urls0 ++ urls)
        | Raise _ => Some urls0
        end
    | Some urls0, None => Some urls0
    | None, _ => None
    end.
Proof.
  revert media_files. induction its as [|[media_type rules] its IH]; intros mf Hnd; simpl.
  - by destruct (dict_get name mf).
  - simpl in Hnd. apply NoDup_cons in Hnd as [Hnot Hnd]. rewrite (IH _ Hnd).
    destruct (String.eqb name media_type) eqn:E.
    + apply String.eqb_eq in E as ->. apply dict_get_None in Hnot. rewrite Hnot.
      destruct (dict_get media_type mf) as [urls0|] eqn:Hg; [|by rewrite Hg].
      destruct (_extract_media_urls soup rules); [|by rewrite Hg].
      by rewrite dict_get_set_eq.
    + apply String.eqb_neq in E.
      destruct (dict_get media_type mf) as [urls0|] eqn:Hg; [|done].
      destruct (_extract_media_urls soup rules); [|done].
      by rewrite dict_get_set_ne.
Qed.

(** X12. For a schema dict, what [_extract_media_files] does depends
    on [schema.get('media_rules', {})].  When that is a dict, whatever it
    holds, the function returns exactly the three lists ["images"],
    ["videos"], ["embeds"]: a rule under another name is ignored, a
    category without a rule has the empty list, and the list of a
    category with a rule is what [_extract_media_urls] returns for that
    rule.  When it is anything else ([None], a list), the function
    raises [AttributeError]: [.items()] is called outside the [try]. *)
Theorem media_files_have_three_lists soup schema mr :
  SchemaGenerator.get_method schema "media_rules" (PDict []) = Ok mr ->
  match mr with
  | PDict its =>
      NoDup (keys its) ->
      exists media_files,
        _extract_media_files soup schema = Ok media_files
        /\ keys media_files = ["images"; "videos"; "embeds"]
        /\ (forall name, name ∈ ["images"; "videos"; "embeds"] ->
              match dict_get name its with
              | Some rules =>
                  exists urls, _extract_media_urls soup rules = Ok urls
                               /\ dict_get name media_files = Some urls
              | None => dict_get name media_files = Some []
              end)
        /\ (forall name, name ∉ ["images"; "videos"; "embeds"] ->
              dict_get name media_files = None)
  | _ =>
      exists e, _extract_media_files soup schema = Raise e
                /\ exn_cls e = Builtin "AttributeError"
  end.
Proof.
  intros Hmr. unfold Scraper._extract_media_files. rewrite Hmr.
  destruct mr as [| | | | |its|]; try (simpl; eexists; split; reflexivity).
  intros Hnd. simpl.
  eexists. split; [reflexivity|].
  split; [by rewrite media_files_loop_keys|]. split.
  - intros name Hname. rewrite media_files_loop_lookup by done.
    assert (Hinit : dict_get name [("images", []); ("videos", []); ("embeds", [])]
                    = Some ([] : list pyval)).
    { apply elem_of_cons in Hname as [->|Hname]; [done|].
      apply elem_of_cons in Hname as [->|Hname]; [done|].
      apply list_elem_of_singleton in Hname as ->. done. }
    rewrite Hinit. destruct (dict_get name its) as [rules|]; [|done].
    destruct (extract_media_urls_returns soup rules) as [urls Hurls].
    rewrite Hurls. eauto.
  - intros name Hname. apply dict_get_None. by rewrite media_files_loop_keys.
Qed.

(** What the content loop leaves under a field name. *)
Lemma content_loop_lookup soup its content out name :
  NoDup (keys its) ->
  content_loop soup its content = Ok out ->
  match dict_get name its with
  | Some (PDict d) =>
      exists v, _extract_with_rules soup (PDict d) = Ok v /\ dict_get name out = Some v
  | _ => dict_get name out = dict_get name content
  end.
Proof.
  revert content. induction its as [|[field rules] its IH]; intros content Hnd; simpl.
  - by intros [= <-].
  - simpl in Hnd. apply NoDup_cons in Hnd as [Hnot Hnd].
    assert (Hskip : content_loop soup its content = Ok out ->
                    (forall d, rules <> PDict d) ->
                    match
                      (if String.eqb name field then Some rules else dict_get name its)
                    with
                    | Some (PDict d) =>
                        exists v, _extract_with_rules soup (PDict d) = Ok v
                                  /\ dict_get name out = Some v
                    | _ => dict_get name out = dict_get name content
                    end).
    { intros Hout Hrules. specialize (IH _ Hnd Hout).
      destruct (String.eqb name field) eqn:E; [|done].
      apply String.eqb_eq in E as ->. apply dict_get_None in Hnot. rewrite Hnot in IH.
      destruct rules; try done. by destruct (Hrules d). }
    destruct rules as [| | | | |d|]; try (intros Hout; by apply Hskip).
    destruct (extract_with_rules_returns soup (PDict d)) as [v Hv].
    rewrite Hv. simpl. intros Hout. specialize (IH _ Hnd Hout).
    destruct (String.eqb name field) eqn:E.
    + apply String.eqb_eq in E as ->. apply dict_get_None in Hnot. rewrite Hnot in IH.
      exists v. split; [done|]. by rewrite IH, dict_get_set_eq.
    + apply String.eqb_neq in E.
      destruct (dict_get name its) as [[| | | | |d'|]|]; try done;
        by rewrite IH, dict_get_set_ne.
Qed.

Lemma content_loop_returns soup its content :
  exists out, content_loop soup its content = Ok out.
Proof.
  revert content. induction its as [|[field rules] its IH]; intros content; simpl; [eauto|].
  destruct rules; try apply IH.
  destruct (extract_with_rules_returns soup (PDict d)) as [v ->]. simpl. apply IH.
Qed.

(** X13. When the schema's ["extraction_rules"] is a dict,
    [_extract_content] returns, and its result has an entry exactly for
    the fields whose rule is a dict: the entry is what
    [_extract_with_rules] returns for the rule, and a field whose rule
    is anything else is left out. *)
Theorem content_has_the_fields_with_dict_rules soup schema its :
  subscript schema "extraction_rules" = Ok (PDict its) ->
  NoDup (keys its) ->
  exists content,
    _extract_content soup schema = Ok content
    /\ forall name,
         match dict_get name its with
         | Some (PDict d) =>
             exists v, _extract_with_rules soup (PDict d) = Ok v
                       /\ dict_get name content = Some v
         | _ => dict_get name content = None
         end.
Proof.
  intros Her Hnd. unfold Scraper._extract_content. rewrite Her. simpl.
  destruct (content_loop_returns soup its []) as [out Hout]. exists out.
  split; [done|]. intros name.
  exact (content_loop_lookup soup its [] out name Hnd Hout).
Qed.

(** X14. A post-process name other than ["strip"], ["lowercase"] and
    ["uppercase"] has no effect: the rule extracts what it extracts
    without any post-processing. *)
Theorem unknown_post_process_is_ignored soup d p :
  dict_get "post_process" d = Some p ->
  is_str_eq p "strip" = false ->
  is_str_eq p "lowercase" = false ->
  is_str_eq p "uppercase" = false ->
  _extract_with_rules soup (PDict d)
  = _extract_with_rules soup (PDict (dict_set "post_process" PNone d)).
Proof.
  intros Hp H1 H2 H3. unfold Scraper._extract_with_rules. simpl.
  unfold get_default. rewrite !dict_get_set_ne by done. rewrite dict_get_set_eq, Hp.
  destruct (if is_xpath_str _ then _ else _) as [[|element elements]|]; simpl; try done.
  destruct (if truthy _ then _ else _) as [content|]; simpl; [|done].
  destruct (truthy p && truthy content); simpl; [|done].
  unfold _apply_post_process. by rewrite H1, H2, H3.
Qed.
End Facts.

Lemma media_files_have_three_lists_witness :
  exists media_files,
    Scraper._extract_media_files (list Tag) page_select page_select [img "a.png"]
      (PDict [("media_rules",
               PDict [("images", PDict [("selector", PStr "img")]);
                      ("audio", PDict [("selector", PStr "audio")])])])
    = Ok media_files
    /\ keys media_files = ["images"; "videos"; "embeds"].
Proof.
  destruct (media_files_have_three_lists (list Tag) page_select page_select
              [img "a.png"]
              (PDict [("media_rules",
                       PDict [("images", PDict [("selector", PStr "img")]);
                              ("audio", PDict [("selector", PStr "audio")])])])
              (PDict [("images", PDict [("selector", PStr "img")]);
                      ("audio", PDict [("selector", PStr "audio")])]))
    as (media_files & Hrun & Hkeys & _).
  - reflexivity.
  - simpl. apply NoDup_cons. split; [|apply NoDup_singleton].
    intros H. apply list_elem_of_singleton in H. discriminate H.
  - exists media_files. split; assumption.
Defined.

Lemma content_has_the_fields_with_dict_rules_witness :
  exists content,
    Scraper._extract_content (list Tag) page_select page_select page_text id id id
      [img "a.png"]
      (PDict [("extraction_rules",
               PDict [("image", PDict [("selector", PStr "img"); ("attribute", PStr "src")]);
                      ("title", PStr "h1")])])
    = Ok content
    /\ forall name,
         match dict_get name [("image", PDict [("selector", PStr "img");
                                               ("attribute", PStr "src")]);
                              ("title", PStr "h1")] with
         | Some (PDict d) =>
             exists v, Scraper._extract_with_rules (list Tag) page_select page_select
                         page_text id id id [img "a.png"] (PDict d) = Ok v
                       /\ dict_get name content = Some v
         | _ => dict_get name content = None
         end.
Proof.
  apply (content_has_the_fields_with_dict_rules (list Tag) page_select page_select
           page_text id id id [img "a.png"]).
  - reflexivity.
  - simpl. apply NoDup_cons. split; [|apply NoDup_singleton].
    intros H. apply list_elem_of_singleton in H. discriminate H.
Defined.

Lemma unknown_post_process_is_ignored_witness :
  Scraper._extract_with_rules (list Tag) page_select page_select page_text id id id
    [img "a.png"]
    (PDict [("selector", PStr "img"); ("attribute", PStr "src");
            ("post_process", PStr "trim")])
  = Scraper._extract_with_rules (list Tag) page_select page_select page_text id id id
      [img "a.png"]
      (PDict (dict_set "post_process" PNone
                [("selector", PStr "img"); ("attribute", PStr "src");
                 ("post_process", PStr "trim")])).
Proof.
  apply (unknown_post_process_is_ignored (list Tag) page_select page_select page_text
           id id id [img "a.png"]
           [("selector", PStr "img"); ("attribute", PStr "src");
            ("post_process", PStr "trim")] (PStr "trim"));
    reflexivity.
Defined.

End ScraperFacts.

(** ** The retry loop of app/services/queue.py, continued *)

Module QueueLoopFacts.
Import QueueManager.

Lemma other_update_status task_id s w id :
  id <> task_id -> storage (_update_status task_id s w) !! id = storage w !! id.
Proof.
  intros Hne. unfold _update_status. destruct (storage w !! task_id); [|done].
  simpl. by rewrite lookup_insert_ne.
Qed.

Lemma other_update_success task_id r w id :
  id <> task_id -> storage (_update_success task_id r w) !! id = storage w !! id.
Proof.
  intros Hne. unfold _update_success. destruct (storage w !! task_id); [|done].
  simpl. by rewrite lookup_insert_ne.
Qed.

Lemma other_update_failure task_id e w id :
  id <> task_id -> storage (_update_failure task_id e w) !! id = storage w !! id.
Proof.
  intros Hne. unfold _update_failure. destruct (storage w !! task_id); [|done].
  simpl. by rewrite lookup_insert_ne.
Qed.

Lemma success_update_records task_id r w :
  is_Some (storage w !! task_id) ->
  exists t, storage (_update_success task_id r w) !! task_id = Some t
            /\ status t = COMPLETED /\ task_result t = Some r.
Proof.
  intros [t Ht]. unfold _update_success. rewrite Ht. simpl.
  rewrite lookup_insert_eq. eauto.
Qed.

Lemma failure_update_records task_id e w :
  is_Some (storage w !! task_id) ->
  exists t, storage (_update_failure task_id e w) !! task_id = Some t
            /\ status t = FAILED /\ error t = Some e.
Proof.
  intros [t Ht]. unfold _update_failure. rewrite Ht. simpl.
  rewrite lookup_insert_eq. eauto.
Qed.

Lemma unknown_update_status task_id s w :
  storage w !! task_id = None -> storage (_update_status task_id s w) = storage w.
Proof. intros H. unfold _update_status. by rewrite H. Qed.

Lemma unknown_update_success task_id r w :
  storage w !! task_id = None -> storage (_update_success task_id r w) = storage w.
Proof. intros H. unfold _update_success. by rewrite H. Qed.

Lemma unknown_update_failure task_id e w :
  storage w !! task_id = None -> storage (_update_failure task_id e w) = storage w.
Proof. intros H. unfold _update_failure. by rewrite H. Qed.

(** X15. For a stored task [_process_task] always ends with the task
    in a terminal state.  It is [COMPLETED], with the result of the first
    call of the scraper that returned, when one of the first three calls
    returns; it is [FAILED], with the message of the third exception,
    when all three raise.  No fourth call is made. *)
Theorem process_task_ends_in_a_terminal_state scrape task_id w :
  is_Some (storage w !! task_id) ->
  exists attempt w' t,
    _process_task scrape task_id w = Some (attempt, w')
    /\ storage w' !! task_id = Some t
    /\ (forall k, (k < attempt)%nat -> exists e, scrape k = Raise e)
    /\ ((exists r, (attempt < 3)%nat /\ scrape attempt = Ok r
                   /\ status t = COMPLETED /\ task_result t = Some r)
        \/ (exists e, attempt = 3%nat /\ scrape 2%nat = Raise e
                      /\ status t = FAILED /\ error t = Some (str_exn e))).
Proof.
  intros Hs. unfold _process_task. simpl.
  pose proof (QueueManagerFacts.stored_update_status task_id PROCESSING w Hs) as Hs1.
  destruct (scrape 0%nat) as [r0|e0] eqn:H0.
  { destruct (success_update_records task_id r0 _ Hs1) as (t & Ht & Hst & Hr).
    eexists 0%nat, _, t. split; [reflexivity|]. split; [done|].
    split; [intros k Hk; lia|]. left. exists r0. repeat split; try done. lia. }
  simpl.
  set (w2 := sleep _ (_update_status task_id PROCESSING w)).
  assert (Hs2 : is_Some (storage (_update_status task_id PROCESSING w2) !! task_id)).
  { apply QueueManagerFacts.stored_update_status. exact Hs1. }
  destruct (scrape 1%nat) as [r1|e1] eqn:H1.
  { destruct (success_update_records task_id r1 _ Hs2) as (t & Ht & Hst & Hr).
    eexists 1%nat, _, t. split; [reflexivity|]. split; [done|].
    split. { intros k Hk. assert (k = 0%nat) as -> by lia. eauto. }
    left. exists r1. repeat split; try done. lia. }
  set (w3 := sleep _ (_update_status task_id PROCESSING w2)).
  assert (Hs3 : is_Some (storage (_update_status task_id PROCESSING w3) !! task_id)).
  { apply QueueManagerFacts.stored_update_status. exact Hs2. }
  assert (Hall : forall k, (k < 2)%nat -> exists e, scrape k = Raise e).
  { intros k Hk. destruct k as [|[|k]]; eauto. lia. }
  destruct (scrape 2%nat) as [r2|e2] eqn:H2.
  { destruct (success_update_records task_id r2 _ Hs3) as (t & Ht & Hst & Hr).
    eexists 2%nat, _, t. split; [reflexivity|]. split; [done|].
    split; [done|]. left. exists r2. repeat split; try done. lia. }
  destruct (failure_update_records task_id (str_exn e2) _ Hs3) as (t & Ht & Hst & He).
  eexists 3%nat, _, t. split; [reflexivity|]. split; [done|].
  split. { intros k Hk. destruct k as [|[|[|k]]]; eauto. lia. }
  right. exists e2. by repeat split.
Qed.

Lemma process_task_ends_in_a_terminal_state_witness :
  exists attempt w' t,
    _process_task always_timeout "t1" (initial_world "t1" "https://example.com/article")
    = Some (attempt, w')
    /\ storage w' !! "t1" = Some t
    /\ (forall k, (k < attempt)%nat -> exists e, always_timeout k = Raise e)
    /\ ((exists r, (attempt < 3)%nat /\ always_timeout attempt = Ok r
                   /\ status t = COMPLETED /\ task_result t = Some r)
        \/ (exists e, attempt = 3%nat /\ always_timeout 2%nat = Raise e
                      /\ status t = FAILED /\ error t = Some (str_exn e))).
Proof.
  apply (process_task_ends_in_a_terminal_state always_timeout "t1"
           (initial_world "t1" "https://example.com/article")).
  vm_compute. eauto.
Defined.

(** X16. [_process_task] reads and writes the record of its own task
    only: every other stored task is as before, and for a task id that
    is not stored nothing is stored at all (the scraper is called and the
    loop sleeps all the same). *)
Theorem process_task_touches_one_record scrape task_id w id :
  id <> task_id \/ storage w !! task_id = None ->
  exists attempt w',
    _process_task scrape task_id w = Some (attempt, w')
    /\ storage w' !! id = storage w !! id.
Proof.
  intros Hid. unfold _process_task. simpl.
  assert (Hst : forall s w0, storage w0 !! id = storage w !! id ->
                  (storage w !! task_id = None -> storage w0 !! task_id = None) ->
                  storage (_update_status task_id s w0) !! id = storage w !! id
                  /\ (storage w !! task_id = None ->
                      storage (_update_status task_id s w0) !! task_id = None)).
  { intros s w0 Hsame Hnone. split.
    - destruct Hid as [Hne|Hno].
      + by rewrite other_update_status.
      + by rewrite unknown_update_status by auto.
    - intros Hno. rewrite unknown_update_status by auto. auto. }
  assert (Hsu : forall r w0, storage w0 !! id = storage w !! id ->
                  (storage w !! task_id = None -> storage w0 !! task_id = None) ->
                  storage (_update_success task_id r w0) !! id = storage w !! id).
  { intros r w0 Hsame Hnone. destruct Hid as [Hne|Hno].
    - by rewrite other_update_success.
    - by rewrite unknown_update_success by auto. }
  assert (Hfa : forall e w0, storage w0 !! id = storage w !! id ->
                  (storage w !! task_id = None -> storage w0 !! task_id = None) ->
                  storage (_update_failure task_id e w0) !! id = storage w !! id).
  { intros e w0 Hsame Hnone. destruct Hid as [Hne|Hno].
    - by rewrite other_update_failure.
    - by rewrite unknown_update_failure by auto. }
  destruct (Hst PROCESSING w eq_refl (fun H => H)) as [A1 B1].
  destruct (scrape 0%nat) as [r0|e0].
  { eexists _, _. split; [reflexivity|]. by apply Hsu. }
  simpl. set (w2 := sleep _ (_update_status task_id PROCESSING w)).
  destruct (Hst PROCESSING w2 A1 B1) as [A2 B2].
  destruct (scrape 1%nat) as [r1|e1].
  { eexists _, _. split; [reflexivity|]. by apply Hsu. }
  set (w3 := sleep _ (_update_status task_id PROCESSING w2)).
  destruct (Hst PROCESSING w3 A2 B2) as [A3 B3].
  destruct (scrape 2%nat) as [r2|e2].
  { eexists _, _. split; [reflexivity|]. by apply Hsu. }
  eexists _, _. split; [reflexivity|]. by apply Hfa.
Qed.

Lemma process_task_touches_one_record_witness :
  exists attempt w',
    _process_task always_timeout "t2" (initial_world "t1" "https://example.com/article")
    = Some (attempt, w')
    /\ storage w' !! "t1"
       = storage (initial_world "t1" "https://example.com/article") !! "t1".
Proof.
  apply (process_task_touches_one_record always_timeout "t2"
           (initial_world "t1" "https://example.com/article") "t1").
  left. discriminate.
Defined.

End QueueLoopFacts.

(** ** The periodic cleanup of the two task managers *)

Module CleanupFacts.
Import TaskManager.

Lemma timedelta_has_no_hours seconds :
  exists e, TaskManagerCleanup.timedelta_attr seconds "hours" = Raise e.
Proof. eexists. reflexivity. Qed.

(** The scan of app/queue/task_manager.py collects nothing: it returns
    only when no task reaches an [.hours] access. *)
Lemma task_manager_scan ct its acc :
  match TaskManagerCleanup.scan ct its acc with
  | Ok to_remove =>
      to_remove = acc
      /\ Forall (fun p => terminal (status p.2) = true /\ completed_at p.2 = None) its
  | Raise e =>
      exn_cls e = Builtin "AttributeError"
      /\ Exists (fun p => ~ (terminal (status p.2) = true /\ completed_at p.2 = None)) its
  end.
Proof.
  revert acc. induction its as [|[id t] its IH]; intros acc; simpl.
  - split; [done|constructor].
  - destruct (terminal (status t)) eqn:Ht.
    + destruct (completed_at t) as [c|] eqn:Hc.
      * simpl. split; [reflexivity|]. apply Exists_cons_hd. simpl.
        rewrite Hc. intros [_ H]. discriminate H.
      * specialize (IH acc). destruct (TaskManagerCleanup.scan ct its acc).
        -- destruct IH as [-> HF]. split; [done|]. constructor; [|done]. by simpl.
        -- destruct IH as [He HE]. split; [done|]. by apply Exists_cons_tl.
    + simpl. split; [reflexivity|]. apply Exists_cons_hd. simpl.
      rewrite Ht. intros [H _]. discriminate H.
Qed.

(** X17. The cleanup of app/queue/task_manager.py never removes a
    task, however old: the age is read from an attribute [hours] that a
    [timedelta] does not have.  The job ends with an [AttributeError] as
    soon as there is a task that is unfinished or that has a completion
    time, and returns normally exactly when every task is finished
    without a completion time. *)
Theorem task_manager_cleanup_removes_nothing w :
  tasks (TaskManagerCleanup.cleanup_old_tasks w).2 = tasks w
  /\ match (TaskManagerCleanup.cleanup_old_tasks w).1 with
     | Ok _ =>
         forall id t, tasks w !! id = Some t ->
                      terminal (status t) = true /\ completed_at t = None
     | Raise e =>
         exn_cls e = Builtin "AttributeError"
         /\ exists id t, tasks w !! id = Some t
                         /\ (terminal (status t) = false \/ is_Some (completed_at t))
     end.
Proof.
  unfold TaskManagerCleanup.cleanup_old_tasks.
  pose proof (task_manager_scan (clock w) (map_to_list (tasks w)) []) as H.
  destruct (TaskManagerCleanup.scan (clock w) (map_to_list (tasks w)) []) as [r|e].
  - destruct H as [-> HF]. simpl. split; [done|].
    intros id t Hl. rewrite Forall_forall in HF.
    apply (HF (id, t)). by apply elem_of_map_to_list.
  - destruct H as [He HE]. simpl. split; [done|]. split; [done|].
    apply Exists_exists in HE as ([id t] & Hin & Hnot). simpl in Hnot.
    exists id, t. split; [by apply elem_of_map_to_list|].
    destruct (terminal (status t)); [|by left].
    destruct (completed_at t); [right; eauto|]. by destruct Hnot.
Qed.

(** The scan of app/queue_manager.py collects the expired tasks. *)
Lemma queue_manager_scan ct its acc :
  Forall (fun p => terminal (status p.2) = true -> is_Some (completed_at p.2)) its ->
  exists to_remove,
    CeleryQueueManager.scan ct its acc = Ok to_remove
    /\ forall id, id ∈ to_remove <->
                  id ∈ acc \/ exists t, (id, t) ∈ its /\ CeleryQueueManager.expired ct t = true.
Proof.
  revert acc. induction its as [|[id t] its IH]; intros acc HF; simpl.
  - exists acc. split; [done|]. intros i. split; [by left|].
    intros [H|(t & Hin & _)]; [done|]. by apply elem_of_nil in Hin.
  - apply Forall_cons in HF as [Hhd HF]. simpl in Hhd.
    assert (Hstep : forall b, b = CeleryQueueManager.expired ct t ->
              exists to_remove,
                CeleryQueueManager.scan ct its (if b then acc ++ [id] else acc) = Ok to_remove
                /\ forall i, i ∈ to_remove <->
                      i ∈ acc \/ exists t0, (i, t0) ∈ (id, t) :: its
                                            /\ CeleryQueueManager.expired ct t0 = true).
    { intros b Hb.
      destruct (IH (if b then acc ++ [id] else acc) HF) as (r & Hr & Hiff).
      exists r. split; [done|]. intros i. rewrite Hiff. split.
      - intros [Hi|(t0 & Hin & He)].
        + destruct b.
          * apply elem_of_app in Hi as [Hi|Hi]; [by left|].
            apply list_elem_of_singleton in Hi as ->. right. exists t.
            split; [apply elem_of_cons; by left|done].
          * by left.
        + right. exists t0. split; [apply elem_of_cons; by right|done].
      - intros [Hi|(t0 & Hin & He)].
        + left. destruct b; [apply elem_of_app|]; auto.
        + apply elem_of_cons in Hin as [Heq|Hin].
          * injection Heq as Hi Ht0. subst i t0. left.
            rewrite <- Hb in He. rewrite He.
            apply elem_of_app. right. by apply list_elem_of_singleton.
          * right. eauto. }
    unfold CeleryQueueManager.expired in Hstep.
    destruct (terminal (status t)) eqn:Ht.
    + destruct (Hhd eq_refl) as [c Hc]. rewrite Hc in *. by apply Hstep.
    + by apply Hstep.
Qed.

(** X18. The cleanup of app/queue_manager.py, when every finished task
    has its completion time, returns and keeps exactly the tasks that
    are not expired: a finished task goes once it completed more than 24
    hours ago, an unfinished one once it was created more than 6 hours
    ago, and the tasks kept are unchanged. *)
Theorem queue_manager_cleanup_removes_the_expired w :
  (forall id t, tasks w !! id = Some t ->
                terminal (status t) = true -> is_Some (completed_at t)) ->
  exists w',
    CeleryQueueManager.cleanup_old_tasks w = (Ok tt, w')
    /\ forall id,
         tasks w' !! id
         = match tasks w !! id with
           | Some t => if CeleryQueueManager.expired (clock w) t then None else Some t
           | None => None
           end.
Proof.
  intros Hall. unfold CeleryQueueManager.cleanup_old_tasks.
  destruct (queue_manager_scan (clock w) (map_to_list (tasks w)) []) as (r & Hr & Hiff).
  { apply Forall_forall. intros [id t] Hin. simpl.
    apply (Hall id). by apply elem_of_map_to_list. }
  rewrite Hr. eexists. split; [reflexivity|]. simpl. intros id.
  destruct (tasks w !! id) as [t|] eqn:Hl.
  - destruct (CeleryQueueManager.expired (clock w) t) eqn:He.
    + apply lookup_foldr_delete. apply Hiff. right. exists t.
      split; [by apply elem_of_map_to_list|done].
    + rewrite lookup_foldr_delete_not_elem_of; [done|].
      intros Hin. apply Hiff in Hin as [Hin|(t0 & Hin & He0)].
      * by apply elem_of_nil in Hin.
      * apply elem_of_map_to_list in Hin. congruence.
  - destruct (decide (id ∈ r)).
    + by apply lookup_foldr_delete.
    + by rewrite lookup_foldr_delete_not_elem_of.
Qed.

Lemma queue_manager_cleanup_removes_the_expired_witness :
  exists w',
    CeleryQueueManager.cleanup_old_tasks Examples.cleanup_world = (Ok tt, w')
    /\ tasks w' !! "old" = None
    /\ tasks w' !! "stuck" = None
    /\ tasks w' !! "new" = tasks Examples.cleanup_world !! "new".
Proof.
  destruct (queue_manager_cleanup_removes_the_expired Examples.cleanup_world)
    as (w' & Hrun & Hl).
  { intros id t Hid Ht. simpl in Hid.
    apply lookup_insert_Some in Hid as [[_ <-]|[_ Hid]]; [by eexists|].
    apply lookup_insert_Some in Hid as [[_ <-]|[_ Hid]]; [by eexists|].
    apply lookup_singleton_Some in Hid as [_ <-]. discriminate Ht. }
  exists w'. split; [exact Hrun|].
  rewrite (Hl "old"), (Hl "stuck"), (Hl "new"). repeat split; reflexivity.
Defined.

Lemma queue_manager_scan_raises ct its acc :
  Exists (fun p => terminal (status p.2) = true /\ completed_at p.2 = None) its ->
  exists e, CeleryQueueManager.scan ct its acc = Raise e /\ exn_cls e = Builtin "TypeError".
Proof.
  revert acc. induction its as [|[id t] its IH]; intros acc HE.
  - by apply Exists_nil in HE.
  - simpl. destruct (terminal (status t)) eqn:Ht.
    + destruct (completed_at t) as [c|] eqn:Hc.
      * apply Exists_cons in HE as [[_ H]|HE]; [simpl in H; congruence|]. by apply IH.
      * eexists. split; reflexivity.
    + apply Exists_cons in HE as [[H _]|HE]; [simpl in H; congruence|]. by apply IH.
Qed.

(** X19. One finished task without a completion time stops the cleanup
    of app/queue_manager.py: the job ends with a [TypeError] and no task
    is removed, the expired ones included. *)
Theorem queue_manager_cleanup_stops_at_a_missing_time w id t :
  tasks w !! id = Some t ->
  terminal (status t) = true ->
  completed_at t = None ->
  exists e,
    (CeleryQueueManager.cleanup_old_tasks w).1 = Raise e
    /\ exn_cls e = Builtin "TypeError"
    /\ tasks (CeleryQueueManager.cleanup_old_tasks w).2 = tasks w.
Proof.
  intros Hl Ht Hc. unfold CeleryQueueManager.cleanup_old_tasks.
  destruct (queue_manager_scan_raises (clock w) (map_to_list (tasks w)) []) as (e & He & Hcls).
  { apply Exists_exists. exists (id, t). split; [by apply elem_of_map_to_list|done]. }
  rewrite He. exists e. by repeat split.
Qed.

Lemma queue_manager_cleanup_stops_at_a_missing_time_witness :
  exists e,
    (CeleryQueueManager.cleanup_old_tasks Examples.unfinished_world).1 = Raise e
    /\ exn_cls e = Builtin "TypeError"
    /\ tasks (CeleryQueueManager.cleanup_old_tasks Examples.unfinished_world).2
       = tasks Examples.unfinished_world.
Proof.
  apply (queue_manager_cleanup_stops_at_a_missing_time Examples.unfinished_world "odd"
           (mkTask "odd" Examples.article_url FAILED 0 10 None None (Some "boom"))).
  - apply lookup_insert_eq.
  - reflexivity.
  - reflexivity.
Defined.

End CleanupFacts.

(** ** The failure handler of the queue service, continued *)

Module FailureHandlerFacts.
Import QueueService.

(** X20. When [_handle_scraping_failure] answers that a retry should
    be attempted, everything before it went through: the failure asked
    for a regeneration, the generator was called once and returned a
    schema, that schema is stored under the url of the task, the flag
    [schema_regenerated] is set and the task record as saved is the
    task as it now is.  The error text of the task is not touched. *)
Theorem retry_means_the_schema_was_saved env error w :
  (_handle_scraping_failure env error w).1 = true ->
  let w' := (_handle_scraping_failure env error w).2 in
  is_MissingContentError error || (is_ExtractionError error && negb (flag w)) = true
  /\ (exists config,
        generated env = Ok config
        /\ configs w' = <[info_url (task_info w) := config]> (configs w))
  /\ generate_calls w' = (generate_calls w ++ [info_url (task_info w)])%list
  /\ task_info w' = set_regenerated (task_info w)
  /\ stored_tasks w' = <[info_task_id (task_info w) := task_info w']> (stored_tasks w).
Proof.
  unfold _handle_scraping_failure, on_schema_error, flag.
  destruct (is_MissingContentError error
            || is_ExtractionError error && negb (schema_regenerated (task_info w)));
    simpl; [|discriminate].
  destruct (generated env) as [config|e]; simpl.
  - destruct (save_config_error env); simpl.
    + destruct (save_task_error_again env); discriminate.
    + destruct (save_task_error env); simpl.
      * destruct (save_task_error_again env); discriminate.
      * intros _. repeat split. by exists config.
  - destruct (save_task_error_again env); discriminate.
Qed.

Lemma retry_means_the_schema_was_saved_witness :
  let w' := (_handle_scraping_failure working_generator
               (Exn ExtractionError "no content extracted") (sample_world false)).2 in
  is_MissingContentError (Exn ExtractionError "no content extracted")
  || (is_ExtractionError (Exn ExtractionError "no content extracted")
      && negb (flag (sample_world false))) = true
  /\ (exists config,
        generated working_generator = Ok config
        /\ configs w' = <[info_url (task_info (sample_world false)) := config]>
                          (configs (sample_world false)))
  /\ generate_calls w'
     = (generate_calls (sample_world false) ++ [info_url (task_info (sample_world false))])%list
  /\ task_info w' = set_regenerated (task_info (sample_world false))
  /\ stored_tasks w' = <[info_task_id (task_info (sample_world false)) := task_info w']>
                         (stored_tasks (sample_world false)).
Proof.
  apply (retry_means_the_schema_was_saved working_generator
           (Exn ExtractionError "no content extracted") (sample_world false)).
  reflexivity.
Defined.

(** X21. If the regenerated schema was stored but saving the task
    then fails, the handler answers that no retry should be attempted
    and writes "Schema regeneration failed" to the task, while the new
    schema stays stored and [schema_regenerated] stays set: a later
    [ExtractionError] of this task will not regenerate again. *)
Theorem failed_save_keeps_the_new_schema env error w config e :
  is_MissingContentError error || (is_ExtractionError error && negb (flag w)) = true ->
  generated env = Ok config ->
  save_config_error env = None ->
  save_task_error env = Some e ->
  let w' := (_handle_scraping_failure env error w).2 in
  (_handle_scraping_failure env error w).1 = false
  /\ configs w' = <[info_url (task_info w) := config]> (configs w)
  /\ flag w' = true
  /\ info_error (task_info w') = Some ("Schema regeneration failed: " ++ str_exn e)%string
  /\ (forall env' error', is_MissingContentError error' = false ->
        _handle_scraping_failure env' error' w' = (false, w')).
Proof.
  unfold flag. intros Hs Hg Hc Ht.
  assert (Hlater : forall w', schema_regenerated (task_info w') = true ->
            forall env' error', is_MissingContentError error' = false ->
              _handle_scraping_failure env' error' w' = (false, w')).
  { intros w' Hf env' error' Hm. unfold _handle_scraping_failure.
    rewrite Hf, Hm. by rewrite andb_false_r. }
  assert (Hrun : _handle_scraping_failure env error w
                 = on_schema_error env e
                     (mkWorld (set_regenerated (task_info w)) (stored_tasks w)
                              (<[info_url (task_info w) := config]> (configs w))
                              (generate_calls w ++ [info_url (task_info w)]))).
  { unfold _handle_scraping_failure. rewrite Hs, Hg, Hc, Ht. reflexivity. }
  rewrite Hrun. unfold on_schema_error.
  destruct (save_task_error_again env);
    (split; [reflexivity|]; split; [reflexivity|]; split; [reflexivity|];
     split; [reflexivity|]; apply Hlater; reflexivity).
Qed.

Lemma failed_save_keeps_the_new_schema_witness :
  let env := mkEnv (Ok (PDict [])) None (Some (Exn (Builtin "ConnectionError") "redis down"))
                   None in
  let error := Exn ExtractionError "no content extracted" in
  let w' := (_handle_scraping_failure env error (sample_world false)).2 in
  (_handle_scraping_failure env error (sample_world false)).1 = false
  /\ configs w' = <[info_url (task_info (sample_world false)) := PDict []]>
                    (configs (sample_world false))
  /\ flag w' = true
  /\ info_error (task_info w')
     = Some ("Schema regeneration failed: "
             ++ str_exn (Exn (Builtin "ConnectionError") "redis down"))%string
  /\ (forall env' error', is_MissingContentError error' = false ->
        _handle_scraping_failure env' error' w' = (false, w')).
Proof.
  apply (failed_save_keeps_the_new_schema
           (mkEnv (Ok (PDict [])) None (Some (Exn (Builtin "ConnectionError") "redis down"))
                  None)
           (Exn ExtractionError "no content extracted") (sample_world false)
           (PDict []) (Exn (Builtin "ConnectionError") "redis down"));
    reflexivity.
Defined.

End FailureHandlerFacts.

(** ** One execution of [process_task] in app/queue/task_manager.py *)

Module ProcessTaskFacts.
Import TaskManager.

Section OneExecution.
Variable g : schema_generator.
Variable derive : bool.

(** *** What an execution does to the task records *)

Lemma update_task_status_returns task_id s w :
  (_update_task_status task_id s w).1 = Ok tt.
Proof. unfold _update_task_status. by destruct (tasks w !! task_id). Qed.

Lemma update_task_status_frame task_id s w id :
  id <> task_id \/ tasks w !! task_id = None ->
  tasks (_update_task_status task_id s w).2 !! id = tasks w !! id
  /\ (id <> task_id \/ tasks (_update_task_status task_id s w).2 !! task_id = None).
Proof.
  intros H. unfold _update_task_status.
  destruct (tasks w !! task_id) eqn:Ht; simpl; [|by rewrite Ht; auto].
  destruct H as [Hne|H]; [|discriminate H].
  rewrite lookup_insert_ne by done. auto.
Qed.

Lemma update_task_success_frame task_id r w id :
  id <> task_id \/ tasks w !! task_id = None ->
  tasks (_update_task_success task_id r w).2 !! id = tasks w !! id
  /\ (id <> task_id \/ tasks (_update_task_success task_id r w).2 !! task_id = None).
Proof.
  intros H. unfold _update_task_success.
  destruct (tasks w !! task_id) eqn:Ht; simpl; [|by rewrite Ht; auto].
  destruct H as [Hne|H]; [|discriminate H].
  rewrite lookup_insert_ne by done. auto.
Qed.

Lemma update_task_failure_frame task_id err w id :
  id <> task_id \/ tasks w !! task_id = None ->
  tasks (_update_task_failure task_id err w).2 !! id = tasks w !! id
  /\ (id <> task_id \/ tasks (_update_task_failure task_id err w).2 !! task_id = None).
Proof.
  intros H. unfold _update_task_failure.
  destruct (tasks w !! task_id) eqn:Ht; simpl; [|by rewrite Ht; auto].
  destruct H as [Hne|H]; [|discriminate H].
  rewrite lookup_insert_ne by done. auto.
Qed.

Lemma scrape_and_succeed_frame scrape task_id config w id :
  id <> task_id \/ tasks w !! task_id = None ->
  tasks (scrape_and_succeed scrape task_id config w).2 !! id = tasks w !! id
  /\ (id <> task_id \/ tasks (scrape_and_succeed scrape task_id config w).2 !! task_id = None).
Proof.
  intros H. unfold scrape_and_succeed.
  destruct (heap w !! config) as [o|]; [|by auto].
  destruct (scrape o); [|by auto]. by apply update_task_success_frame.
Qed.

(** A step that leaves the task table as it is keeps the frame. *)
Lemma same_tasks_frame (w w' : world) task_id id :
  tasks w' = tasks w ->
  id <> task_id \/ tasks w !! task_id = None ->
  tasks w' !! id = tasks w !! id /\ (id <> task_id \/ tasks w' !! task_id = None).
Proof. intros ->. auto. Qed.

Lemma process_task_body_frame env task_id url headers timeout w id :
  id <> task_id \/ tasks w !! task_id = None ->
  tasks (process_task_body g env task_id url headers timeout w).2 !! id = tasks w !! id
  /\ (id <> task_id
      \/ tasks (process_task_body g env task_id url headers timeout w).2 !! task_id = None).
Proof.
  intros H0. unfold process_task_body, regenerate_and_retry, bind, try_catch, raise.
  destruct (update_task_status_frame task_id PROCESSING w id H0) as [E1 H1].
  destruct (_update_task_status task_id PROCESSING w) as [[[]|e1] w1]; simpl in *;
    [|by auto].
  destruct (same_tasks_frame w1 _ task_id id
              (TaskManagerFacts.get_or_generate_config_tasks g env url w1) H1) as [E2 H2].
  destruct (get_or_generate_config g env url w1) as [[c2|e2] w2]; simpl in *;
    [|by rewrite E2, E1].
  destruct (same_tasks_frame w2 _ task_id id
              (TaskManagerFacts.update_config_settings_tasks c2 headers timeout w2) H2)
    as [E3 H3].
  destruct (_update_config_settings c2 headers timeout w2) as [[c3|e3] w3]; simpl in *;
    [|by rewrite E3, E2, E1].
  destruct (scrape_and_succeed_frame (first_scrape env) task_id c3 w3 id H3) as [E4 H4].
  destruct (scrape_and_succeed (first_scrape env) task_id c3 w3) as [[[]|e4] w4];
    simpl in *; [by rewrite E4, E3, E2, E1|].
  destruct (is_extraction_failure e4); simpl; [|by rewrite E4, E3, E2, E1].
  destruct (same_tasks_frame w4 _ task_id id
              (TaskManagerFacts.call_generate_config_tasks g url true (reanalysis env) w4) H4)
    as [E5 H5].
  destruct (call_generate_config g url true (reanalysis env) w4) as [[c5|e5] w5];
    simpl in *; [|by rewrite E5, E4, E3, E2, E1].
  destruct (same_tasks_frame w5 _ task_id id
              (TaskManagerFacts.update_config_settings_tasks c5 headers timeout w5) H5)
    as [E6 H6].
  destruct (_update_config_settings c5 headers timeout w5) as [[c6|e6] w6]; simpl in *;
    [|by rewrite E6, E5, E4, E3, E2, E1].
  destruct (scrape_and_succeed_frame (second_scrape env) task_id c6 w6 id H6) as [E7 H7].
  destruct (scrape_and_succeed (second_scrape env) task_id c6 w6) as [[[]|e7] w7];
    simpl in *; by rewrite E7, E6, E5, E4, E3, E2, E1.
Qed.

(** X22. One execution of [process_task] writes the record of its own
    task only: every other task is exactly as before, and for a task id
    that is not in the table no record appears (the page is scraped all
    the same, the result is dropped). *)
Theorem process_task_writes_its_own_record env retries task_id url headers timeout w id :
  id <> task_id \/ tasks w !! task_id = None ->
  tasks (process_task g derive env retries task_id url headers timeout w).2 !! id
  = tasks w !! id.
Proof.
  intros H0. unfold process_task, except_clauses.
  destruct (process_task_body_frame env task_id url headers timeout w id H0) as [E1 H1].
  destruct (process_task_body g env task_id url headers timeout w) as [[[]|e] w1];
    simpl in *; [done|].
  destruct (is_ScrapingException derive e).
  - destruct (update_task_failure_frame task_id (str_exn e) w1 id H1) as [E2 _].
    destruct (retries <? max_retries)%nat; simpl; by rewrite E2.
  - destruct (update_task_failure_frame task_id ("Internal error: " ++ str_exn e)%string w1 id H1)
      as [E2 _].
    simpl. by rewrite E2.
Qed.

(** *** How an execution leaves its task *)

Lemma update_task_success_completes task_id r w :
  is_Some (tasks w !! task_id) ->
  exists t, tasks (_update_task_success task_id r w).2 !! task_id = Some t
            /\ status t = COMPLETED /\ task_result t = Some r
            /\ completed_at t = Some (clock w).
Proof.
  intros [t Ht]. unfold _update_task_success. rewrite Ht. simpl.
  rewrite lookup_insert_eq. eauto.
Qed.

Lemma update_task_failure_fails task_id err w :
  is_Some (tasks w !! task_id) ->
  exists t, tasks (_update_task_failure task_id err w).2 !! task_id = Some t
            /\ status t = FAILED /\ error t = Some err
            /\ completed_at t = Some (clock w).
Proof.
  intros [t Ht]. unfold _update_task_failure. rewrite Ht. simpl.
  rewrite lookup_insert_eq. eauto.
Qed.

Lemma scrape_and_succeed_completes scrape task_id config w w' :
  is_Some (tasks w !! task_id) ->
  scrape_and_succeed scrape task_id config w = (Ok tt, w') ->
  exists t r, tasks w' !! task_id = Some t
              /\ status t = COMPLETED /\ task_result t = Some r
              /\ is_Some (completed_at t).
Proof.
  intros Hs. unfold scrape_and_succeed.
  destruct (heap w !! config) as [o|]; [|discriminate].
  destruct (scrape o) as [r|e]; [|discriminate].
  destruct (update_task_success_completes task_id r w Hs) as (t & Ht & H1 & H2 & H3).
  intros Heq. rewrite Heq in Ht. simpl in Ht. exists t, r.
  split; [done|]. split; [done|]. split; [done|]. rewrite H3. eauto.
Qed.

(** When the body returns, the task was just marked [COMPLETED]. *)
Lemma process_task_body_completes env task_id url headers timeout w w' :
  is_Some (tasks w !! task_id) ->
  process_task_body g env task_id url headers timeout w = (Ok tt, w') ->
  exists t r, tasks w' !! task_id = Some t
              /\ status t = COMPLETED /\ task_result t = Some r
              /\ is_Some (completed_at t).
Proof.
  intros Hid. unfold process_task_body, regenerate_and_retry, bind, try_catch, raise.
  pose proof (TaskManagerFacts.update_task_status_keeps task_id PROCESSING w task_id Hid)
    as H1.
  destruct (_update_task_status task_id PROCESSING w) as [[[]|e1] w1]; simpl in *;
    [|discriminate].
  pose proof (TaskManagerFacts.get_or_generate_config_tasks g env url w1) as H2.
  destruct (get_or_generate_config g env url w1) as [[c2|e2] w2]; simpl in *;
    [|discriminate].
  pose proof (TaskManagerFacts.update_config_settings_tasks c2 headers timeout w2) as H3.
  destruct (_update_config_settings c2 headers timeout w2) as [[c3|e3] w3]; simpl in *;
    [|discriminate].
  assert (Hid3 : is_Some (tasks w3 !! task_id)) by (by rewrite H3, H2).
  pose proof (scrape_and_succeed_completes (first_scrape env) task_id c3 w3) as H4.
  pose proof (TaskManagerFacts.scrape_and_succeed_keeps (first_scrape env) task_id c3 w3
                task_id Hid3) as K4.
  destruct (scrape_and_succeed (first_scrape env) task_id c3 w3) as [[[]|e4] w4];
    simpl in *.
  { intros [= <-]. by apply H4. }
  destruct (is_extraction_failure e4); simpl; [|discriminate].
  pose proof (TaskManagerFacts.call_generate_config_tasks g url true (reanalysis env) w4)
    as H5.
  destruct (call_generate_config g url true (reanalysis env) w4) as [[c5|e5] w5];
    simpl in *; [|discriminate].
  pose proof (TaskManagerFacts.update_config_settings_tasks c5 headers timeout w5) as H6.
  destruct (_update_config_settings c5 headers timeout w5) as [[c6|e6] w6]; simpl in *;
    [|discriminate].
  assert (Hid6 : is_Some (tasks w6 !! task_id)) by (by rewrite H6, H5).
  pose proof (scrape_and_succeed_completes (second_scrape env) task_id c6 w6) as H7.
  destruct (scrape_and_succeed (second_scrape env) task_id c6 w6) as [[[]|e7] w7];
    simpl in *; [|discriminate].
  intros [= <-]. by apply H7.
Qed.

(** X23. Every execution of [process_task] for a stored task leaves
    it finished.  Either the execution returns with the task [COMPLETED]
    and holding a result, or the task is [FAILED] and holds an error
    text; only in the second case can a retry be requested, with
    [retries < 3] and a countdown of [60 * 2 ^ retries] seconds.  In both
    cases the completion time is set. *)
Theorem process_task_leaves_the_task_finished env retries task_id url headers timeout w :
  is_Some (tasks w !! task_id) ->
  exists t,
    tasks (process_task g derive env retries task_id url headers timeout w).2 !! task_id
    = Some t
    /\ is_Some (completed_at t)
    /\ ((process_task g derive env retries task_id url headers timeout w).1 = Finished
        /\ status t = COMPLETED /\ is_Some (task_result t)
        \/ status t = FAILED /\ is_Some (error t)
           /\ forall c,
                (process_task g derive env retries task_id url headers timeout w).1
                = RetryIn c ->
                (retries < 3)%nat /\ c = (60 * 2 ^ Z.of_nat retries)%Z).
Proof.
  intros Hid. unfold process_task, except_clauses.
  pose proof (process_task_body_completes env task_id url headers timeout w) as Hok.
  pose proof (TaskManagerFacts.process_task_body_keeps g env task_id url headers timeout w
                task_id Hid) as Hk.
  destruct (process_task_body g env task_id url headers timeout w) as [[[]|e] w1];
    simpl in *.
  - destruct (Hok w1 Hid eq_refl) as (t & r & Ht & Hs & Hr & Hc).
    exists t. split; [done|]. split; [done|]. left. rewrite Hr. eauto.
  - destruct (is_ScrapingException derive e).
    + destruct (update_task_failure_fails task_id (str_exn e) w1 Hk)
        as (t & Ht & Hs & He & Hc).
      exists t. destruct (retries <? max_retries)%nat eqn:Hr; simpl.
      * split; [done|]. split; [rewrite Hc; eauto|]. right.
        split; [done|]. split; [rewrite He; eauto|].
        intros c [= <-]. split; [by apply Nat.ltb_lt in Hr|done].
      * split; [done|]. split; [rewrite Hc; eauto|]. right.
        split; [done|]. split; [rewrite He; eauto|]. intros c; discriminate.
    + destruct (update_task_failure_fails task_id ("Internal error: " ++ str_exn e)%string w1 Hk)
        as (t & Ht & Hs & He & Hc).
      exists t. simpl. split; [done|]. split; [rewrite Hc; eauto|]. right.
      split; [done|]. split; [rewrite He; eauto|]. intros c; discriminate.
Qed.

(** *** The calls of the generator *)

Lemma update_task_status_calls task_id s w :
  generate_calls (_update_task_status task_id s w).2 = generate_calls w.
Proof. unfold _update_task_status. by destruct (tasks w !! task_id). Qed.

Lemma update_task_success_calls task_id r w :
  generate_calls (_update_task_success task_id r w).2 = generate_calls w.
Proof. unfold _update_task_success. by destruct (tasks w !! task_id). Qed.

Lemma update_task_failure_calls task_id err w :
  generate_calls (_update_task_failure task_id err w).2 = generate_calls w.
Proof. unfold _update_task_failure. by destruct (tasks w !! task_id). Qed.

Lemma update_config_settings_calls config headers timeout w :
  generate_calls (_update_config_settings config headers timeout w).2 = generate_calls w.
Proof.
  unfold _update_config_settings.
  destruct (heap w !! config) as [[[| | | | |d|]|c0|]|];
    try (destruct (headers_given headers); reflexivity); try reflexivity.
  destruct (headers_given headers); [|reflexivity].
  destruct (get_default d "headers" (PDict [])); reflexivity.
Qed.

Lemma scrape_and_succeed_calls scrape task_id config w :
  generate_calls (scrape_and_succeed scrape task_id config w).2 = generate_calls w.
Proof.
  unfold scrape_and_succeed. destruct (heap w !! config) as [o|]; [|done].
  destruct (scrape o); [|done]. apply update_task_success_calls.
Qed.

Lemma call_generate_config_calls url force outcome w :
  generate_calls (call_generate_config g url force outcome w).2
  = generate_calls w ++ [(url, force)].
Proof.
  unfold call_generate_config.
  destruct (_ && _); [reflexivity|].
  destruct (generate_config_m g _ url outcome) as [[o|e] files]; [|reflexivity].
  destruct (generate_config_async g); reflexivity.
Qed.

Lemma get_or_generate_config_calls env url w :
  generate_calls (get_or_generate_config g env url w).2 = generate_calls w
  \/ generate_calls (get_or_generate_config g env url w).2
     = generate_calls w ++ [(url, false)].
Proof.
  unfold get_or_generate_config, await_load_config.
  destruct (load_config_m g (rules_dir w) url) as [v|e]; [|by left].
  destruct (load_config_async g); [|by left].
  destruct v as [o|]; [|right; apply call_generate_config_calls].
  destruct (obj_truthy o); [by left|right; apply call_generate_config_calls].
Qed.

Lemma process_task_body_calls env task_id url headers timeout w :
  exists calls,
    generate_calls (process_task_body g env task_id url headers timeout w).2
    = generate_calls w ++ calls
    /\ (calls = [] \/ calls = [(url, false)] \/ calls = [(url, true)]
        \/ calls = [(url, false); (url, true)]).
Proof.
  unfold process_task_body, regenerate_and_retry, bind, try_catch, raise.
  pose proof (update_task_status_calls task_id PROCESSING w) as E1.
  destruct (_update_task_status task_id PROCESSING w) as [[[]|e1] w1]; simpl in *;
    [|exists []; rewrite app_nil_r; auto].
  assert (Hfirst : exists first,
            generate_calls (get_or_generate_config g env url w1).2
            = generate_calls w ++ first
            /\ (first = [] \/ first = [(url, false)])).
  { destruct (get_or_generate_config_calls env url w1) as [H|H]; rewrite H, E1.
    - exists []. rewrite app_nil_r. auto.
    - exists [(url, false)]. auto. }
  destruct Hfirst as (first & E2 & Hfirst).
  assert (Hone : forall w', generate_calls w' = generate_calls w ++ first ->
            exists calls, generate_calls w' = generate_calls w ++ calls
              /\ (calls = [] \/ calls = [(url, false)] \/ calls = [(url, true)]
                  \/ calls = [(url, false); (url, true)])).
  { intros w' Hw'. exists first. split; [done|]. destruct Hfirst as [->| ->]; auto. }
  assert (Htwo : forall w', generate_calls w' = (generate_calls w ++ first) ++ [(url, true)] ->
            exists calls, generate_calls w' = generate_calls w ++ calls
              /\ (calls = [] \/ calls = [(url, false)] \/ calls = [(url, true)]
                  \/ calls = [(url, false); (url, true)])).
  { intros w' Hw'. exists (first ++ [(url, true)]). rewrite app_assoc. split; [done|].
    destruct Hfirst as [->| ->]; simpl; auto. }
  destruct (get_or_generate_config g env url w1) as [[c2|e2] w2]; simpl in *;
    [|by apply Hone].
  pose proof (update_config_settings_calls c2 headers timeout w2) as E3.
  destruct (_update_config_settings c2 headers timeout w2) as [[c3|e3] w3]; simpl in *;
    [|apply Hone; by rewrite E3].
  pose proof (scrape_and_succeed_calls (first_scrape env) task_id c3 w3) as E4.
  destruct (scrape_and_succeed (first_scrape env) task_id c3 w3) as [[[]|e4] w4];
    simpl in *; [apply Hone; by rewrite E4, E3|].
  destruct (is_extraction_failure e4); simpl; [|apply Hone; by rewrite E4, E3].
  pose proof (call_generate_config_calls url true (reanalysis env) w4) as E5.
  destruct (call_generate_config g url true (reanalysis env) w4) as [[c5|e5] w5];
    simpl in *; [|apply Htwo; by rewrite E5, E4, E3, E2].
  pose proof (update_config_settings_calls c5 headers timeout w5) as E6.
  destruct (_update_config_settings c5 headers timeout w5) as [[c6|e6] w6]; simpl in *;
    [|apply Htwo; by rewrite E6, E5, E4, E3, E2].
  pose proof (scrape_and_succeed_calls (second_scrape env) task_id c6 w6) as E7.
  destruct (scrape_and_succeed (second_scrape env) task_id c6 w6) as [[[]|e7] w7];
    simpl in *; apply Htwo; by rewrite E7, E6, E5, E4, E3, E2.
Qed.

(** X24. One execution of [process_task] calls [generate_config] at
    most twice, always for the url of the task: at most once without
    [force_refresh], and at most once with it, which is then the last
    call.  There is no third attempt within an execution. *)
Theorem process_task_generates_at_most_twice env retries task_id url headers timeout w :
  exists calls,
    generate_calls (process_task g derive env retries task_id url headers timeout w).2
    = generate_calls w ++ calls
    /\ (calls = [] \/ calls = [(url, false)] \/ calls = [(url, true)]
        \/ calls = [(url, false); (url, true)]).
Proof.
  unfold process_task, except_clauses.
  destruct (process_task_body_calls env task_id url headers timeout w) as (calls & E & H).
  destruct (process_task_body g env task_id url headers timeout w) as [[[]|e] w1];
    simpl in *; [by exists calls|].
  exists calls. split; [|done].
  destruct (is_ScrapingException derive e).
  - destruct (retries <? max_retries)%nat; simpl; by rewrite update_task_failure_calls.
  - simpl. by rewrite update_task_failure_calls.
Qed.

(** *** Retries *)

Lemma no_retry_from_three envs retries task_id url headers timeout w :
  (3 <= retries)%nat ->
  (run_task g derive envs retries task_id url headers timeout w).1 = [].
Proof.
  intros Hr. destruct envs as [|env envs]; simpl; [done|].
  destruct (process_task g derive env retries task_id url headers timeout w)
    as [[|c] w1] eqn:Hp; [done|].
  apply TaskManagerFacts.retry_after_marking_failed in Hp as (_ & Hlt & _). lia.
Qed.

Lemma countdowns_from envs retries task_id url headers timeout w :
  (run_task g derive envs retries task_id url headers timeout w).1
  `prefix_of` map (fun k => (60 * 2 ^ Z.of_nat k)%Z) (seq retries (3 - retries)).
Proof.
  revert retries w. induction envs as [|env envs IH]; intros retries w; simpl.
  { apply prefix_nil. }
  destruct (process_task g derive env retries task_id url headers timeout w)
    as [[|c] w1] eqn:Hp; [apply prefix_nil|].
  apply TaskManagerFacts.retry_after_marking_failed in Hp as (-> & Hlt & _).
  specialize (IH (S retries) w1).
  destruct (run_task g derive envs (S retries) task_id url headers timeout w1) as [cs w2].
  simpl in *.
  replace (3 - retries)%nat with (S (3 - S retries)) by lia. simpl.
  by apply prefix_cons.
Qed.

(** X25. However the executions fail, Celery runs a task of the task
    manager at most four times: the countdowns of the retries are an
    initial part of 60, 120, 240 seconds. *)
Theorem task_manager_retries_at_most_three_times envs task_id url headers timeout w :
  (run_task g derive envs 0 task_id url headers timeout w).1
  `prefix_of` [60; 120; 240]%Z.
Proof. apply (countdowns_from envs 0). Qed.

End OneExecution.

Lemma process_task_writes_its_own_record_witness :
  tasks (process_task example_generator true timeout_attempt 0 "t2" example_url None 30
           example_world).2 !! "t1"
  = tasks example_world !! "t1".
Proof.
  apply (process_task_writes_its_own_record example_generator true timeout_attempt 0
           "t2" example_url None 30 example_world "t1").
  left. discriminate.
Defined.

Lemma process_task_leaves_the_task_finished_witness :
  exists t,
    tasks (process_task example_generator true timeout_attempt 0 "t1" example_url None 30
             example_world).2 !! "t1"
    = Some t
    /\ is_Some (completed_at t)
    /\ ((process_task example_generator true timeout_attempt 0 "t1" example_url None 30
           example_world).1 = Finished
        /\ status t = COMPLETED /\ is_Some (task_result t)
        \/ status t = FAILED /\ is_Some (error t)
           /\ forall c,
                (process_task example_generator true timeout_attempt 0 "t1" example_url None
                   30 example_world).1
                = RetryIn c ->
                (0 < 3)%nat /\ c = (60 * 2 ^ Z.of_nat 0)%Z).
Proof.
  apply (process_task_leaves_the_task_finished example_generator true timeout_attempt 0
           "t1" example_url None 30 example_world).
  vm_compute. eauto.
Defined.

End ProcessTaskFacts.

(** ** [process_task] in app/queue_manager.py *)

Module CeleryQueueManagerFacts.
Import TaskManager.

Section OneExecution.
Variable g : schema_generator.
Variable derive : bool.

(** X26. A failure while the configuration is loaded or generated is
    handled differently by the two managers.  In app/queue_manager.py it
    is wrapped into a [ConfigGenerationError]: the task is marked
    [FAILED] with "Failed to get/generate config: ..." and a retry is
    requested while [retries < 3], with a countdown of
    [60 * 2 ^ retries] seconds.  In app/queue/task_manager.py a failure
    of the same step, unless it is a [ScrapingException] itself, ends
    the task at once with "Internal error: ..." and is never retried. *)
Theorem config_failure_is_retried_by_one_manager_only
    env retries task_id url headers timeout w :
  (forall e w2,
     CeleryQueueManager.load_or_generate g env url
       (_update_task_status task_id PROCESSING w).2
     = (Raise e, w2) ->
     CeleryQueueManager.process_task g derive env retries task_id url headers timeout w
     = (if (retries <? 3)%nat then RetryIn (60 * 2 ^ Z.of_nat retries) else Finished,
        (_update_task_failure task_id
           ("Failed to get/generate config: " ++ str_exn e)%string w2).2))
  /\ (forall e w2,
        get_or_generate_config g env url (_update_task_status task_id PROCESSING w).2
        = (Raise e, w2) ->
        is_ScrapingException derive e = false ->
        process_task g derive env retries task_id url headers timeout w
        = (Finished,
           (_update_task_failure task_id ("Internal error: " ++ str_exn e)%string w2).2)).
Proof.
  pose proof (ProcessTaskFacts.update_task_status_returns task_id PROCESSING w) as Hst.
  split.
  - intros e w2 Hcfg.
    unfold CeleryQueueManager.process_task, CeleryQueueManager.process_task_body,
      CeleryQueueManager._get_or_generate_config, CeleryQueueManager._handle_task_error,
      bind, try_catch, raise.
    destruct (_update_task_status task_id PROCESSING w) as [[[]|e1] w1];
      cbn [fst snd] in *; [|discriminate Hst].
    rewrite Hcfg. simpl.
    change CeleryQueueManager.MAX_RETRIES with 3%nat.
    by destruct (retries <? 3)%nat.
  - intros e w2 Hcfg Hcls. unfold process_task, except_clauses, process_task_body, bind.
    destruct (_update_task_status task_id PROCESSING w) as [[[]|e1] w1];
      cbn [fst snd] in *; [|discriminate Hst].
    rewrite Hcfg. by rewrite Hcls.
Qed.

End OneExecution.

Lemma config_failure_is_retried_by_one_manager_only_witness :
  exists e w2 e' w2',
    CeleryQueueManager.process_task example_generator true timeout_attempt 0
      "t1" example_url None 30 (initial_world "t1" example_url)
    = (RetryIn 60,
       (_update_task_failure "t1"
          ("Failed to get/generate config: " ++ str_exn e)%string w2).2)
    /\ process_task example_generator true timeout_attempt 0
         "t1" example_url None 30 (initial_world "t1" example_url)
       = (Finished,
          (_update_task_failure "t1" ("Internal error: " ++ str_exn e')%string w2').2).
Proof.
  eexists _, _, _, _.
  pose proof (config_failure_is_retried_by_one_manager_only example_generator true
                timeout_attempt 0 "t1" example_url None 30
                (initial_world "t1" example_url)) as [Hq Ht].
  split; [exact (Hq _ _ eq_refl)|]. apply (Ht _ _ eq_refl). reflexivity.
Defined.

End CeleryQueueManagerFacts.
